(** * The news-feed record pipeline: a shallow embedding

    The development follows the Python sources of the repository:

    - [Task6-Module. Files/task6.py]  delimited-line adapter
      ([FileRecordProcessor.process_file]) and [normalize_text];
    - [Task8-JSON Module/task8.py]    record classes, analytics
      ([update_word_count], [update_letter_count]), JSON adapter;
    - [Task9-XML/task9.py]            JSON and XML adapters, flat-file sink;
    - [Task10-Database API/task10.py] table sink ([DatabaseManager]).

    A [string] stands for a Python [str] of ASCII characters (the strings
    for which [str.isascii] holds): on these the character predicates and
    case mappings below are Python's.  A property that depends on how
    characters are classified is stated for such strings, with the
    hypothesis [PyStr.isascii].  Exceptions are values of [exn]; stateful
    code threads a [world] (files, printed output, clock). *)

From Stdlib Require Import ZArith NArith Ascii String List Bool Lia DecimalString.
From stdpp Require Import gmap strings list fin_maps.

Set Warnings "-register-all".
Local Open Scope Z_scope.

(** ** Exceptions and results *)

(** The exception classes the modelled code can raise. *)
Inductive exn : Type :=
| IndexError
| ValueError
| TypeError
| AttributeError
| JSONDecodeError
| ParseError
| OperationalError
| OSError.

(** Outcome of a Python expression: a value, or a raised exception. *)
Inductive result (A : Type) : Type :=
| Ok (a : A)
| Raise (e : exn).
Arguments Ok {A} a.
Arguments Raise {A} e.

Definition rbind {A B} (r : result A) (k : A -> result B) : result B :=
  match r with
  | Ok a => k a
  | Raise e => Raise e
  end.

Notation "'let*' x := e 'in' k" := (rbind e (fun x => k))
  (at level 10, x name, e at level 200, k at level 200).

(** A list comprehension whose element expression can raise: elements are
    evaluated left to right and the first exception ends the evaluation. *)
Fixpoint comprehension {A B} (f : A -> result B) (xs : list A) : result (list B) :=
  match xs with
  | [] => Ok []
  | x :: xs' =>
      let* y := f x in
      let* ys := comprehension f xs' in
      Ok (y :: ys)
  end.

(** ** Python [str] on the ASCII range

    Every definition of this module is the [str] method of its name on
    strings of ASCII characters.  Python classifies more characters
    (U+00A0 is whitespace, [é] is a letter) and maps the case of more
    (the capital of [ß] is [Ss]); those strings are outside the
    embedding, and the properties that depend on the classification
    assume [isascii]. *)

Module PyStr.

Definition code (c : ascii) : N := N_of_ascii c.

Definition in_range (lo hi : N) (c : ascii) : bool :=
  ((lo <=? code c) && (code c <=? hi))%N.

(** [str.isspace] for one ASCII character: TAB, LF, VT, FF, CR, the
    four separators 0x1c-0x1f and the space.  The regular-expression
    class [\s] of a [str] pattern is the same set on ASCII. *)
Definition isspace (c : ascii) : bool := in_range 9 13 c || in_range 28 32 c.

Definition isupper (c : ascii) : bool := in_range 65 90 c.
Definition islower (c : ascii) : bool := in_range 97 122 c.
Definition isalpha (c : ascii) : bool := isupper c || islower c.
Definition isdigit (c : ascii) : bool := in_range 48 57 c.

(** The class [\w] of a [str] pattern: alphanumeric or underscore. *)
Definition isword (c : ascii) : bool :=
  isalpha c || isdigit c || Ascii.eqb c "_".

Definition to_lower (c : ascii) : ascii :=
  if isupper c then ascii_of_N (code c + 32) else c.
Definition to_upper (c : ascii) : ascii :=
  if islower c then ascii_of_N (code c - 32) else c.

Fixpoint map_chars (f : ascii -> ascii) (s : string) : string :=
  match s with
  | EmptyString => EmptyString
  | String c r => String (f c) (map_chars f r)
  end.

(** [s.lower()] on ASCII: only [A..Z] change. *)
Definition lower (s : string) : string := map_chars to_lower s.

(** [s.capitalize()] on ASCII: first character upper-cased, the rest
    lower-cased. *)
Definition capitalize (s : string) : string :=
  match s with
  | EmptyString => EmptyString
  | String c r => String (to_upper c) (lower r)
  end.

Fixpoint lstrip_with (p : ascii -> bool) (s : string) : string :=
  match s with
  | EmptyString => EmptyString
  | String c r => if p c then lstrip_with p r else s
  end.

Fixpoint rstrip_with (p : ascii -> bool) (s : string) : string :=
  match s with
  | EmptyString => EmptyString
  | String c r =>
      match rstrip_with p r with
      | EmptyString => if p c then EmptyString else String c EmptyString
      | r' => String c r'
      end
  end.

(** [s.strip()] on ASCII: the whitespace removed at both ends is that
    of [isspace]. *)
Definition strip (s : string) : string := rstrip_with isspace (lstrip_with isspace s).

(** [s.rstrip(chars)] *)
Definition mem_char (chars : string) (c : ascii) : bool :=
  existsb (Ascii.eqb c) (list_ascii_of_string chars).
Definition rstrip_chars (chars : string) (s : string) : string :=
  rstrip_with (mem_char chars) s.

(** [s.split()]: the maximal runs of non-whitespace characters. *)
Fixpoint split (s : string) : list string :=
  match s with
  | EmptyString => []
  | String c r =>
      if isspace c then split r
      else
        match r with
        | EmptyString => [String c EmptyString]
        | String c' _ =>
            if isspace c' then String c EmptyString :: split r
            else
              match split r with
              | w :: ws => String c w :: ws
              | [] => [String c EmptyString]
              end
        end
  end.

(** [s.split(sep)] for a one-character separator: empty fields are kept. *)
Fixpoint split_on (sep : ascii) (s : string) : list string :=
  match s with
  | EmptyString => [EmptyString]
  | String c r =>
      if Ascii.eqb c sep then EmptyString :: split_on sep r
      else
        match split_on sep r with
        | w :: ws => String c w :: ws
        | [] => [String c EmptyString]
        end
  end.

(** [sep.join(parts)] *)
Fixpoint join (sep : string) (parts : list string) : string :=
  match parts with
  | [] => EmptyString
  | [p] => p
  | p :: ps => p +:+ sep +:+ join sep ps
  end.

(** [sum(1 for char in s if p(char))] *)
Fixpoint count_chars (p : ascii -> bool) (s : string) : nat :=
  match s with
  | EmptyString => O
  | String c r => if p c then S (count_chars p r) else count_chars p r
  end.

(** [s.isascii()]: every character is below 128. *)
Definition isascii (s : string) : bool :=
  forallb (fun c => (code c <? 128)%N) (list_ascii_of_string s).

(** [xs[-1]] *)
Definition index_last {A} (xs : list A) : result A :=
  match last xs with
  | Some x => Ok x
  | None => Raise IndexError
  end.

End PyStr.

(** ** The two regular expressions of [normalize_text] *)

Module PyRe.
Import PyStr.

Definition is_sentence_end (c : ascii) : bool := mem_char ".!?" c.

(** [re.split(r'(?<=[.!?])\s+', s)].  The scan keeps two facts about the
    position it is at: [in_sep], a separator match is being consumed;
    [after_end], the previous character is one of [.!?].  The head of
    the result is the piece under construction. *)
Fixpoint split_scan (in_sep after_end : bool) (s : string) : list string :=
  match s with
  | EmptyString => [EmptyString]
  | String c r =>
      if isspace c && (in_sep || after_end) then
        if in_sep then split_scan true false r
        else EmptyString :: split_scan true false r
      else
        match split_scan false (is_sentence_end c) r with
        | p :: ps => String c p :: ps
        | [] => [String c EmptyString]
        end
  end.

Definition split_sentences (s : string) : list string := split_scan false false s.

Definition starts_with_word (s : string) : bool :=
  match s with
  | EmptyString => false
  | String c _ => isword c
  end.

(** [re.sub(r'\b[iI]z\b', 'is', s)]; [after_word] tells whether the
    previous character of the subject is a word character. *)
Fixpoint sub_scan (after_word : bool) (s : string) : string :=
  match s with
  | EmptyString => EmptyString
  | String c1 EmptyString => s
  | String c1 (String c2 r as t) =>
      if negb after_word && (Ascii.eqb c1 "i" || Ascii.eqb c1 "I")
         && Ascii.eqb c2 "z" && negb (starts_with_word r)
      then String "i" (String "s" (sub_scan true r))
      else String c1 (sub_scan (isword c1) t)
  end.

Definition sub_iz (s : string) : string := sub_scan false s.

End PyRe.

(** ** [normalize_text]  (task6.py 6-41, task8.py 8-43, task9.py 9-19)

    On a text of ASCII characters; see [PyStr]. *)

Definition last_word (s : string) : result string :=
  PyStr.index_last (PyStr.split (PyStr.rstrip_chars ".!?" s)).

Definition normalize_text (text : string) : result (string * nat) :=
  let sentences := PyRe.split_sentences (PyStr.strip text) in
  let normalized_sentences := map PyStr.capitalize sentences in
  let corrected_sentences := map PyRe.sub_iz normalized_sentences in
  let* last_words := comprehension last_word corrected_sentences in
  let new_sentence := PyStr.capitalize (PyStr.join " " last_words) +:+ "." in
  let corrected_sentences := corrected_sentences ++ [new_sentence] in
  let normalized_text := PyStr.join " " corrected_sentences in
  let whitespace_count := PyStr.count_chars PyStr.isspace text in
  Ok (normalized_text, whitespace_count).

(** ** [datetime]: the part of Python's module the record classes use *)

Module DateTime.
Import PyStr.

Record datetime : Type := mk_datetime {
  year : Z; month : Z; day : Z;
  hour : Z; minute : Z; second : Z; microsecond : Z
}.

Record timedelta : Type := mk_timedelta {
  days : Z; seconds : Z; microseconds : Z
}.

Definition _is_leap (y : Z) : bool :=
  (y mod 4 =? 0) && (negb (y mod 100 =? 0) || (y mod 400 =? 0)).

Definition _days_before_year (y : Z) : Z :=
  let y := y - 1 in y * 365 + y / 4 - y / 100 + y / 400.

Definition _DAYS_IN_MONTH : list Z := [31; 28; 31; 30; 31; 30; 31; 31; 30; 31; 30; 31].

Definition _days_in_month (y m : Z) : Z :=
  if (m =? 2) && _is_leap y then 29
  else nth (Z.to_nat (m - 1)) _DAYS_IN_MONTH 0.

Definition _DAYS_BEFORE_MONTH : list Z :=
  [0; 31; 59; 90; 120; 151; 181; 212; 243; 273; 304; 334].

Definition _days_before_month (y m : Z) : Z :=
  nth (Z.to_nat (m - 1)) _DAYS_BEFORE_MONTH 0
  + (if (2 <? m) && _is_leap y then 1 else 0).

Definition _ymd2ord (y m d : Z) : Z :=
  _days_before_year y + _days_before_month y m + d.

Definition toordinal (t : datetime) : Z := _ymd2ord (year t) (month t) (day t).

(** [timedelta(days, seconds, microseconds)]: the constructor carries
    microseconds into seconds and seconds into days with [divmod], so
    that [0 <= seconds < 86400] and [0 <= microseconds < 10**6]. *)
Definition timedelta_new (d s us : Z) : timedelta :=
  let s := s + us / 1000000 in
  {| days := d + s / 86400; seconds := s mod 86400; microseconds := us mod 1000000 |}.

(** [a - b] on two [datetime] values. *)
Definition sub (a b : datetime) : timedelta :=
  let secs t := second t + minute t * 60 + hour t * 3600 in
  timedelta_new (toordinal a - toordinal b) (secs a - secs b)
                (microsecond a - microsecond b).

(** *** [strptime(s, '%Y-%m-%d')]

    The format compiles to the regular expression
    [(\d\d\d\d)-(1[0-2]|0[1-9]|[1-9])-(3[0-1]|[1-2]\d|0[1-9]|[1-9]| [1-9])],
    matched at the start of the string; the alternatives are tried in
    order, and characters left after the match are an error.  On an
    ASCII string [\d] is one of the ten digits [0..9]. *)

Definition digit (c : ascii) : option Z :=
  if isdigit c then Some (Z.of_N (code c - 48)) else None.

Definition digit_in (lo hi : Z) (c : ascii) : option Z :=
  match digit c with
  | Some v => if (lo <=? v) && (v <=? hi) then Some v else None
  | None => None
  end.

Definition first_some {A} (alts : list (option A)) : option A :=
  foldr (fun a rest => match a with Some _ => a | None => rest end) None alts.

Definition parse_Y (s : string) : option (Z * string) :=
  match s with
  | String a (String b (String c (String d r))) =>
      match digit a, digit b, digit c, digit d with
      | Some a, Some b, Some c, Some d => Some (a * 1000 + b * 100 + c * 10 + d, r)
      | _, _, _, _ => None
      end
  | _ => None
  end.

Definition parse_lit (l : ascii) (s : string) : option string :=
  match s with
  | String c r => if Ascii.eqb c l then Some r else None
  | EmptyString => None
  end.

(** Two characters: a digit in [tlo..thi], then a digit in [lo..hi]. *)
Definition two_digits (tlo thi lo hi : Z) (s : string) : option (Z * string) :=
  match s with
  | String c1 (String c2 r) =>
      match digit_in tlo thi c1, digit_in lo hi c2 with
      | Some a, Some b => Some (a * 10 + b, r)
      | _, _ => None
      end
  | _ => None
  end.

Definition one_digit (lo hi : Z) (s : string) : option (Z * string) :=
  match s with
  | String c r => match digit_in lo hi c with Some v => Some (v, r) | None => None end
  | EmptyString => None
  end.

Definition m_alternatives (s : string) : list (option (Z * string)) :=
  [two_digits 1 1 0 2 s; two_digits 0 0 1 9 s; one_digit 1 9 s].

Definition d_alternatives (s : string) : list (option (Z * string)) :=
  [two_digits 3 3 0 1 s; two_digits 1 2 0 9 s; two_digits 0 0 1 9 s;
   one_digit 1 9 s;
   match parse_lit " " s with Some r => one_digit 1 9 r | None => None end].

(** The match as a whole: year, month, day and the unconverted rest. *)
Definition match_ymd (s : string) : option (Z * Z * Z * string) :=
  match parse_Y s with
  | Some (y, s1) =>
      match parse_lit "-" s1 with
      | Some s2 =>
          first_some
            (map (fun alt =>
                    match alt with
                    | Some (m, s3) =>
                        match parse_lit "-" s3 with
                        | Some s4 =>
                            match first_some (d_alternatives s4) with
                            | Some (d, s5) => Some (y, m, d, s5)
                            | None => None
                            end
                        | None => None
                        end
                    | None => None
                    end)
                 (m_alternatives s2))
      | None => None
      end
  | None => None
  end.

Definition MINYEAR : Z := 1.
Definition MAXYEAR : Z := 9999.

Definition strptime_ymd (s : string) : result datetime :=
  match match_ymd s with
  | Some (y, m, d, EmptyString) =>
      if (MINYEAR <=? y) && (y <=? MAXYEAR) && (d <=? _days_in_month y m)
      then Ok (mk_datetime y m d 0 0 0 0)
      else Raise ValueError
  | _ => Raise ValueError
  end.

(** *** [strftime] *)

Definition str_Z (z : Z) : string := NilZero.string_of_int (Z.to_int z).

Definition pad2 (z : Z) : string :=
  if z <? 10 then "0" +:+ str_Z z else str_Z z.

(** [%Y]: CPython hands the format to the C library, and glibc prints
    the year as a plain decimal number, without padding: the year 5 is
    printed as [5], not as [0005]. *)
Definition fmt_Y (z : Z) : string := str_Z z.

(** [t.strftime('%Y-%m-%d')] *)
Definition strftime_ymd (t : datetime) : string :=
  fmt_Y (year t) +:+ "-" +:+ pad2 (month t) +:+ "-" +:+ pad2 (day t).

(** [t.strftime('%Y-%m-%d %H:%M:%S')] *)
Definition strftime_ymd_hms (t : datetime) : string :=
  strftime_ymd t +:+ " " +:+ pad2 (hour t) +:+ ":" +:+ pad2 (minute t)
  +:+ ":" +:+ pad2 (second t).

End DateTime.

(** ** Python values read from JSON, and their printed form *)

(** What [json.load] returns.  A float is kept as its [repr]; the keys of
    a dict are distinct ([json.load] keeps the last value of a repeated
    key) and in document order. *)
Inductive pyval : Type :=
| PNone
| PBool (b : bool)
| PInt (z : Z)
| PFloat (repr : string)
| PStr (s : string)
| PList (items : list pyval)
| PDict (entries : list (string * pyval)).

Module PyVal.
Import PyStr.

Definition hex_digit (n : N) : ascii :=
  if (n <? 10)%N then ascii_of_N (48 + n) else ascii_of_N (87 + n).

(** The double quote. *)
Definition dquote : ascii := "034".

(** One character of [repr(s)] inside the quotes [q]. *)
Definition repr_char (q c : ascii) : string :=
  if Ascii.eqb c q || Ascii.eqb c "\" then String "\" (String c EmptyString)
  else if (code c =? 9)%N then "\t"
  else if (code c =? 10)%N then "\n"
  else if (code c =? 13)%N then "\r"
  else if (code c <? 32)%N || (code c =? 127)%N then
    String "\" (String "x" (String (hex_digit (code c / 16))
                           (String (hex_digit (code c mod 16)) EmptyString)))
  else String c EmptyString.

Fixpoint repr_chars (q : ascii) (s : string) : string :=
  match s with
  | EmptyString => EmptyString
  | String c r => repr_char q c +:+ repr_chars q r
  end.

(** [repr(s)] of a str: single quotes, unless the string holds a single
    quote and no double quote. *)
Definition repr_str (s : string) : string :=
  let q : ascii :=
    if mem_char s "'" && negb (mem_char s dquote) then dquote else "'"%char in
  String q (repr_chars q s) +:+ String q EmptyString.

Fixpoint repr (v : pyval) : string :=
  match v with
  | PNone => "None"
  | PBool true => "True"
  | PBool false => "False"
  | PInt z => DateTime.str_Z z
  | PFloat r => r
  | PStr s => repr_str s
  | PList items => "[" +:+ join ", " (map repr items) +:+ "]"
  | PDict entries =>
      "{" +:+ join ", " (map (fun kv => repr_str (fst kv) +:+ ": " +:+ repr (snd kv)) entries)
      +:+ "}"
  end.

(** [str(v)], which is what an f-string field prints. *)
Definition str (v : pyval) : string :=
  match v with
  | PStr s => s
  | _ => repr v
  end.

(** [d.get(key)] on a dict: the value, or [None]. *)
Fixpoint dict_get (entries : list (string * pyval)) (key : string) : pyval :=
  match entries with
  | [] => PNone
  | (k, v) :: rest => if String.eqb k key then v else dict_get rest key
  end.

(** [v.get(key)]: only a dict has the method. *)
Definition get (v : pyval) (key : string) : result pyval :=
  match v with
  | PDict entries => Ok (dict_get entries key)
  | _ => Raise AttributeError
  end.

(** [v == s] for a str literal [s]. *)
Definition eq_str (v : pyval) (s : string) : bool :=
  match v with
  | PStr s' => String.eqb s' s
  | _ => false
  end.

Fixpoint chars (s : string) : list pyval :=
  match s with
  | EmptyString => []
  | String c r => PStr (String c EmptyString) :: chars r
  end.

(** [for x in v]: the items a [for] loop visits. *)
Definition iterate (v : pyval) : result (list pyval) :=
  match v with
  | PList items => Ok items
  | PDict entries => Ok (map (fun kv => PStr (fst kv)) entries)
  | PStr s => Ok (chars s)
  | _ => Raise TypeError
  end.

End PyVal.

(** ** XML documents as [xml.etree.ElementTree] presents them *)

Inductive element : Type :=
| Element (tag : string) (attrib : list (string * string))
          (text : option string) (children : list element).

Module ET.

Definition tag_of (e : element) : string := let 'Element t _ _ _ := e in t.
Definition children_of (e : element) : list element := let 'Element _ _ _ c := e in c.

(** [e.text]: the text before the first child, [None] when there is none. *)
Definition text_of (e : element) : option string := let 'Element _ _ t _ := e in t.

(** [e.get(key)]: the attribute, or [None]. *)
Definition get (e : element) (key : string) : option string :=
  let 'Element _ a _ _ := e in
  match List.find (fun kv => String.eqb (fst kv) key) a with
  | Some kv => Some (snd kv)
  | None => None
  end.

(** [e.findall(tag)]: the direct children with that tag, in order. *)
Definition findall (e : element) (tag : string) : list element :=
  List.filter (fun c => String.eqb (tag_of c) tag) (children_of e).

(** [e.find(tag)]: the first such child, or [None]. *)
Definition find (e : element) (tag : string) : option element :=
  List.find (fun c => String.eqb (tag_of c) tag) (children_of e).

End ET.

(** ** The world: files, printed output and the clock *)

(** One row cell handed to [csv.writer.writerow].  [CellPercent u t] is
    the float [(u / t) * 100]. *)
Inductive cell : Type :=
| CellStr (s : string)
| CellInt (z : Z)
| CellPercent (uppercase total : nat).

(** What a file holds.  [Text] is a plain text file that is neither a JSON
    nor an XML document; [Csv] is a file written through [csv.writer], as
    the rows written; [Json] and [Xml] are documents, kept as the value
    their parser returns; [Other] is anything else. *)
Inductive content : Type :=
| Text (s : string)
| Csv (rows : list (list cell))
| Json (v : pyval)
| Xml (root : element)
| Other.

(** [C] is the type of file contents: [string] for the programs that only
    handle text files, [content] for the others.  [clock n] is what the
    [n]-th call of [datetime.datetime.now()] returns. *)
Record world (C : Type) : Type := mk_world {
  fs : gmap string C;
  stdout : list string;
  clock : nat -> DateTime.datetime;
  ticks : nat
}.
Arguments mk_world {C} _ _ _ _.
Arguments fs {C} _.
Arguments stdout {C} _.
Arguments clock {C} _.
Arguments ticks {C} _.

Definition set_fs {C} (f : gmap string C -> gmap string C) (w : world C) : world C :=
  mk_world (f (fs w)) (stdout w) (clock w) (ticks w).

(** Opening a file in append mode and writing [s]. *)
Class TextFile (C : Type) : Type := {
  append_text : option C -> string -> C
}.

#[global] Instance string_TextFile : TextFile string := {
  append_text old s := match old with Some t => t +:+ s | None => s end
}.

#[global] Instance content_TextFile : TextFile content := {
  append_text old s :=
    match old with
    | None => Text s
    | Some (Text t) => Text (t +:+ s)
    | Some _ => Other
    end
}.

(** Statements: a world goes in; a result and a world come out.  An
    exception keeps the effects made before it was raised. *)
Definition M (C A : Type) : Type := world C -> result A * world C.

Definition ret {C A} (a : A) : M C A := fun w => (Ok a, w).
Definition raise {C A} (e : exn) : M C A := fun w => (Raise e, w).
Definition lift {C A} (r : result A) : M C A := fun w => (r, w).

Definition bind {C A B} (m : M C A) (k : A -> M C B) : M C B :=
  fun w =>
    match m w with
    | (Ok a, w') => k a w'
    | (Raise e, w') => (Raise e, w')
    end.

Notation "'let!' x := e 'in' k" := (bind e (fun x => k))
  (at level 10, x name, e at level 200, k at level 200).
Notation "e ;; k" := (bind e (fun _ => k))
  (at level 100, k at level 200, right associativity).

(** [for x in xs: body] *)
Fixpoint for_each {C A} (body : A -> M C unit) (xs : list A) : M C unit :=
  match xs with
  | [] => ret tt
  | x :: xs' => body x ;; for_each body xs'
  end.

Module Sys.
Section Ops.
Context {C : Type} `{TextFile C}.

(** [datetime.datetime.now()] *)
Definition now : M C DateTime.datetime :=
  fun w => (Ok (clock w (ticks w)),
            mk_world (fs w) (stdout w) (clock w) (S (ticks w))).

(** [print(msg)] *)
Definition print (msg : string) : M C unit :=
  fun w => (Ok tt, mk_world (fs w) (stdout w ++ [msg]) (clock w) (ticks w)).

(** [os.path.exists(path)] *)
Definition path_exists (path : string) : M C bool :=
  fun w => (Ok (match fs w !! path with Some _ => true | None => false end), w).

(** [os.remove(path)] *)
Definition remove (path : string) : M C unit :=
  fun w =>
    match fs w !! path with
    | Some _ => (Ok tt, set_fs (delete path) w)
    | None => (Raise OSError, w)
    end.

(** [with open(path, 'a') as file: file.write(s)] *)
Definition append_file (path : string) (s : string) : M C unit :=
  fun w => (Ok tt, set_fs (fun f => <[path := append_text (f !! path) s]> f) w).

(** [with open(path, 'w') as file: ...] leaving [c] in the file. *)
Definition write_file (path : string) (c : C) : M C unit :=
  fun w => (Ok tt, set_fs (insert path c) w).

(** [with open(path, 'r') as file: ...]: the stored content. *)
Definition read_file (path : string) : M C C :=
  fun w =>
    match fs w !! path with
    | Some c => (Ok c, w)
    | None => (Raise OSError, w)
    end.
End Ops.
End Sys.

(** ** The record classes
    (task6.py 44-116, task8.py 46-118, task9.py 22-61, task10.py 73-109)

    The four programs define the same classes.  [V] is the type of the
    values their callers pass as [text], [city], [location] and the date
    strings: [string] where every caller passes a [str], [pyval] where
    the values come from [record_data.get]. *)

Class Field (V : Type) : Type := {
  as_str : V -> option string;   (* the [str] the value is, if it is one *)
  fmt : V -> string              (* what an f-string prints for it *)
}.

#[global] Instance string_Field : Field string := {
  as_str s := Some s;
  fmt s := s
}.

#[global] Instance pyval_Field : Field pyval := {
  as_str v := match v with PStr s => Some s | _ => None end;
  fmt v := PyVal.str v
}.

Inductive record (V : Type) : Type :=
| News (text : V) (publish_date : string) (city : V)
| PrivateAd (text : V) (publish_date : string)
            (expiration_date : DateTime.datetime) (days_left : Z)
| Event (text : V) (publish_date : string) (location : V)
        (event_date : DateTime.datetime) (days_until_event : Z).
Arguments News {V} _ _ _.
Arguments PrivateAd {V} _ _ _ _.
Arguments Event {V} _ _ _ _ _.

Definition text {V} (r : record V) : V :=
  match r with
  | News t _ _ | PrivateAd t _ _ _ | Event t _ _ _ _ => t
  end.

Definition publish_date {V} (r : record V) : string :=
  match r with
  | News _ p _ | PrivateAd _ p _ _ | Event _ p _ _ _ => p
  end.

Module Classes.
Import DateTime.
Section WithValues.
Context {C V : Type} `{Field V}.

(** [datetime.datetime.strptime(v, '%Y-%m-%d')]: the first argument
    must be a [str]. *)
Definition strptime (v : V) : result datetime :=
  match as_str v with
  | Some s => strptime_ymd s
  | None => Raise TypeError
  end.

(** [Record.__init__]: stamps the publish date. *)
Definition Record_init : M C string :=
  let! t := Sys.now in
  ret (strftime_ymd_hms t).

(** [News.__init__] *)
Definition News_init (text city : V) : M C (record V) :=
  let! publish_date := Record_init in
  ret (News text publish_date city).

(** [PrivateAd.__init__] *)
Definition PrivateAd_init (text expiration_date : V) : M C (record V) :=
  let! publish_date := Record_init in
  let! expiration := lift (strptime expiration_date) in
  let! t := Sys.now in
  ret (PrivateAd text publish_date expiration (days (sub expiration t))).

(** [Event.__init__] *)
Definition Event_init (text location event_date : V) : M C (record V) :=
  let! publish_date := Record_init in
  let! date := lift (strptime event_date) in
  let! t := Sys.now in
  ret (Event text publish_date location date (days (sub date t))).

(** The line each [save_to_file] writes. *)
Definition feed_line (r : record V) : string :=
  match r with
  | News text publish_date city =>
      publish_date +:+ " " +:+ fmt city +:+ " " +:+ fmt text +:+ String "010" ""
  | PrivateAd text publish_date _ days_left =>
      publish_date +:+ " " +:+ fmt text +:+ " Days left: " +:+ str_Z days_left
      +:+ String "010" ""
  | Event text publish_date location _ days_until_event =>
      publish_date +:+ " " +:+ fmt location +:+ " " +:+ fmt text
      +:+ " Days until event: " +:+ str_Z days_until_event +:+ String "010" ""
  end.

(** [record.save_to_file(file_name)] *)
Definition save_to_file `{TextFile C} (r : record V) (file_name : string) : M C unit :=
  Sys.append_file file_name (feed_line r).

End WithValues.
End Classes.

(** ** Task 6: the delimited-line adapter  (task6.py 119-166) *)

Module Task6.
Import PyStr Classes.

Definition LF : ascii := "010".
Definition CR : ascii := "013".

(** Text-mode reading translates [\r\n] and [\r] to [\n]. *)
Fixpoint universal_newlines (s : string) : string :=
  match s with
  | EmptyString => EmptyString
  | String c r =>
      if Ascii.eqb c CR then
        match r with
        | String c' r' =>
            if Ascii.eqb c' LF then String LF (universal_newlines r')
            else String LF (universal_newlines r)
        | EmptyString => String LF EmptyString
        end
      else String c (universal_newlines r)
  end.

Fixpoint lines_keepends (s : string) : list string :=
  match s with
  | EmptyString => []
  | String c r =>
      if Ascii.eqb c LF then String c EmptyString :: lines_keepends r
      else
        match lines_keepends r with
        | l :: ls => String c l :: ls
        | [] => [String c EmptyString]
        end
  end.

(** [file.readlines()] *)
Definition readlines (s : string) : list string :=
  lines_keepends (universal_newlines s).

(** [parts[i]] *)
Definition index (parts : list string) (i : nat) : result string :=
  match parts !! i with
  | Some p => Ok p
  | None => Raise IndexError
  end.

Record FileRecordProcessor : Type := {
  input_file : string;
  output_file : string
}.

(** [FileRecordProcessor.__init__] *)
Definition FileRecordProcessor_init (input_file : option string) (output_file : string)
  : FileRecordProcessor :=
  {| input_file := match input_file with
                   | Some (String c r) => String c r
                   | _ => "default_folder/input_file.txt"
                   end;
     output_file := output_file |}.

(** The branch of the loop body that builds the record; [None] is the
    [else] branch, which prints and continues. *)
Definition build_record (line : string) : M string (option (record string)) :=
  let parts := split_on "|" (strip line) in
  let! record_type := lift (index parts 0) in
  let record_type := strip record_type in
  let! text := lift (index parts 1) in
  let text := strip text in
  let! normalized := lift (normalize_text text) in
  let normalized_text := fst normalized in
  if String.eqb record_type "News" && (length parts =? 3)%nat then
    let! city := lift (index parts 2) in
    let! record := News_init normalized_text (strip city) in
    ret (Some record)
  else if String.eqb record_type "PrivateAd" && (length parts =? 3)%nat then
    let! expiration_date := lift (index parts 2) in
    let! record := PrivateAd_init normalized_text (strip expiration_date) in
    ret (Some record)
  else if String.eqb record_type "Event" && (length parts =? 4)%nat then
    let! location := lift (index parts 2) in
    let! event_date := lift (index parts 3) in
    let! record := Event_init normalized_text (strip location) (strip event_date) in
    ret (Some record)
  else
    Sys.print ("Invalid record format for: " +:+ line) ;;
    ret None.

(** The body of the [for line in lines] loop. *)
Definition process_line (self : FileRecordProcessor) (line : string) : M string unit :=
  let! built := build_record line in
  match built with
  | Some record => save_to_file record (output_file self)
  | None => ret tt
  end.

(** [FileRecordProcessor.process_file] *)
Definition process_file (self : FileRecordProcessor) : M string unit :=
  let! found := Sys.path_exists (input_file self) in
  if negb found then
    Sys.print ("File " +:+ input_file self +:+ " does not exist.")
  else
    let! data := Sys.read_file (input_file self) in
    let lines := readlines data in
    for_each (process_line self) lines ;;
    Sys.remove (input_file self) ;;
    Sys.print ("File " +:+ input_file self +:+ " processed and removed.").

End Task6.

(** ** Task 8: analytics and the JSON adapter  (task8.py 121-235) *)

Module Task8.
Import PyStr Classes.

Record NewsFeed : Type := {
  file_name : string;
  word_count_file : string;
  letter_count_file : string
}.

(** [NewsFeed()] with its default arguments. *)
Definition NewsFeed_default : NewsFeed :=
  {| file_name := "news_feed.txt";
     word_count_file := "word-count.csv";
     letter_count_file := "letter-count.csv" |}.

(** A [dict] from words to counts, in insertion order. *)
Definition counter : Type := list (string * Z).

(** [d.get(word, 0)] *)
Fixpoint counter_get (d : counter) (word : string) : Z :=
  match d with
  | [] => 0
  | (k, n) :: rest => if String.eqb k word then n else counter_get rest word
  end.

(** [d[word] = n]: a key that is present keeps its place. *)
Fixpoint counter_set (d : counter) (word : string) (n : Z) : counter :=
  match d with
  | [] => [(word, n)]
  | (k, m) :: rest =>
      if String.eqb k word then (k, n) :: rest
      else (k, m) :: counter_set rest word n
  end.

(** [for word in words: word_count[word] = word_count.get(word, 0) + 1] *)
Definition tally (words : list string) : counter :=
  fold_left (fun d word => counter_set d word (counter_get d word + 1)) words [].

Definition word_rows (text : string) : list (list cell) :=
  let words := split (lower text) in
  let word_count := tally words in
  [CellStr "Word"; CellStr "Count"]
    :: map (fun wc => [CellStr (fst wc); CellInt (snd wc)]) word_count.

(** [NewsFeed.update_word_count]: [text.lower()] needs a [str]. *)
Definition update_word_count (self : NewsFeed) (text : pyval) : M content unit :=
  match text with
  | PStr s => Sys.write_file (word_count_file self) (Csv (word_rows s))
  | _ => raise AttributeError
  end.

(** [s.isalpha()] and [s.isupper()] on a whole string of ASCII
    characters. *)
Definition str_isalpha (s : string) : bool :=
  match s with
  | EmptyString => false
  | _ => forallb isalpha (list_ascii_of_string s)
  end.
Definition str_isupper (s : string) : bool :=
  existsb isalpha (list_ascii_of_string s)
  && negb (existsb islower (list_ascii_of_string s)).

(** The item [char] of [for char in text] must have [isalpha]. *)
Definition the_str (v : pyval) : result string :=
  match v with
  | PStr s => Ok s
  | _ => Raise AttributeError
  end.

Definition letter_rows (text : pyval) : result (list (list cell)) :=
  let* items := PyVal.iterate text in
  let* chars := comprehension the_str items in
  let letters := List.filter str_isalpha chars in
  let total_letters := length letters in
  let uppercase_count := length (List.filter str_isupper letters) in
  let uppercase_percentage :=
    match total_letters with
    | O => CellInt 0
    | _ => CellPercent uppercase_count total_letters
    end in
  Ok [[CellStr "Letter"; CellStr "Count_All"; CellStr "Count_Uppercase"; CellStr "Percentage"];
      [CellStr (PyVal.str text); CellInt (Z.of_nat total_letters);
       CellInt (Z.of_nat uppercase_count); uppercase_percentage]].

(** [NewsFeed.update_letter_count] *)
Definition update_letter_count (self : NewsFeed) (text : pyval) : M content unit :=
  let! rows := lift (letter_rows text) in
  Sys.write_file (letter_count_file self) (Csv rows).

(** The two statements under [# Update CSV files]. *)
Definition update_csv_files (self : NewsFeed) (text : pyval) : M content unit :=
  update_word_count self text ;;
  update_letter_count self text.

(** Saving a record and updating the analytics: the tail of the loop
    body of both adapters. *)
Definition publish (self : NewsFeed) (r : record pyval) : M content unit :=
  save_to_file r (file_name self) ;;
  update_csv_files self (text r).

(** [json.load(file)] on the file at [path]. *)
Definition json_load (path : string) : M content pyval :=
  let! c := Sys.read_file path in
  match c with
  | Json v => ret v
  | _ => raise JSONDecodeError
  end.

(** The branch of the loop body that builds the record; [None] is the
    [else] branch, which prints and continues. *)
Definition build_record (record_data : pyval) : M content (option (record pyval)) :=
  let! record_type := lift (PyVal.get record_data "type") in
  let! text := lift (PyVal.get record_data "text") in
  if PyVal.eq_str record_type "news" then
    let! city := lift (PyVal.get record_data "city") in
    let! record := News_init text city in
    ret (Some record)
  else if PyVal.eq_str record_type "private_ad" then
    let! expiration_date := lift (PyVal.get record_data "expiration_date") in
    let! record := PrivateAd_init text expiration_date in
    ret (Some record)
  else if PyVal.eq_str record_type "event" then
    let! location := lift (PyVal.get record_data "location") in
    let! event_date := lift (PyVal.get record_data "event_date") in
    let! record := Event_init text location event_date in
    ret (Some record)
  else
    Sys.print ("Unknown record type: " +:+ PyVal.str record_type) ;;
    ret None.

(** The body of [for record_data in records_data]. *)
Definition load_item (self : NewsFeed) (record_data : pyval) : M content unit :=
  let! built := build_record record_data in
  match built with
  | Some record => publish self record
  | None => ret tt
  end.

(** [NewsFeed.load_from_json] *)
Definition load_from_json (self : NewsFeed) (json_file_path : string) : M content unit :=
  let! found := Sys.path_exists json_file_path in
  if negb found then
    Sys.print "The specified file does not exist."
  else
    let! records_data := json_load json_file_path in
    let! items := lift (PyVal.iterate records_data) in
    for_each (load_item self) items ;;
    Sys.remove json_file_path ;;
    Sys.print ("File " +:+ json_file_path +:+ " processed and removed.").

End Task8.

(** ** Task 9: the XML adapter  (task9.py 123-162)

    task9.py repeats the classes, the analytics and [load_from_json] of
    task8.py; [XMLLoader] is what it adds. *)

Module Task9.
Import PyStr Classes.

Record XMLLoader : Type := {
  news_feed : Task8.NewsFeed;
  default_folder : string
}.

(** [os.path.join(folder, name)] for a relative [name]. *)
Definition path_join (folder name : string) : string :=
  match folder with
  | EmptyString => name
  | _ =>
      if String.eqb (rstrip_chars "/" folder) folder
      then folder +:+ "/" +:+ name
      else folder +:+ name
  end.

(** [ET.parse(path).getroot()] *)
Definition parse (path : string) : M content element :=
  let! c := Sys.read_file path in
  match c with
  | Xml root => ret root
  | _ => raise ParseError
  end.

(** [record.find(tag).text.strip()]: both [find] and [text] can be
    [None], which has no attribute to read. *)
Definition field_text (elem : element) (tag : string) : result string :=
  match ET.find elem tag with
  | None => Raise AttributeError
  | Some child =>
      match ET.text_of child with
      | None => Raise AttributeError
      | Some t => Ok (strip t)
      end
  end.

Definition option_str (o : option string) : string :=
  match o with
  | Some s => s
  | None => "None"
  end.

Definition build_record (elem : element) : M content (option (record pyval)) :=
  let record_type := ET.get elem "type" in
  let! text := lift (field_text elem "text") in
  if bool_decide (record_type = Some "news") then
    let! city := lift (field_text elem "city") in
    let! obj := News_init (PStr text) (PStr city) in
    ret (Some obj)
  else if bool_decide (record_type = Some "private_ad") then
    let! expiration_date := lift (field_text elem "expiration_date") in
    let! obj := PrivateAd_init (PStr text) (PStr expiration_date) in
    ret (Some obj)
  else if bool_decide (record_type = Some "event") then
    let! location := lift (field_text elem "location") in
    let! event_date := lift (field_text elem "event_date") in
    let! obj := Event_init (PStr text) (PStr location) (PStr event_date) in
    ret (Some obj)
  else
    Sys.print ("Unknown record type: " +:+ option_str record_type) ;;
    ret None.

(** The body of [for record in root.findall("record")]. *)
Definition load_item (self : XMLLoader) (elem : element) : M content unit :=
  let! built := build_record elem in
  match built with
  | Some obj => Task8.publish (news_feed self) obj
  | None => ret tt
  end.

(** [if xml_file_path is None: xml_file_path = os.path.join(...)] *)
Definition xml_path (self : XMLLoader) (xml_file_path : option string) : string :=
  match xml_file_path with
  | Some p => p
  | None => path_join (default_folder self) "records.xml"
  end.

(** [XMLLoader.load_from_xml] *)
Definition load_from_xml (self : XMLLoader) (xml_file_path : option string) : M content unit :=
  let xml_file_path := xml_path self xml_file_path in
  let! found := Sys.path_exists xml_file_path in
  if negb found then
    Sys.print "The specified XML file does not exist."
  else
    let! root := parse xml_file_path in
    for_each (load_item self) (ET.findall root "record") ;;
    Sys.remove xml_file_path ;;
    Sys.print ("XML file " +:+ xml_file_path +:+ " processed and removed.").

End Task9.

(** ** Task 10: the table sink  (task10.py 23-109)

    The database of [sqlite3.connect(db_name)] is a finite map from table
    names to tables.  Every table has the rowid column
    [id INTEGER PRIMARY KEY AUTOINCREMENT] first, as the three tables made
    by [create_tables] have; [columns] lists the columns after it.

    The values bound to a statement are [None], an [int] (one that fits
    the 64 bits of an SQLite INTEGER) and a [str]; a table name is the
    name of a table, written as a plain identifier. *)

Module Task10.
Import Classes.

(** A value bound to a placeholder. *)
Inductive sqlval : Type :=
| SqlNull
| SqlInt (z : Z)
| SqlText (s : string).

#[global] Instance sqlval_eq_dec : EqDecision sqlval.
Proof. solve_decision. Defined.

Inductive coltype : Type := TEXT | INTEGER.

(** What a column holds.  A bound value is kept as it is unless the
    affinity of the column converts it.  [Numeric s] is what INTEGER
    affinity makes of the [str] [s]: the INTEGER or REAL that [s] spells
    (['5'], [' 5'] and ['5.0'] give 5, ['1.5'] gives 1.5), or the text
    itself when it spells no number.  That conversion is not computed
    here: the tables of [create_tables] put no constraint on an INTEGER
    column, so SQLite never compares such values. *)
Inductive stored : Type :=
| Kept (v : sqlval)
| Numeric (s : string).

#[global] Instance stored_eq_dec : EqDecision stored.
Proof. solve_decision. Defined.

(** Column affinity.  A TEXT column stores an INTEGER as its decimal
    text; an INTEGER column converts a text; NULL is stored as NULL. *)
Definition affinity (t : coltype) (v : sqlval) : stored :=
  match t, v with
  | TEXT, SqlInt z => Kept (SqlText (DateTime.str_Z z))
  | INTEGER, SqlText s => Numeric s
  | _, _ => Kept v
  end.

Record column : Type := mk_column {
  col_name : string;
  col_type : coltype;
  col_unique : bool
}.

Record row : Type := mk_row {
  row_id : Z;
  row_values : list stored
}.

(** [sequence] is the entry of the table in [sqlite_sequence]: the
    largest rowid handed out so far. *)
Record table : Type := mk_table {
  columns : list column;
  rows : list row;
  sequence : Z
}.

(** SQLite compares table names without regard to ASCII case. *)
Definition table_key (name : string) : string := PyStr.lower name.

(** [CREATE TABLE IF NOT EXISTS name (id ..., columns)] *)
Definition create_table_if_not_exists (name : string) (cols : list column)
    (db : gmap string table) : gmap string table :=
  match db !! table_key name with
  | Some _ => db
  | None => <[table_key name := mk_table cols [] 0]> db
  end.

Definition News_columns : list column :=
  [mk_column "text" TEXT true; mk_column "city" TEXT false;
   mk_column "publish_date" TEXT false].

Definition PrivateAd_columns : list column :=
  [mk_column "text" TEXT true; mk_column "expiration_date" TEXT false;
   mk_column "days_left" INTEGER false; mk_column "publish_date" TEXT false].

Definition Event_columns : list column :=
  [mk_column "text" TEXT true; mk_column "location" TEXT false;
   mk_column "event_date" TEXT false; mk_column "days_until_event" INTEGER false;
   mk_column "publish_date" TEXT false].

(** [DatabaseManager.create_tables] *)
Definition create_tables (db : gmap string table) : gmap string table :=
  let db := create_table_if_not_exists "News" News_columns db in
  let db := create_table_if_not_exists "PrivateAd" PrivateAd_columns db in
  create_table_if_not_exists "Event" Event_columns db.

(** [DatabaseManager.__init__]: connect to the database, create the
    tables. *)
Definition DatabaseManager_init (db : gmap string table) : gmap string table :=
  create_tables db.

(** The values of a new row as the columns store them. *)
Fixpoint store (cols : list column) (values : list sqlval) : list stored :=
  match cols, values with
  | c :: cols', v :: values' => affinity (col_type c) v :: store cols' values'
  | _, _ => []
  end.

Definition is_null (v : stored) : bool :=
  match v with
  | Kept SqlNull => true
  | _ => false
  end.

(** A new row violates a UNIQUE constraint against an old one when
    they agree on a unique column and the value is not NULL.  The
    UNIQUE columns of the three tables are TEXT columns, which hold
    NULL or a text. *)
Fixpoint clash (cols : list column) (old new : list stored) : bool :=
  match cols, old, new with
  | c :: cols', o :: old', n :: new' =>
      (col_unique c && negb (is_null n) && bool_decide (o = n))
      || clash cols' old' new'
  | _, _, _ => false
  end.

Definition max_rowid (rs : list row) : Z :=
  fold_right (fun r m => Z.max (row_id r) m) 0 rs.

(** [INSERT OR IGNORE INTO t VALUES (NULL, values)]: the values take the
    affinity of their columns; the rowid is taken past the sequence
    before the constraints are checked, and a row that violates one is
    dropped. *)
Definition insert_or_ignore (t : table) (values : list sqlval) : table :=
  let id := Z.max (sequence t) (max_rowid (rows t)) + 1 in
  let new := store (columns t) values in
  if existsb (fun r => clash (columns t) (row_values r) new) (rows t)
  then mk_table (columns t) (rows t) id
  else mk_table (columns t) (rows t ++ [mk_row id new]) id.

(** [DatabaseManager.insert_record]; the statement does not parse for
    an empty tuple, and fails for an unknown table or a wrong number of
    values. *)
Definition insert_record (table_name : string) (record_data : list sqlval)
    (db : gmap string table) : result unit * gmap string table :=
  match record_data with
  | [] => (Raise OperationalError, db)
  | _ =>
      match db !! table_key table_name with
      | None => (Raise OperationalError, db)
      | Some t =>
          if (length record_data =? length (columns t))%nat
          then (Ok tt, <[table_key table_name := insert_or_ignore t record_data]> db)
          else (Raise OperationalError, db)
      end
  end.

(** The table a record is saved to. *)
Definition table_of (r : record string) : string :=
  match r with
  | News _ _ _ => "News"
  | PrivateAd _ _ _ _ => "PrivateAd"
  | Event _ _ _ _ _ => "Event"
  end.

(** The tuple each [save_to_db] passes. *)
Definition record_data (r : record string) : list sqlval :=
  match r with
  | News text publish_date city =>
      [SqlText text; SqlText city; SqlText publish_date]
  | PrivateAd text publish_date expiration_date days_left =>
      [SqlText text; SqlText (DateTime.strftime_ymd expiration_date);
       SqlInt days_left; SqlText publish_date]
  | Event text publish_date location event_date days_until_event =>
      [SqlText text; SqlText location; SqlText (DateTime.strftime_ymd event_date);
       SqlInt days_until_event; SqlText publish_date]
  end.

(** [record.save_to_db(db_manager)] *)
Definition save_to_db (r : record string) (db : gmap string table)
  : result unit * gmap string table :=
  insert_record (table_of r) (record_data r) db.

(** Saving a list of records one after the other: the outcome of each
    call, and the database at the end. *)
Fixpoint save_all (rs : list (record string)) (db : gmap string table)
  : list (result unit) * gmap string table :=
  match rs with
  | [] => ([], db)
  | r :: rs' =>
      let '(res, db1) := save_to_db r db in
      let '(ress, db2) := save_all rs' db1 in
      (res :: ress, db2)
  end.

(** The rows of a table whose [text] is [s]. *)
Definition has_text (s : string) (r : row) : bool :=
  match row_values r with
  | v :: _ => bool_decide (v = Kept (SqlText s))
  | [] => false
  end.

Definition rows_of (db : gmap string table) (name : string) : list row :=
  match db !! table_key name with
  | Some t => rows t
  | None => []
  end.

(** The databases the program can be working on: a fresh or an
    initialised one, after any calls of [insert_record]. *)
Inductive reachable : gmap string table -> Prop :=
| reach_init : reachable (DatabaseManager_init ∅)
| reach_reopen db : reachable db -> reachable (DatabaseManager_init db)
| reach_insert db name data :
    reachable db -> reachable (snd (insert_record name data db)).

End Task10.

(** ** Notions used to state the properties *)

Module Spec.
Import DateTime.

(** The instant a [datetime] denotes, in microseconds. *)
Definition to_micros (t : datetime) : Z :=
  (toordinal t * 86400 + (second t + minute t * 60 + hour t * 3600)) * 1000000
  + microsecond t.

Definition day_micros : Z := 86400 * 1000000.

(** The whole days from [t] to [expiration], rounded toward minus
    infinity. *)
Definition days_floored (expiration t : datetime) : Z :=
  (to_micros expiration - to_micros t) / day_micros.

(** The same difference "truncated toward zero in days", in the words
    of the specification. *)
Definition days_truncated (expiration t : datetime) : Z :=
  (to_micros expiration - to_micros t) ÷ day_micros.

(** A clock that stands still at [t]. *)
Definition world_at {C} (t : datetime) (files : gmap string C) : world C :=
  mk_world files [] (fun _ => t) 0.

Definition noon_2020 : datetime := mk_datetime 2020 1 1 12 0 0 0.
Definition nov_2026 : datetime := mk_datetime 2026 11 3 9 30 0 0.

End Spec.

Module Inv.
Import Task10.

(** How many rows of a list carry the text [s]. *)
Definition count_text (s : string) (rs : list row) : nat :=
  length (List.filter (has_text s) rs).

(** The rows whose text is not [s]. *)
Definition other_rows (s : string) (rs : list row) : list row :=
  List.filter (fun r => negb (has_text s r)) rs.

(** A schema whose first column is a TEXT column and is UNIQUE, as no
    other column is. *)
Definition text_unique (cols : list column) : Prop :=
  exists c cs, cols = c :: cs /\ col_type c = TEXT /\ col_unique c = true
               /\ Forall (fun c' => col_unique c' = false) cs.

(** The text a value bound to a TEXT column is stored as; [None] for
    NULL. *)
Definition text_of (v : sqlval) : option string :=
  match v with
  | SqlNull => None
  | SqlInt z => Some (DateTime.str_Z z)
  | SqlText s => Some s
  end.

(** The table has the schema [cols] and no text twice. *)
Definition table_ok (cols : list column) (t : table) : Prop :=
  columns t = cols /\ forall s, (count_text s (rows t) <= 1)%nat.

(** The three tables exist as [create_tables] makes them, and the
    UNIQUE constraint holds in each. *)
Definition db_ok (db : gmap string table) : Prop :=
  (exists t, db !! "news" = Some t /\ table_ok News_columns t)
  /\ (exists t, db !! "privatead" = Some t /\ table_ok PrivateAd_columns t)
  /\ (exists t, db !! "event" = Some t /\ table_ok Event_columns t).

(** What one more row with the text [s] in the table [name] leaves
    behind, seen from the database before it. *)
Definition once_in (s name : string) (db db' : gmap string table) : Prop :=
  count_text s (rows_of db' name) = 1%nat
  /\ other_rows s (rows_of db' name) = other_rows s (rows_of db name)
  /\ forall k, k <> table_key name -> db' !! k = db !! k.

End Inv.

(** A statement that removes no file. *)
Definition keeps_files {C A} (m : M C A) : Prop :=
  forall w r w' p, m w = (r, w') -> is_Some (fs w !! p) -> is_Some (fs w' !! p).

(** The item of a JSON batch is a [private_ad] or an [event] whose date
    string is [s]. *)
Definition dated_item (item : pyval) (s : string) : Prop :=
  exists entries,
    item = PDict entries
    /\ ((PyVal.dict_get entries "type" = PStr "private_ad"
         /\ PyVal.dict_get entries "expiration_date" = PStr s)
        \/ (PyVal.dict_get entries "type" = PStr "event"
            /\ PyVal.dict_get entries "event_date" = PStr s)).

(** A line of the delimited file has a shape the adapter accepts: a known
    tag with the number of fields of its variant. *)
Definition known_shape (tag : string) (fields : nat) : bool :=
  (String.eqb tag "News" && (fields =? 3)%nat)
  || (String.eqb tag "PrivateAd" && (fields =? 3)%nat)
  || (String.eqb tag "Event" && (fields =? 4)%nat).

(** The text of the child [tag] of an XML record, as the document has it. *)
Definition raw_field (elem : element) (tag : string) : option string :=
  match ET.find elem tag with
  | Some child => ET.text_of child
  | None => None
  end.

(** Concrete inputs. *)
Module Samples.

Definition nl : string := String "010" "".

Definition feed : Task8.NewsFeed := Task8.NewsFeed_default.

Definition json_world (v : pyval) : world content :=
  Spec.world_at Spec.nov_2026 {[ "records.json" := Json v ]}.

Definition news_item (text city : pyval) : pyval :=
  PDict [("type", PStr "news"); ("text", text); ("city", city)].

Definition ad_item (text date : pyval) : pyval :=
  PDict [("type", PStr "private_ad"); ("text", text); ("expiration_date", date)].

(** An unknown type, then a news item. *)
Definition skipping_batch : pyval :=
  PList [PDict [("type", PStr "bogus"); ("text", PStr "x")];
         news_item (PStr "hello world") (PStr "Paris")].

(** An ad whose date does not parse, then a news item. *)
Definition bad_date_batch : pyval :=
  PList [ad_item (PStr "big sale") (PStr "soon");
         news_item (PStr "hello world") (PStr "Paris")].

(** A news item whose text is empty. *)
Definition empty_text_batch : pyval :=
  PList [news_item (PStr "") (PStr "Paris")].

Definition processor : Task6.FileRecordProcessor :=
  Task6.FileRecordProcessor_init (Some "records.txt") "news_feed.txt".

Definition lines_world (data : string) : world string :=
  Spec.world_at Spec.nov_2026 {[ "records.txt" := data ]}.

Definition leaf (tag text : string) : element := Element tag [] (Some text) [].

(** [<record type="private_ad">] with blanks around both values. *)
Definition padded_ad : element :=
  Element "record" [("type", "private_ad")] None
          [leaf "text" "  big sale "; leaf "expiration_date" " 2030-01-01 "].

End Samples.

(** ** Notions used to state further properties *)

(** How often [w] occurs in a list of words. *)
Definition occurrences (w : string) (ws : list string) : Z :=
  Z.of_nat (length (List.filter (String.eqb w) ws)).




(** The characters of a string. *)
Definition chars_of (s : string) : list ascii := list_ascii_of_string s.




(** The table [name] has a row with the text [s]. *)
Definition present (s name : string) (db : gmap string Task10.table) : Prop :=
  existsb (Task10.has_text s) (Task10.rows_of db name) = true.


(** The value of ["type"] is none of the three the JSON adapter knows. *)
Definition unknown_type (ty : pyval) : bool :=
  negb (PyVal.eq_str ty "news" || PyVal.eq_str ty "private_ad" || PyVal.eq_str ty "event").

(** What the JSON adapter prints for an object with these entries when
    it does not know its type. *)
Definition unknown_message (entries : list (string * pyval)) : string :=
  "Unknown record type: " +:+ PyVal.str (PyVal.dict_get entries "type").


(** The text of a file of a text-only world; a missing file has none. *)
Definition file_text (w : world string) (path : string) : string :=
  match fs w !! path with
  | Some t => t
  | None => ""
  end.

(** From [w] to [w'] the file [out] was at most appended to, and no other
    file was touched. *)
Definition appended (out : string) (w w' : world string) : Prop :=
  (exists more, file_text w' out = file_text w out +:+ more)
  /\ forall p, p <> out -> fs w' !! p = fs w !! p.

(** A statement that does no more than append to [out]. *)
Definition only_appends {A} (out : string) (m : M string A) : Prop :=
  forall w r w', m w = (r, w') -> appended out w w'.







(** A sentence with no word in front of its closing [.!?]: the case in
    which [s.rstrip('.!?').split()[-1]] is out of range. *)
Definition no_word (sentence : string) : Prop :=
  PyStr.split (PyStr.rstrip_chars ".!?" sentence) = [].

(** Two strings of the same length whose characters agree, place by
    place, on being whitespace and on being one of [.!?]. *)
Fixpoint same_shape (a b : string) : Prop :=
  match a, b with
  | EmptyString, EmptyString => True
  | String c a', String d b' =>
      PyStr.isspace c = PyStr.isspace d
      /\ PyStr.mem_char ".!?" c = PyStr.mem_char ".!?" d
      /\ same_shape a' b'
  | _, _ => False
  end.


(** ** The console: [input] and [NewsFeed.add_record]  (task8.py 162-195)

    A statement that reads from the console takes the lines the user is
    going to type and returns those it has not read.  [input(prompt)]
    writes the prompt to the standard output, which the model keeps as
    one entry of [stdout] like a printed line, and then reads a line;
    with no line left it raises [EOFError], which is [EndOfInput]. *)

Inductive outcome (A : Type) : Type :=
| Done (a : A)
| Failed (e : exn)
| EndOfInput.
Arguments Done {A} a.
Arguments Failed {A} e.
Arguments EndOfInput {A}.

Definition Console (C A : Type) : Type :=
  list string -> world C -> outcome A * list string * world C.

Module Con.

Definition ret {C A} (a : A) : Console C A := fun stdin w => (Done a, stdin, w).

Definition bind {C A B} (m : Console C A) (k : A -> Console C B) : Console C B :=
  fun stdin w =>
    match m stdin w with
    | (Done a, stdin', w') => k a stdin' w'
    | (Failed e, stdin', w') => (Failed e, stdin', w')
    | (EndOfInput, stdin', w') => (EndOfInput, stdin', w')
    end.

(** A statement that does not read the console. *)
Definition run {C A} (m : M C A) : Console C A :=
  fun stdin w =>
    match m w with
    | (Ok a, w') => (Done a, stdin, w')
    | (Raise e, w') => (Failed e, stdin, w')
    end.

(** [input(prompt)] *)
Definition input {C} (prompt : string) : Console C string :=
  fun stdin w =>
    let w' := mk_world (fs w) (stdout w ++ [prompt]) (clock w) (ticks w) in
    match stdin with
    | line :: rest => (Done line, rest, w')
    | [] => (EndOfInput, [], w')
    end.

End Con.

Notation "'let?' x := e 'in' k" := (Con.bind e (fun x => k))
  (at level 10, x name, e at level 200, k at level 200).

Module Task8Console.
Import Classes.

(** The record the answers describe; [None] for a choice that is none of
    [1], [2], [3]. *)
Definition ask_record : Console content (option (record pyval)) :=
  let? _ := Con.run (Sys.print "Select record type:") in
  let? _ := Con.run (Sys.print "1. News") in
  let? _ := Con.run (Sys.print "2. Private Ad") in
  let? _ := Con.run (Sys.print "3. Event") in
  let? choice := Con.input "Enter choice (1/2/3): " in
  if String.eqb choice "1" then
    let? text := Con.input "Enter news text: " in
    let? city := Con.input "Enter city: " in
    let? record := Con.run (News_init (PStr text) (PStr city)) in
    Con.ret (Some record)
  else if String.eqb choice "2" then
    let? text := Con.input "Enter private ad text: " in
    let? expiration_date := Con.input "Enter expiration date (YYYY-MM-DD): " in
    let? record := Con.run (PrivateAd_init (PStr text) (PStr expiration_date)) in
    Con.ret (Some record)
  else if String.eqb choice "3" then
    let? text := Con.input "Enter event text: " in
    let? location := Con.input "Enter event location: " in
    let? event_date := Con.input "Enter event date (YYYY-MM-DD): " in
    let? record := Con.run (Event_init (PStr text) (PStr location) (PStr event_date)) in
    Con.ret (Some record)
  else
    let? _ := Con.run (Sys.print "Invalid choice!") in
    Con.ret None.

(** [NewsFeed.add_record] *)
Definition add_record (self : Task8.NewsFeed) : Console content unit :=
  let? asked := ask_record in
  match asked with
  | Some record =>
      let? _ := Con.run (Task8.publish self record) in
      Con.run (Sys.print "Record added successfully!")
  | None => Con.ret tt
  end.

(** The four lines of the menu and the prompt for the choice. *)
Definition menu : list string :=
  ["Select record type:"; "1. News"; "2. Private Ad"; "3. Event"; "Enter choice (1/2/3): "].

End Task8Console.


(** ** Task 1: [bubble_sort]  (task1.py 3-28)

    The list is sorted in place; the model returns the list the call
    leaves behind, or the [IndexError] of an index out of range. *)

Module Task1.

(** [for x in xs: state = body(state, x)], stopping at an exception. *)
Fixpoint loop {S A} (body : S -> A -> result S) (xs : list A) (s : S) : result S :=
  match xs with
  | [] => Ok s
  | x :: xs' =>
      let* s' := body s x in
      loop body xs' s'
  end.

(** [if arr[j] > arr[j + 1]: arr[j], arr[j + 1] = arr[j + 1], arr[j]] *)
Definition compare_swap (arr : list Z) (j : nat) : result (list Z) :=
  match arr !! j, arr !! (j + 1)%nat with
  | Some a, Some b =>
      if b <? a then Ok (<[(j + 1)%nat := a]> (<[j := b]> arr)) else Ok arr
  | _, _ => Raise IndexError
  end.

(** [for j in range(0, n - i - 1): ...] *)
Definition pass (n : nat) (arr : list Z) (i : nat) : result (list Z) :=
  loop compare_swap (seq 0 (n - i - 1)) arr.

Definition bubble_sort (arr : list Z) : result (list Z) :=
  let n := length arr in
  loop (pass n) (seq 0 n) arr.

End Task1.

(** A list in ascending order. *)
Fixpoint ascending (l : list Z) : Prop :=
  match l with
  | [] => True
  | x :: rest => Forall (fun y => x <= y) rest /\ ascending rest
  end.

(** [k] steps of one pass, on the list itself: the larger of two
    neighbours moves on. *)
Fixpoint bubble (k : nat) (l : list Z) : list Z :=
  match k, l with
  | S k', a :: b :: rest =>
      if b <? a then b :: bubble k' (a :: rest) else a :: bubble k' (b :: rest)
  | _, _ => l
  end.


(** ** Tasks 2 and 4: [merge_dicts]  (task2.py 50-63, task4.py 34-41)

    A dict is the list of its items in insertion order. *)

Module Merge.

(** [d.get(key)], [None] for a missing key. *)
Fixpoint dict_get {V} (d : list (string * V)) (key : string) : option V :=
  match d with
  | [] => None
  | (k, v) :: rest => if String.eqb k key then Some v else dict_get rest key
  end.

(** [d[key] = v]: a key that is present keeps its place. *)
Fixpoint dict_set {V} (d : list (string * V)) (key : string) (v : V) : list (string * V) :=
  match d with
  | [] => [(key, v)]
  | (k, old) :: rest =>
      if String.eqb k key then (k, v) :: rest else (k, old) :: dict_set rest key v
  end.

(** The two dicts the loops fill. *)
Record state : Type := mk_state {
  merged_dict : list (string * Z);
  key_tracker : list (string * nat)
}.

(** The body of the inner loop:
    [if key not in merged_dict or value > merged_dict[key]: ...]. *)
Definition step (index : nat) (st : state) (item : string * Z) : state :=
  let (key, value) := item in
  let update := mk_state (dict_set (merged_dict st) key value)
                         (dict_set (key_tracker st) key index) in
  match dict_get (merged_dict st) key with
  | None => update
  | Some old => if old <? value then update else st
  end.

(** [for index, d in enumerate(list_of_dicts, start=index): ...] *)
Fixpoint merge_from (index : nat) (list_of_dicts : list (list (string * Z))) (st : state)
  : state :=
  match list_of_dicts with
  | [] => st
  | d :: rest => merge_from (S index) rest (fold_left (step index) d st)
  end.

(** The state after the two nested loops. *)
Definition merge (list_of_dicts : list (list (string * Z))) : state :=
  merge_from 1 list_of_dicts (mk_state [] []).

(** [list_of_dicts.count(k)] in task2.py: the number of items of the list
    that are equal to [k].  The items are dicts and [k] is a str; a dict
    is never equal to a str. *)
Definition count_equal (k : string) (list_of_dicts : list (list (string * Z))) : nat :=
  length (List.filter (fun _ : list (string * Z) => false) list_of_dicts).

(** The key the dict comprehension of task2.py gives to [k]; [None]
    stands for the [KeyError] of [key_tracker[k]]. *)
Definition name_task2 (list_of_dicts : list (list (string * Z))) (st : state) (k : string)
  : option string :=
  if (1 <? count_equal k list_of_dicts)%nat then
    match dict_get (key_tracker st) k with
    | Some index => Some (k +:+ "_" +:+ DateTime.str_Z (Z.of_nat index))
    | None => None
    end
  else Some k.

(** A dict comprehension [{name(k): v for k, v in items}]: the items
    are stored one by one, a later item replacing the value of an equal
    name.  [None] is an exception raised while a name is computed. *)
Definition rename_items (name : string -> option string) (items : list (string * Z))
  : option (list (string * Z)) :=
  fold_left
    (fun final (item : string * Z) =>
       match final, name (fst item) with
       | Some f, Some n => Some (dict_set f n (snd item))
       | _, _ => None
       end)
    items (Some []).

(** The dict comprehension of task2.py over [merged_dict.items()]. *)
Definition final_dict_task2 (list_of_dicts : list (list (string * Z))) (st : state)
  : option (list (string * Z)) :=
  rename_items (name_task2 list_of_dicts st) (merged_dict st).

(** [merge_dicts] of task2.py; [None] is an exception. *)
Definition merge_dicts_task2 (list_of_dicts : list (list (string * Z)))
  : option (list (string * Z)) :=
  final_dict_task2 list_of_dicts (merge list_of_dicts).

(** [key in d] *)
Definition dict_in {V} (key : string) (d : list (string * V)) : bool :=
  match dict_get d key with Some _ => true | None => false end.

(** [sum(1 for d in list_of_dicts if k in d)] in task4.py. *)
Definition count_in (k : string) (list_of_dicts : list (list (string * Z))) : nat :=
  length (List.filter (dict_in k) list_of_dicts).

(** The name task4.py gives to [k]:
    [f"{k}_{key_tracker[k]}" if sum(...) > 1 else k]. *)
Definition name_task4 (list_of_dicts : list (list (string * Z))) (st : state) (k : string)
  : option string :=
  if (1 <? count_in k list_of_dicts)%nat then
    match dict_get (key_tracker st) k with
    | Some index => Some (k +:+ "_" +:+ DateTime.str_Z (Z.of_nat index))
    | None => None
    end
  else Some k.

(** The dict comprehension of task4.py over [merged_dict.items()]. *)
Definition final_dict_task4 (list_of_dicts : list (list (string * Z))) (st : state)
  : option (list (string * Z)) :=
  rename_items (name_task4 list_of_dicts st) (merged_dict st).

(** [merge_dicts] of task4.py; [None] is an exception. *)
Definition merge_dicts_task4 (list_of_dicts : list (list (string * Z)))
  : option (list (string * Z)) :=
  final_dict_task4 list_of_dicts (merge list_of_dicts).

(** [c in s] for a character. *)
Fixpoint contains (c : ascii) (s : string) : bool :=
  match s with
  | EmptyString => false
  | String x rest => Ascii.eqb x c || contains c rest
  end.

(** No key of the dicts holds an underscore. *)
Definition plain_keys (list_of_dicts : list (list (string * Z))) : Prop :=
  forall d k v, In d list_of_dicts -> In (k, v) d -> contains "_" k = false.

(** The name of [k] in the result of task4.py when the dict at 1-based
    position [index] is the one [key_tracker] holds for it. *)
Definition renamed (list_of_dicts : list (list (string * Z))) (k : string) (index : nat)
  : string :=
  if (1 <? count_in k list_of_dicts)%nat
  then k +:+ "_" +:+ DateTime.str_Z (Z.of_nat index) else k.

(** The items of the dicts a loop from [index] visits, each with the
    index of its dict. *)
Fixpoint visited (index : nat) (list_of_dicts : list (list (string * Z)))
  : list (nat * (string * Z)) :=
  match list_of_dicts with
  | [] => []
  | d :: rest => map (fun item => (index, item)) d ++ visited (S index) rest
  end.

(** What the loops have established about the items [seen] so far: a
    key is in [merged_dict] exactly when an item with that key was seen;
    its value is the largest seen for it, and [key_tracker] has the
    smallest index of a dict where that value was seen. *)
Definition tracks (seen : list (nat * (string * Z))) (st : state) : Prop :=
  forall k,
    match dict_get (merged_dict st) k with
    | None => dict_get (key_tracker st) k = None /\ forall j v, ~ In (j, (k, v)) seen
    | Some best =>
        exists i,
          dict_get (key_tracker st) k = Some i
          /\ In (i, (k, best)) seen
          /\ forall j v, In (j, (k, v)) seen -> v <= best /\ (v = best -> (i <= j)%nat)
    end.

End Merge.

(** ** Notions used to state the properties on ASCII text and on dates *)

(** The characters of the ASCII range that Python counts as whitespace:
    TAB, LF, VT, FF, CR, the separators FS, GS, RS, US, and the space. *)
Definition whitespace : list ascii :=
  ["009"; "010"; "011"; "012"; "013"; "028"; "029"; "030"; "031"; " "]%char.



(** The number of whitespace characters of a string. *)
Definition whitespace_count (s : string) : nat :=
  length (List.filter (fun c => if in_dec ascii_dec c whitespace then true else false)
                      (list_ascii_of_string s)).

(** The XML record is a [private_ad] or an [event] that has its text
    and, for an event, its location; [s] is the date string the adapter
    hands to the constructor. *)
Definition dated_element (elem : element) (s : string) : Prop :=
  (exists t, Task9.field_text elem "text" = Ok t)
  /\ ((ET.get elem "type" = Some "private_ad"
       /\ Task9.field_text elem "expiration_date" = Ok s)
      \/ (ET.get elem "type" = Some "event"
          /\ (exists l, Task9.field_text elem "location" = Ok l)
          /\ Task9.field_text elem "event_date" = Ok s)).

(** The line is a [PrivateAd] line of three fields or an [Event] line of
    four, its text normalizes, and [s] is the date string the adapter
    hands to the constructor. *)
Definition dated_line (line : string) (s : string) : Prop :=
  exists tag field rest,
    PyStr.split_on "|" (PyStr.strip line) = tag :: field :: rest
    /\ (exists n, normalize_text (PyStr.strip field) = Ok n)
    /\ ((PyStr.strip tag = "PrivateAd"
         /\ exists date, rest = [date] /\ PyStr.strip date = s)
        \/ (PyStr.strip tag = "Event"
            /\ exists location date, rest = [location; date] /\ PyStr.strip date = s)).

(** * Properties *)

(** ** Sanity checks of the embedding on concrete inputs *)

Example normalize_demo :
  normalize_text "hello world. tHis iz fine!  iz it?" =
  Ok ("Hello world. This is fine! is it? World fine it.", 7%nat).
Proof. vm_compute. reflexivity. Qed.

Example strptime_demo :
  map DateTime.strptime_ymd
      ["2020-1-5"; "2020-01-015"; "2020-13-01"; "0000-01-01"; "2020-02-30";
       "2020-01- 5"; " 2020-01-01"; "2020-01-01 "; "2020-10-1"; "2020-02-29"; "2020-12-31"]
  = [Ok (DateTime.mk_datetime 2020 1 5 0 0 0 0); Raise ValueError; Raise ValueError;
     Raise ValueError; Raise ValueError; Ok (DateTime.mk_datetime 2020 1 5 0 0 0 0);
     Raise ValueError; Raise ValueError; Ok (DateTime.mk_datetime 2020 10 1 0 0 0 0);
     Ok (DateTime.mk_datetime 2020 2 29 0 0 0 0); Ok (DateTime.mk_datetime 2020 12 31 0 0 0 0)].
Proof. vm_compute. reflexivity. Qed.

Example sub_demo :
  DateTime.sub (DateTime.mk_datetime 2020 1 1 0 0 0 0) (DateTime.mk_datetime 2020 1 1 12 0 0 0)
  = DateTime.mk_timedelta (-1) 43200 0
  /\ DateTime.toordinal (DateTime.mk_datetime 2026 11 3 0 0 0 0) = 739923.
Proof. vm_compute. split; reflexivity. Qed.

Example repr_demo :
  PyVal.str (PList [PStr "it's"; PInt (-3); PNone; PDict [("k", PBool true)]])
  = "[" +:+ String PyVal.dquote "it's" +:+ String PyVal.dquote ", -3, None, {'k': True}]".
Proof. vm_compute. reflexivity. Qed.

(** ** [normalize_text] *)

Lemma last_word_empty : last_word "" = Raise IndexError.
Proof. reflexivity. Qed.

(** C1 (code defect).  The specification states that [normalize_text] is
    total and returns ["."] for an input that is empty after trimming.
    The code instead raises [IndexError] on every such input: the only
    sentence is the empty string, [''.split()] is the empty list, and
    [[-1]] of it is out of range. *)
Theorem normalize_text_blank_raises (text : string) :
  PyStr.strip text = "" -> normalize_text text = Raise IndexError.
Proof.
  intros Hblank. unfold normalize_text. rewrite Hblank.
  cbn [PyRe.split_sentences PyRe.split_scan map comprehension].
  change (PyRe.sub_iz (PyStr.capitalize "")) with "".
  rewrite last_word_empty. reflexivity.
Qed.

Lemma normalize_text_blank_raises_witness :
  PyStr.strip "" = "" /\ normalize_text "" = Raise IndexError.
Proof.
  split; [reflexivity | apply (normalize_text_blank_raises ""); reflexivity].
Defined.

(** ** Statements in sequence *)

Lemma bind_Ok {C A B} (m : M C A) (k : A -> M C B) (w w' : world C) (a : A) :
  m w = (Ok a, w') -> bind m k w = k a w'.
Proof. intros Hm. unfold bind. rewrite Hm. reflexivity. Qed.

Lemma bind_Raise {C A B} (m : M C A) (k : A -> M C B) (w w' : world C) (e : exn) :
  m w = (Raise e, w') -> bind m k w = (Raise e, w').
Proof. intros Hm. unfold bind. rewrite Hm. reflexivity. Qed.

Lemma for_each_app {C A} (body : A -> M C unit) (xs ys : list A) (w : world C) :
  for_each body (xs ++ ys) w
  = match for_each body xs w with
    | (Ok _, w') => for_each body ys w'
    | (Raise e, w') => (Raise e, w')
    end.
Proof.
  revert w. induction xs as [|x xs IH]; intros w; cbn [for_each app].
  - reflexivity.
  - unfold bind. destruct (body x w) as [[[]|e] w1]; [apply IH | reflexivity].
Qed.

(** ** The derived day counts *)

Lemma days_sub_floor (a b : DateTime.datetime) :
  DateTime.days (DateTime.sub a b) = Spec.days_floored a b.
Proof.
  unfold DateTime.sub, DateTime.timedelta_new, Spec.days_floored, Spec.to_micros,
    Spec.day_micros; cbn [DateTime.days].
  set (D := DateTime.toordinal a - DateTime.toordinal b).
  set (sa := DateTime.second a + DateTime.minute a * 60 + DateTime.hour a * 3600).
  set (sb := DateTime.second b + DateTime.minute b * 60 + DateTime.hour b * 3600).
  set (U := DateTime.microsecond a - DateTime.microsecond b).
  replace ((DateTime.toordinal a * 86400 + sa) * 1000000 + DateTime.microsecond a
           - ((DateTime.toordinal b * 86400 + sb) * 1000000 + DateTime.microsecond b))
    with (U + (D * 86400 + (sa - sb)) * 1000000) by (unfold D, U; ring).
  change (86400 * 1000000) with (1000000 * 86400).
  rewrite <- (Z.div_div _ 1000000 86400) by lia.
  rewrite (Z.div_add U _ 1000000) by lia.
  replace (U / 1000000 + (D * 86400 + (sa - sb)))
    with (sa - sb + U / 1000000 + D * 86400) by ring.
  rewrite (Z.div_add _ D 86400) by lia. ring.
Qed.

Lemma days_floored_past (a b : DateTime.datetime) :
  Spec.to_micros a < Spec.to_micros b -> Spec.days_floored a b < 0.
Proof.
  intros Hlt. unfold Spec.days_floored.
  apply Z.div_lt_upper_bound; unfold Spec.day_micros; lia.
Qed.

(** C3 (amended).  A [PrivateAd] built from a date string that parses
    never raises; its [days_left] is computed once, in the constructor,
    as the whole days from the second clock reading to the expiration
    date rounded toward minus infinity ([timedelta.days]), and it is
    negative as soon as the expiration date is past. *)
Theorem PrivateAd_days_left_floored {C V} `{Field V}
    (text date : V) (s : string) (expiration : DateTime.datetime) (w : world C) :
  as_str date = Some s ->
  DateTime.strptime_ymd s = Ok expiration ->
  let t := clock w (S (ticks w)) in
  Classes.PrivateAd_init text date w
  = (Ok (PrivateAd text (DateTime.strftime_ymd_hms (clock w (ticks w)))
                   expiration (Spec.days_floored expiration t)),
     mk_world (fs w) (stdout w) (clock w) (S (S (ticks w))))
  /\ (Spec.to_micros expiration < Spec.to_micros t ->
      Spec.days_floored expiration t < 0).
Proof.
  intros Hstr Hparse t. split.
  - unfold Classes.PrivateAd_init, Classes.Record_init, Classes.strptime, bind, lift, ret,
      Sys.now; cbn [fs stdout clock ticks].
    rewrite Hstr, Hparse, days_sub_floor. reflexivity.
  - apply days_floored_past.
Qed.

Lemma PrivateAd_days_left_floored_witness :
  Classes.PrivateAd_init "x" "2020-01-01" (Spec.world_at (C := string) Spec.nov_2026 ∅)
  = (Ok (PrivateAd "x" "2026-11-03 09:30:00" (DateTime.mk_datetime 2020 1 1 0 0 0 0) (-2499)),
     mk_world ∅ [] (fun _ => Spec.nov_2026) 2).
Proof.
  exact (proj1 (PrivateAd_days_left_floored (C := string) "x" "2020-01-01" "2020-01-01"
                  (DateTime.mk_datetime 2020 1 1 0 0 0 0)
                  (Spec.world_at Spec.nov_2026 ∅) eq_refl eq_refl)).
Defined.

(** C3 (counterexample).  Half a day after midnight of the expiration
    date, the constructor stores [-1], where truncation toward zero gives
    [0]. *)
Lemma PrivateAd_days_left_not_truncated :
  fst (Classes.PrivateAd_init "x" "2020-01-01" (Spec.world_at (C := string) Spec.noon_2020 ∅))
  = Ok (PrivateAd "x" "2020-01-01 12:00:00" (DateTime.mk_datetime 2020 1 1 0 0 0 0) (-1))
  /\ Spec.days_truncated (DateTime.mk_datetime 2020 1 1 0 0 0 0) Spec.noon_2020 = 0.
Proof. split; vm_compute; reflexivity. Qed.

(** ** The table sink *)

Section TableSink.
Import Task10 Inv.

Lemma existsb_agree {A} (f g : A -> bool) (l : list A) :
  (forall x, f x = g x) -> existsb f l = existsb g l.
Proof.
  intros Hfg. induction l as [|x l IH]; cbn [existsb]; [reflexivity|].
  rewrite Hfg, IH. reflexivity.
Qed.

Lemma clash_no_unique cols old new :
  Forall (fun c => col_unique c = false) cols -> clash cols old new = false.
Proof.
  intros Hcols. revert old new.
  induction Hcols as [|c cs Hc _ IH]; intros old new; cbn [clash].
  - reflexivity.
  - destruct old as [|o old]; [reflexivity|]. destruct new as [|n new]; [reflexivity|].
    rewrite Hc, IH. reflexivity.
Qed.

(** What a TEXT column stores for a bound value. *)
Lemma affinity_text (v : sqlval) :
  affinity TEXT v
  = match text_of v with
    | Some s => Kept (SqlText s)
    | None => Kept SqlNull
    end.
Proof. destruct v; reflexivity. Qed.

Lemma store_text_unique cols v rest :
  text_unique cols -> exists more, store cols (v :: rest) = affinity TEXT v :: more.
Proof. intros (c & cs & -> & Ht & _). cbn [store]. rewrite Ht. eauto. Qed.

Lemma clash_text_unique cols r v rest :
  text_unique cols ->
  clash cols (row_values r) (store cols (v :: rest))
  = match row_values r with
    | o :: _ => negb (is_null (affinity TEXT v)) && bool_decide (o = affinity TEXT v)
    | [] => false
    end.
Proof.
  intros (c & cs & -> & Ht & Hc & Hcs). cbn [store]. rewrite Ht.
  destruct (row_values r) as [|o old]; [reflexivity|]. cbn [clash].
  rewrite Hc, (clash_no_unique cs old _ Hcs).
  cbn [andb]. apply orb_false_r.
Qed.

Lemma clash_has_text cols r v s rest :
  text_unique cols -> text_of v = Some s ->
  clash cols (row_values r) (store cols (v :: rest)) = has_text s r.
Proof.
  intros Hcols Hv. rewrite (clash_text_unique cols r v rest Hcols), affinity_text, Hv.
  unfold has_text. destruct (row_values r); reflexivity.
Qed.

Lemma count_text_app s rs1 rs2 :
  count_text s (rs1 ++ rs2) = (count_text s rs1 + count_text s rs2)%nat.
Proof. unfold count_text. rewrite List.filter_app, length_app. reflexivity. Qed.

Lemma existsb_count_text s rs :
  existsb (has_text s) rs = negb (count_text s rs =? 0)%nat.
Proof.
  unfold count_text. induction rs as [|r rs IH]; cbn [existsb List.filter].
  - reflexivity.
  - destruct (has_text s r); cbn [orb length]; [reflexivity | exact IH].
Qed.

(** What [insert_or_ignore] does to the rows when the first value is
    stored as the text [s]. *)
Lemma insert_text_rows cols t v s rest :
  columns t = cols -> text_unique cols -> text_of v = Some s ->
  rows (insert_or_ignore t (v :: rest))
  = if existsb (has_text s) (rows t) then rows t
    else rows t ++ [mk_row (Z.max (sequence t) (max_rowid (rows t)) + 1)
                           (store cols (v :: rest))].
Proof.
  intros Hcols Huniq Hv. unfold insert_or_ignore. rewrite Hcols.
  rewrite (existsb_agree _ (has_text s))
    by (intros r; apply (clash_has_text cols r v s rest Huniq Hv)).
  destruct (existsb (has_text s) (rows t)); reflexivity.
Qed.

Lemma has_text_new_row cols v s s' id rest :
  text_unique cols -> text_of v = Some s ->
  has_text s' (mk_row id (store cols (v :: rest))) = bool_decide (s = s').
Proof.
  intros Huniq Hv. destruct (store_text_unique cols v rest Huniq) as [more ->].
  unfold has_text; cbn [row_values]. rewrite affinity_text, Hv.
  destruct (decide (s = s')) as [->|Hne].
  - rewrite !bool_decide_eq_true_2; reflexivity.
  - rewrite !bool_decide_eq_false_2; [reflexivity | assumption | congruence].
Qed.

Lemma has_text_null_row cols v s' id rest :
  text_unique cols -> text_of v = None ->
  has_text s' (mk_row id (store cols (v :: rest))) = false.
Proof.
  intros Huniq Hv. destruct (store_text_unique cols v rest Huniq) as [more ->].
  unfold has_text; cbn [row_values]. rewrite affinity_text, Hv.
  apply bool_decide_eq_false_2. discriminate.
Qed.

Lemma insert_text_count cols t v s rest :
  columns t = cols -> text_unique cols -> text_of v = Some s ->
  (count_text s (rows t) <= 1)%nat ->
  count_text s (rows (insert_or_ignore t (v :: rest))) = 1%nat.
Proof.
  intros Hcols Huniq Hv Hle. rewrite (insert_text_rows cols t v s) by assumption.
  rewrite existsb_count_text.
  destruct (count_text s (rows t)) as [|[|n]] eqn:Hn; cbn [Nat.eqb negb].
  - rewrite count_text_app, Hn. unfold count_text; cbn [List.filter].
    rewrite (has_text_new_row cols v s s) by assumption.
    rewrite bool_decide_eq_true_2; reflexivity.
  - exact Hn.
  - lia.
Qed.

Lemma insert_text_count_other cols t v s s' rest :
  columns t = cols -> text_unique cols -> text_of v = Some s -> s <> s' ->
  count_text s' (rows (insert_or_ignore t (v :: rest))) = count_text s' (rows t).
Proof.
  intros Hcols Huniq Hv Hne. rewrite (insert_text_rows cols t v s) by assumption.
  destruct (existsb (has_text s) (rows t)); [reflexivity|].
  rewrite count_text_app. unfold count_text at 2; cbn [List.filter].
  rewrite (has_text_new_row cols v s s') by assumption.
  rewrite bool_decide_eq_false_2 by assumption. cbn [length]. lia.
Qed.

Lemma insert_text_other_rows cols t v s rest :
  columns t = cols -> text_unique cols -> text_of v = Some s ->
  other_rows s (rows (insert_or_ignore t (v :: rest))) = other_rows s (rows t).
Proof.
  intros Hcols Huniq Hv. rewrite (insert_text_rows cols t v s) by assumption.
  destruct (existsb (has_text s) (rows t)); [reflexivity|].
  unfold other_rows. rewrite List.filter_app; cbn [List.filter].
  rewrite (has_text_new_row cols v s s) by assumption.
  rewrite bool_decide_eq_true_2 by reflexivity.
  cbn [negb]. apply app_nil_r.
Qed.

Lemma insert_columns t values : columns (insert_or_ignore t values) = columns t.
Proof.
  unfold insert_or_ignore.
  destruct (existsb _ (rows t)); reflexivity.
Qed.

(** A row whose text is NULL leaves every count alone. *)
Lemma insert_no_text_count cols t v rest s' :
  columns t = cols -> text_unique cols -> text_of v = None ->
  count_text s' (rows (insert_or_ignore t (v :: rest))) = count_text s' (rows t).
Proof.
  intros Hcols Huniq Hv. unfold insert_or_ignore. rewrite Hcols.
  destruct (existsb _ (rows t)); cbn [rows]; [reflexivity|].
  rewrite count_text_app. unfold count_text at 2; cbn [List.filter].
  rewrite (has_text_null_row cols v s') by assumption. cbn [length]. lia.
Qed.

Lemma insert_table_ok cols t values :
  text_unique cols -> table_ok cols t -> values <> [] ->
  table_ok cols (insert_or_ignore t values).
Proof.
  intros Huniq [Hcols Hcount] Hne. split.
  - rewrite insert_columns. exact Hcols.
  - intros s'. destruct values as [|v rest]; [congruence|].
    destruct (text_of v) as [s|] eqn:Hv.
    + destruct (decide (s = s')) as [<-|Hs].
      * rewrite (insert_text_count cols t v s) by auto. lia.
      * rewrite (insert_text_count_other cols t v s) by auto. apply Hcount.
    + rewrite (insert_no_text_count cols) by auto. apply Hcount.
Qed.

Lemma News_text_unique : text_unique News_columns.
Proof. eexists _, _. repeat (split; [reflexivity|]). repeat constructor. Qed.
Lemma PrivateAd_text_unique : text_unique PrivateAd_columns.
Proof. eexists _, _. repeat (split; [reflexivity|]). repeat constructor. Qed.
Lemma Event_text_unique : text_unique Event_columns.
Proof. eexists _, _. repeat (split; [reflexivity|]). repeat constructor. Qed.

(** The tuple of a record is stored as it is bound: every value has the
    storage class of its column. *)
Lemma store_record_data (r : record string) :
  store (match r with
         | News _ _ _ => News_columns
         | PrivateAd _ _ _ _ => PrivateAd_columns
         | Event _ _ _ _ _ => Event_columns
         end) (record_data r)
  = map Kept (record_data r).
Proof. destruct r; reflexivity. Qed.

End TableSink.

Section Database.
Import Task10 Inv.

Lemma insert_keeps_ok key cols k t0 data (db : gmap string table) :
  text_unique cols -> data <> [] ->
  (exists t, db !! key = Some t /\ table_ok cols t) ->
  db !! k = Some t0 ->
  exists t, <[k := insert_or_ignore t0 data]> db !! key = Some t /\ table_ok cols t.
Proof.
  intros Huniq Hdata (t & Hlook & Hok) Hk.
  destruct (decide (k = key)) as [->|Hne].
  - rewrite lookup_insert_eq. eexists; split; [reflexivity|].
    rewrite Hlook in Hk. injection Hk as <-. apply insert_table_ok; assumption.
  - rewrite lookup_insert_ne by assumption. eauto.
Qed.

Lemma insert_record_db_ok name data (db : gmap string table) :
  db_ok db -> db_ok (snd (insert_record name data db)).
Proof.
  intros Hok. unfold insert_record.
  destruct data as [|v rest]; [exact Hok|].
  destruct (db !! table_key name) as [t0|] eqn:Hk; [|exact Hok].
  destruct (length (v :: rest) =? length (columns t0))%nat; [|exact Hok].
  cbn [snd]. destruct Hok as (Hn & Hp & He).
  repeat split.
  - apply insert_keeps_ok; auto using News_text_unique; discriminate.
  - apply insert_keeps_ok; auto using PrivateAd_text_unique; discriminate.
  - apply insert_keeps_ok; auto using Event_text_unique; discriminate.
Qed.

Lemma create_tables_present (db : gmap string table) :
  is_Some (db !! "news") -> is_Some (db !! "privatead") -> is_Some (db !! "event") ->
  create_tables db = db.
Proof.
  intros [tn Hn] [tp Hp] [te He].
  unfold create_tables, create_table_if_not_exists.
  change (table_key "News") with "news".
  change (table_key "PrivateAd") with "privatead".
  change (table_key "Event") with "event".
  rewrite Hn, Hp, He. reflexivity.
Qed.

Lemma db_ok_present (db : gmap string table) :
  db_ok db ->
  is_Some (db !! "news") /\ is_Some (db !! "privatead") /\ is_Some (db !! "event").
Proof. intros ((tn & Hn & _) & (tp & Hp & _) & (te & He & _)). rewrite Hn, Hp, He. eauto. Qed.

Lemma fresh_db_ok : db_ok (DatabaseManager_init ∅).
Proof.
  repeat split.
  - exists (mk_table News_columns [] 0). split; [reflexivity|].
    split; [reflexivity | intros s; cbn; lia].
  - exists (mk_table PrivateAd_columns [] 0). split; [reflexivity|].
    split; [reflexivity | intros s; cbn; lia].
  - exists (mk_table Event_columns [] 0). split; [reflexivity|].
    split; [reflexivity | intros s; cbn; lia].
Qed.

Lemma reachable_db_ok (db : gmap string table) : reachable db -> db_ok db.
Proof.
  induction 1 as [|db _ IH|db name data _ IH].
  - apply fresh_db_ok.
  - destruct (db_ok_present db IH) as (Hn & Hp & He).
    unfold DatabaseManager_init. rewrite create_tables_present; assumption.
  - apply insert_record_db_ok, IH.
Qed.

(** C9.  Initialising the table sink again over a database the program
    has been working on changes nothing: every [CREATE TABLE IF NOT
    EXISTS] finds its table, so schemas and rows stay as they are. *)
Theorem DatabaseManager_init_again (db : gmap string table) :
  reachable db -> DatabaseManager_init db = db.
Proof.
  intros Hreach.
  destruct (db_ok_present db (reachable_db_ok db Hreach)) as (Hn & Hp & He).
  apply create_tables_present; assumption.
Qed.

End Database.

Lemma DatabaseManager_init_again_witness :
  let db := snd (Task10.insert_record "News"
                   [Task10.SqlText "hello"; Task10.SqlText "Paris";
                    Task10.SqlText "2026-11-03 09:30:00"]
                   (Task10.DatabaseManager_init ∅)) in
  Task10.rows_of db "News"
  = [Task10.mk_row 1 (map Task10.Kept
                        [Task10.SqlText "hello"; Task10.SqlText "Paris";
                         Task10.SqlText "2026-11-03 09:30:00"])]
  /\ Task10.DatabaseManager_init db = db.
Proof.
  split; [vm_compute; reflexivity|].
  apply DatabaseManager_init_again.
  apply Task10.reach_insert, Task10.reach_init.
Defined.

Section SameText.
Import Task10 Inv.

Lemma insert_record_text name cols t s rest (db : gmap string table) :
  db !! table_key name = Some t -> table_ok cols t -> text_unique cols ->
  length (SqlText s :: rest) = length cols ->
  exists db', insert_record name (SqlText s :: rest) db = (Ok tt, db')
              /\ once_in s name db db'.
Proof.
  intros Hlook [Hcols Hcount] Huniq Hlen.
  exists (<[table_key name := insert_or_ignore t (SqlText s :: rest)]> db).
  split.
  - unfold insert_record. rewrite Hlook, Hcols, Hlen, Nat.eqb_refl. reflexivity.
  - unfold once_in, rows_of. rewrite lookup_insert_eq, Hlook.
    split; [|split].
    + apply (insert_text_count cols); auto.
    + apply (insert_text_other_rows cols); auto.
    + intros k Hk. apply lookup_insert_ne. congruence.
Qed.

Lemma save_to_db_once (r : record string) (db : gmap string table) :
  db_ok db ->
  exists db', save_to_db r db = (Ok tt, db') /\ once_in (text r) (table_of r) db db'.
Proof.
  intros ((tn & Hn & Hnok) & (tp & Hp & Hpok) & (te & He & Heok)).
  unfold save_to_db. destruct r; cbn [table_of record_data text].
  - apply (insert_record_text "News" News_columns tn);
      auto using News_text_unique.
  - apply (insert_record_text "PrivateAd" PrivateAd_columns tp);
      auto using PrivateAd_text_unique.
  - apply (insert_record_text "Event" Event_columns te);
      auto using Event_text_unique.
Qed.

Lemma save_to_db_db_ok (r : record string) (db : gmap string table) :
  db_ok db -> db_ok (snd (save_to_db r db)).
Proof. apply insert_record_db_ok. Qed.

Lemma once_in_again s name (db db1 db2 : gmap string table) :
  once_in s name db db1 -> once_in s name db1 db2 -> once_in s name db db2.
Proof.
  intros (_ & Hother1 & Hrest1) (Hcount2 & Hother2 & Hrest2).
  split; [exact Hcount2|]. split.
  - rewrite Hother2. exact Hother1.
  - intros k Hk. rewrite Hrest2 by assumption. apply Hrest1, Hk.
Qed.

Lemma save_all_same s name (rs : list (record string)) :
  forall db : gmap string table,
    db_ok db -> rs <> [] ->
    Forall (fun r' => table_of r' = name /\ text r' = s) rs ->
    Forall (fun res => res = Ok tt) (fst (save_all rs db))
    /\ once_in s name db (snd (save_all rs db)).
Proof.
  induction rs as [|r1 rs IH]; intros db Hok Hne Hall; [congruence|].
  apply Forall_cons_1 in Hall as [[Htable Htext] Hall].
  destruct (save_to_db_once r1 db Hok) as (db1 & Hsave & Honce).
  rewrite Htable, Htext in Honce.
  pose proof (save_to_db_db_ok r1 db Hok) as Hok1. rewrite Hsave in Hok1; cbn [snd] in Hok1.
  cbn [save_all]. rewrite Hsave.
  destruct rs as [|r2 rs'].
  - cbn [save_all fst snd]. split; [repeat constructor | exact Honce].
  - destruct (IH db1 Hok1 ltac:(discriminate) Hall) as [Hres Honce'].
    destruct (save_all (r2 :: rs') db1) as [ress db2]; cbn [fst snd] in *.
    split; [constructor; [reflexivity | exact Hres]|].
    eapply once_in_again; eassumption.
Qed.

End SameText.

(** ** The analytics artifacts *)

Section Analytics.
Import Task8.

Lemma the_str_chars (s : string) :
  comprehension the_str (PyVal.chars s)
  = Ok (map (fun c => String c EmptyString) (list_ascii_of_string s)).
Proof.
  induction s as [|c s IH]; cbn [PyVal.chars comprehension list_ascii_of_string map].
  - reflexivity.
  - cbn [the_str rbind]. rewrite IH. reflexivity.
Qed.

Lemma letter_rows_str (s : string) : exists rows, letter_rows (PStr s) = Ok rows.
Proof.
  unfold letter_rows. cbn [PyVal.iterate rbind]. rewrite the_str_chars. cbn [rbind].
  eexists; reflexivity.
Qed.

(** The two files an update leaves, as a change of the file system. *)
Lemma update_csv_files_str (self : NewsFeed) (s : string) :
  exists rows,
    letter_rows (PStr s) = Ok rows
    /\ forall w,
        update_csv_files self (PStr s) w
        = (Ok tt,
           set_fs (fun f => <[letter_count_file self := Csv rows]>
                              (<[word_count_file self := Csv (word_rows s)]> f)) w).
Proof.
  destruct (letter_rows_str s) as [rows Hrows]. exists rows. split; [exact Hrows|].
  intros w. unfold update_csv_files, update_word_count, update_letter_count,
    bind, lift, Sys.write_file. rewrite Hrows. reflexivity.
Qed.




End Analytics.

(** ** Files are only removed at the end of an adapter *)

Section KeepsFiles.
Context {C : Type}.

Lemma keeps_ret {A} (a : A) : keeps_files (ret (C := C) a).
Proof. intros w r w' p [= <- <-] Hp. exact Hp. Qed.

Lemma keeps_raise {A} (e : exn) : keeps_files (raise (C := C) (A := A) e).
Proof. intros w r w' p [= <- <-] Hp. exact Hp. Qed.

Lemma keeps_lift {A} (x : result A) : keeps_files (lift (C := C) x).
Proof. intros w r w' p [= <- <-] Hp. exact Hp. Qed.

Lemma keeps_bind {A B} (m : M C A) (k : A -> M C B) :
  keeps_files m -> (forall a, keeps_files (k a)) -> keeps_files (bind m k).
Proof.
  intros Hm Hk w r w' p Hrun Hp. unfold bind in Hrun.
  destruct (m w) as [[a|e] w1] eqn:Hmw.
  - eapply Hk; [exact Hrun|]. eapply Hm; eassumption.
  - injection Hrun as <- <-. eapply Hm; eassumption.
Qed.

Lemma keeps_now : keeps_files (Sys.now (C := C)).
Proof. intros w r w' p [= <- <-] Hp. exact Hp. Qed.

Lemma keeps_print (msg : string) : keeps_files (Sys.print (C := C) msg).
Proof. intros w r w' p [= <- <-] Hp. exact Hp. Qed.

Lemma keeps_path_exists (path : string) : keeps_files (Sys.path_exists (C := C) path).
Proof. intros w r w' p [= <- <-] Hp. exact Hp. Qed.

Lemma keeps_read_file (path : string) : keeps_files (Sys.read_file (C := C) path).
Proof.
  intros w r w' p Hrun Hp. unfold Sys.read_file in Hrun.
  destruct (fs w !! path); injection Hrun as <- <-; exact Hp.
Qed.

Lemma keeps_write_file (path : string) (c : C) : keeps_files (Sys.write_file path c).
Proof.
  intros w r w' p [= <- <-] Hp. cbn [set_fs fs].
  rewrite lookup_insert. case_decide; [eauto | exact Hp].
Qed.

Lemma keeps_append_file `{TextFile C} (path s : string) :
  keeps_files (Sys.append_file (C := C) path s).
Proof.
  intros w r w' p [= <- <-] Hp. cbn [set_fs fs].
  rewrite lookup_insert. case_decide; [eauto | exact Hp].
Qed.

Lemma keeps_for_each {A} (body : A -> M C unit) (xs : list A) :
  (forall x, keeps_files (body x)) -> keeps_files (for_each body xs).
Proof.
  intros Hbody. induction xs as [|x xs IH]; cbn [for_each].
  - apply keeps_ret.
  - apply keeps_bind; [apply Hbody | intros _; exact IH].
Qed.

End KeepsFiles.

(** Decomposes a statement into the primitive ones above. *)
Ltac keeps_step :=
  first
    [ apply keeps_bind; [|intros ?]
    | apply keeps_ret | apply keeps_raise | apply keeps_lift | apply keeps_now
    | apply keeps_print | apply keeps_path_exists | apply keeps_read_file
    | apply keeps_write_file | apply keeps_append_file
    | match goal with
      | |- keeps_files (if ?b then _ else _) => destruct b
      | |- keeps_files (match ?x with _ => _ end) => destruct x
      end ].
Ltac keeps := repeat keeps_step.

Section ConstructorsKeep.
Context {C V : Type} `{Field V}.

Lemma keeps_News_init (t c : V) : keeps_files (Classes.News_init (C := C) t c).
Proof. unfold Classes.News_init, Classes.Record_init. keeps. Qed.

Lemma keeps_PrivateAd_init (t d : V) : keeps_files (Classes.PrivateAd_init (C := C) t d).
Proof. unfold Classes.PrivateAd_init, Classes.Record_init. keeps. Qed.

Lemma keeps_Event_init (t l d : V) : keeps_files (Classes.Event_init (C := C) t l d).
Proof. unfold Classes.Event_init, Classes.Record_init. keeps. Qed.

Lemma keeps_save_to_file `{TextFile C} (r : record V) (file_name : string) :
  keeps_files (Classes.save_to_file (C := C) r file_name).
Proof. unfold Classes.save_to_file. keeps. Qed.

End ConstructorsKeep.

Lemma keeps_Task8_publish self r : keeps_files (Task8.publish self r).
Proof.
  unfold Task8.publish, Task8.update_csv_files, Task8.update_word_count,
    Task8.update_letter_count.
  apply keeps_bind; [apply keeps_save_to_file | intros _]. keeps.
Qed.

Lemma keeps_Task8_build_record record_data : keeps_files (Task8.build_record record_data).
Proof.
  unfold Task8.build_record.
  repeat first [ apply keeps_News_init | apply keeps_PrivateAd_init | apply keeps_Event_init
               | keeps_step ].
Qed.

Lemma keeps_Task8_load_item self record_data : keeps_files (Task8.load_item self record_data).
Proof.
  unfold Task8.load_item.
  apply keeps_bind; [apply keeps_Task8_build_record | intros [r|]];
    [apply keeps_Task8_publish | apply keeps_ret].
Qed.

Lemma keeps_Task9_build_record elem : keeps_files (Task9.build_record elem).
Proof.
  unfold Task9.build_record.
  repeat first [ apply keeps_News_init | apply keeps_PrivateAd_init | apply keeps_Event_init
               | keeps_step ].
Qed.

Lemma keeps_Task9_load_item self elem : keeps_files (Task9.load_item self elem).
Proof.
  unfold Task9.load_item.
  apply keeps_bind; [apply keeps_Task9_build_record | intros [r|]];
    [apply keeps_Task8_publish | apply keeps_ret].
Qed.

Lemma keeps_Task6_build_record line : keeps_files (Task6.build_record line).
Proof.
  unfold Task6.build_record.
  repeat first [ apply keeps_News_init | apply keeps_PrivateAd_init | apply keeps_Event_init
               | keeps_step ].
Qed.

Lemma keeps_Task6_process_line self line : keeps_files (Task6.process_line self line).
Proof.
  unfold Task6.process_line.
  apply keeps_bind; [apply keeps_Task6_build_record | intros [r|]];
    [apply keeps_save_to_file | apply keeps_ret].
Qed.

(** ** The source file of an adapter *)

Section SystemCalls.
Context {C : Type}.

Lemma path_exists_Some (p : string) (c : C) (w : world C) :
  fs w !! p = Some c -> Sys.path_exists p w = (Ok true, w).
Proof. intros Hp. unfold Sys.path_exists. rewrite Hp. reflexivity. Qed.

Lemma path_exists_None (p : string) (w : world C) :
  fs w !! p = None -> Sys.path_exists p w = (Ok false, w).
Proof. intros Hp. unfold Sys.path_exists. rewrite Hp. reflexivity. Qed.

Lemma read_file_Some (p : string) (c : C) (w : world C) :
  fs w !! p = Some c -> Sys.read_file p w = (Ok c, w).
Proof. intros Hp. unfold Sys.read_file. rewrite Hp. reflexivity. Qed.

Lemma remove_Some (p : string) (w : world C) :
  is_Some (fs w !! p) -> Sys.remove p w = (Ok tt, set_fs (delete p) w).
Proof. intros [c Hp]. unfold Sys.remove. rewrite Hp. reflexivity. Qed.

(** The end of every adapter: the loop, then [os.remove], then the
    message. *)
Lemma loop_then_remove {A} (body : A -> M C unit) (items : list A)
    (path msg : string) (w w1 : world C) :
  (forall x, keeps_files (body x)) ->
  is_Some (fs w !! path) ->
  for_each body items w = (Ok tt, w1) ->
  (for_each body items ;; Sys.remove path ;; Sys.print msg) w
  = (Ok tt, mk_world (delete path (fs w1)) (stdout w1 ++ [msg]) (clock w1) (ticks w1)).
Proof.
  intros Hbody Hpath Hloop.
  rewrite (bind_Ok _ _ _ _ _ Hloop).
  rewrite (bind_Ok _ _ _ _ _ (remove_Some path w1
             (keeps_for_each body items Hbody _ _ _ _ Hloop Hpath))).
  reflexivity.
Qed.

(** When the loop raises, so does the adapter, before [os.remove]. *)
Lemma loop_raises {A} (body : A -> M C unit) (items : list A)
    (path msg : string) (e : exn) (w w1 : world C) :
  for_each body items w = (Raise e, w1) ->
  (for_each body items ;; Sys.remove path ;; Sys.print msg) w = (Raise e, w1).
Proof. intros Hloop. apply bind_Raise, Hloop. Qed.

End SystemCalls.

Section Consume.

Lemma load_from_json_missing self path (w : world content) :
  fs w !! path = None ->
  Task8.load_from_json self path w
  = (Ok tt, mk_world (fs w) (stdout w ++ ["The specified file does not exist."])
                     (clock w) (ticks w)).
Proof.
  intros Hp. unfold Task8.load_from_json.
  rewrite (bind_Ok _ _ _ _ _ (path_exists_None path w Hp)). reflexivity.
Qed.

Lemma load_from_json_loop self path v items (w : world content) :
  fs w !! path = Some (Json v) ->
  PyVal.iterate v = Ok items ->
  Task8.load_from_json self path w
  = (for_each (Task8.load_item self) items ;;
     Sys.remove path ;;
     Sys.print ("File " +:+ path +:+ " processed and removed.")) w.
Proof.
  intros Hp Hiter. unfold Task8.load_from_json.
  rewrite (bind_Ok _ _ _ _ _ (path_exists_Some path _ w Hp)). cbn [negb].
  unfold Task8.json_load.
  rewrite (bind_Ok _ (fun records_data => bind (lift (PyVal.iterate records_data)) _) w w v).
  - unfold bind at 1, lift. rewrite Hiter. reflexivity.
  - rewrite (bind_Ok _ _ _ _ _ (read_file_Some path _ w Hp)). reflexivity.
Qed.

Lemma load_from_json_finished self path v items (w w1 : world content) :
  fs w !! path = Some (Json v) ->
  PyVal.iterate v = Ok items ->
  for_each (Task8.load_item self) items w = (Ok tt, w1) ->
  Task8.load_from_json self path w
  = (Ok tt, mk_world (delete path (fs w1))
                     (stdout w1 ++ ["File " +:+ path +:+ " processed and removed."])
                     (clock w1) (ticks w1)).
Proof.
  intros Hp Hiter Hloop. rewrite (load_from_json_loop self path v items w Hp Hiter).
  apply loop_then_remove; [apply keeps_Task8_load_item | rewrite Hp; eauto | exact Hloop].
Qed.

Lemma load_from_xml_missing self arg (w : world content) :
  fs w !! Task9.xml_path self arg = None ->
  Task9.load_from_xml self arg w
  = (Ok tt, mk_world (fs w) (stdout w ++ ["The specified XML file does not exist."])
                     (clock w) (ticks w)).
Proof.
  intros Hp. unfold Task9.load_from_xml.
  rewrite (bind_Ok _ _ _ _ _ (path_exists_None _ w Hp)). reflexivity.
Qed.

Lemma load_from_xml_loop self arg root (w : world content) :
  fs w !! Task9.xml_path self arg = Some (Xml root) ->
  Task9.load_from_xml self arg w
  = (for_each (Task9.load_item self) (ET.findall root "record") ;;
     Sys.remove (Task9.xml_path self arg) ;;
     Sys.print ("XML file " +:+ Task9.xml_path self arg +:+ " processed and removed.")) w.
Proof.
  intros Hp. unfold Task9.load_from_xml.
  rewrite (bind_Ok _ _ _ _ _ (path_exists_Some _ _ w Hp)). cbn [negb].
  unfold Task9.parse.
  rewrite (bind_Ok _ (fun root => bind (for_each _ (ET.findall root "record")) _) w w root).
  - reflexivity.
  - rewrite (bind_Ok _ _ _ _ _ (read_file_Some _ _ w Hp)). reflexivity.
Qed.

Lemma load_from_xml_finished self arg root (w w1 : world content) :
  fs w !! Task9.xml_path self arg = Some (Xml root) ->
  for_each (Task9.load_item self) (ET.findall root "record") w = (Ok tt, w1) ->
  Task9.load_from_xml self arg w
  = (Ok tt, mk_world (delete (Task9.xml_path self arg) (fs w1))
                     (stdout w1 ++ ["XML file " +:+ Task9.xml_path self arg
                                      +:+ " processed and removed."])
                     (clock w1) (ticks w1)).
Proof.
  intros Hp Hloop. rewrite (load_from_xml_loop self arg root w Hp).
  apply loop_then_remove; [apply keeps_Task9_load_item | rewrite Hp; eauto | exact Hloop].
Qed.

Lemma process_file_missing self (w : world string) :
  fs w !! Task6.input_file self = None ->
  Task6.process_file self w
  = (Ok tt, mk_world (fs w)
                     (stdout w ++ ["File " +:+ Task6.input_file self +:+ " does not exist."])
                     (clock w) (ticks w)).
Proof.
  intros Hp. unfold Task6.process_file.
  rewrite (bind_Ok _ _ _ _ _ (path_exists_None _ w Hp)). reflexivity.
Qed.

Lemma process_file_loop self data (w : world string) :
  fs w !! Task6.input_file self = Some data ->
  Task6.process_file self w
  = (for_each (Task6.process_line self) (Task6.readlines data) ;;
     Sys.remove (Task6.input_file self) ;;
     Sys.print ("File " +:+ Task6.input_file self +:+ " processed and removed.")) w.
Proof.
  intros Hp. unfold Task6.process_file.
  rewrite (bind_Ok _ _ _ _ _ (path_exists_Some _ _ w Hp)). cbn [negb].
  rewrite (bind_Ok _ _ _ _ _ (read_file_Some _ _ w Hp)). reflexivity.
Qed.

Lemma process_file_finished self data (w w1 : world string) :
  fs w !! Task6.input_file self = Some data ->
  for_each (Task6.process_line self) (Task6.readlines data) w = (Ok tt, w1) ->
  Task6.process_file self w
  = (Ok tt, mk_world (delete (Task6.input_file self) (fs w1))
                     (stdout w1 ++ ["File " +:+ Task6.input_file self
                                      +:+ " processed and removed."])
                     (clock w1) (ticks w1)).
Proof.
  intros Hp Hloop. rewrite (process_file_loop self data w Hp).
  apply loop_then_remove; [apply keeps_Task6_process_line | rewrite Hp; eauto | exact Hloop].
Qed.

End Consume.

(** C7.  Each of the three file adapters, given a path that does not
    exist, prints its report and returns, leaving the files as they were;
    given a source whose loop runs to its end (whatever items the loop
    skipped), it removes the source and prints the closing message. *)
Theorem adapters_consume_source :
  (forall self path (w : world content),
      fs w !! path = None ->
      Task8.load_from_json self path w
      = (Ok tt, mk_world (fs w) (stdout w ++ ["The specified file does not exist."])
                         (clock w) (ticks w)))
  /\ (forall self path v items (w w1 : world content),
         fs w !! path = Some (Json v) ->
         PyVal.iterate v = Ok items ->
         for_each (Task8.load_item self) items w = (Ok tt, w1) ->
         Task8.load_from_json self path w
         = (Ok tt, mk_world (delete path (fs w1))
                            (stdout w1 ++ ["File " +:+ path +:+ " processed and removed."])
                            (clock w1) (ticks w1)))
  /\ (forall self arg (w : world content),
         fs w !! Task9.xml_path self arg = None ->
         Task9.load_from_xml self arg w
         = (Ok tt, mk_world (fs w) (stdout w ++ ["The specified XML file does not exist."])
                            (clock w) (ticks w)))
  /\ (forall self arg root (w w1 : world content),
         fs w !! Task9.xml_path self arg = Some (Xml root) ->
         for_each (Task9.load_item self) (ET.findall root "record") w = (Ok tt, w1) ->
         Task9.load_from_xml self arg w
         = (Ok tt, mk_world (delete (Task9.xml_path self arg) (fs w1))
                            (stdout w1 ++ ["XML file " +:+ Task9.xml_path self arg
                                             +:+ " processed and removed."])
                            (clock w1) (ticks w1)))
  /\ (forall self (w : world string),
         fs w !! Task6.input_file self = None ->
         Task6.process_file self w
         = (Ok tt, mk_world (fs w)
                            (stdout w ++ ["File " +:+ Task6.input_file self
                                            +:+ " does not exist."])
                            (clock w) (ticks w)))
  /\ (forall self data (w w1 : world string),
         fs w !! Task6.input_file self = Some data ->
         for_each (Task6.process_line self) (Task6.readlines data) w = (Ok tt, w1) ->
         Task6.process_file self w
         = (Ok tt, mk_world (delete (Task6.input_file self) (fs w1))
                            (stdout w1 ++ ["File " +:+ Task6.input_file self
                                             +:+ " processed and removed."])
                            (clock w1) (ticks w1))).
Proof.
  repeat split.
  - apply load_from_json_missing.
  - apply load_from_json_finished.
  - apply load_from_xml_missing.
  - apply load_from_xml_finished.
  - apply process_file_missing.
  - apply process_file_finished.
Qed.

Lemma adapters_consume_source_witness :
  let w := Samples.json_world Samples.skipping_batch in
  let items := [PDict [("type", PStr "bogus"); ("text", PStr "x")];
                Samples.news_item (PStr "hello world") (PStr "Paris")] in
  let w1 := snd (for_each (Task8.load_item Samples.feed) items w) in
  stdout w1 = ["Unknown record type: bogus"]
  /\ Task8.load_from_json Samples.feed "records.json" w
     = (Ok tt, mk_world (delete "records.json" (fs w1))
                        (stdout w1 ++ ["File records.json processed and removed."])
                        (clock w1) (ticks w1)).
Proof.
  intros w items w1. split; [vm_compute; reflexivity|].
  apply (proj1 (proj2 adapters_consume_source) Samples.feed "records.json"
           Samples.skipping_batch items w w1); vm_compute; reflexivity.
Defined.

(** ** A date that does not parse *)

Section BadDate.

Lemma for_each_stops {C A} (body : A -> M C unit) (before after : list A) (bad : A)
    (e : exn) (w w1 w2 : world C) :
  for_each body before w = (Ok tt, w1) ->
  body bad w1 = (Raise e, w2) ->
  for_each body (before ++ bad :: after) w = (Raise e, w2).
Proof.
  intros Hbefore Hbad. rewrite for_each_app, Hbefore. cbn [for_each].
  apply bind_Raise, Hbad.
Qed.

(** The constructor has stamped the publish date, and nothing else, when
    [strptime] raises. *)
Lemma PrivateAd_init_bad_date {C} (text : pyval) (s : string) (w : world C) :
  DateTime.strptime_ymd s = Raise ValueError ->
  Classes.PrivateAd_init text (PStr s) w
  = (Raise ValueError, mk_world (fs w) (stdout w) (clock w) (S (ticks w))).
Proof.
  intros Hbad. unfold Classes.PrivateAd_init, Classes.Record_init, Classes.strptime,
    bind, lift, ret, Sys.now; cbn [as_str pyval_Field]. rewrite Hbad. reflexivity.
Qed.

Lemma Event_init_bad_date {C} (text location : pyval) (s : string) (w : world C) :
  DateTime.strptime_ymd s = Raise ValueError ->
  Classes.Event_init text location (PStr s) w
  = (Raise ValueError, mk_world (fs w) (stdout w) (clock w) (S (ticks w))).
Proof.
  intros Hbad. unfold Classes.Event_init, Classes.Record_init, Classes.strptime,
    bind, lift, ret, Sys.now; cbn [as_str pyval_Field]. rewrite Hbad. reflexivity.
Qed.

Lemma load_item_bad_date self item s (w : world content) :
  dated_item item s ->
  DateTime.strptime_ymd s = Raise ValueError ->
  Task8.load_item self item w
  = (Raise ValueError, mk_world (fs w) (stdout w) (clock w) (S (ticks w))).
Proof.
  intros (entries & -> & [[Htype Hdate] | [Htype Hdate]]) Hbad;
    unfold Task8.load_item, Task8.build_record.
  - apply bind_Raise. unfold bind at 1, lift; cbn [PyVal.get]. rewrite Htype.
    unfold bind at 1. cbn [PyVal.eq_str String.eqb Ascii.eqb Bool.eqb].
    unfold bind at 1. rewrite Hdate.
    apply bind_Raise, PrivateAd_init_bad_date, Hbad.
  - apply bind_Raise. unfold bind at 1, lift; cbn [PyVal.get]. rewrite Htype.
    unfold bind at 1. cbn [PyVal.eq_str String.eqb Ascii.eqb Bool.eqb].
    unfold bind at 1. unfold bind at 1. rewrite Hdate.
    apply bind_Raise, Event_init_bad_date, Hbad.
Qed.

(** The loop of the JSON adapter has no handler: the [ValueError] of the
    constructor leaves [load_from_json]. *)
Lemma load_from_json_bad_date self path before bad after s (w w1 : world content) :
  fs w !! path = Some (Json (PList (before ++ bad :: after))) ->
  for_each (Task8.load_item self) before w = (Ok tt, w1) ->
  dated_item bad s ->
  DateTime.strptime_ymd s = Raise ValueError ->
  Task8.load_from_json self path w
  = (Raise ValueError, mk_world (fs w1) (stdout w1) (clock w1) (S (ticks w1)))
  /\ is_Some (fs w1 !! path).
Proof.
  intros Hpath Hbefore Hitem Hbad. split.
  - rewrite (load_from_json_loop self path _ _ w Hpath eq_refl).
    apply loop_raises.
    apply (for_each_stops _ before after bad ValueError w w1 _ Hbefore).
    apply (load_item_bad_date self bad s w1 Hitem Hbad).
  - eapply (keeps_for_each (Task8.load_item self) before); [|exact Hbefore|].
    + apply keeps_Task8_load_item.
    + rewrite Hpath. eauto.
Qed.

End BadDate.

(** C2 (counterexample).  A batch of an ad with the date ["soon"] and a
    news item: the call raises [ValueError]; the news item is never
    published and the source file is not removed. *)
Lemma load_from_json_bad_date_aborts :
  let out := Task8.load_from_json Samples.feed "records.json"
               (Samples.json_world Samples.bad_date_batch) in
  fst out = Raise ValueError
  /\ fs (snd out) !! "news_feed.txt" = None
  /\ stdout (snd out) = []
  /\ fs (snd out) !! "records.json" = Some (Json Samples.bad_date_batch).
Proof. vm_compute. repeat split; reflexivity. Qed.

(** ** Lines the delimited-line adapter does not accept *)

Section Delimited.

Lemma build_record_skips line tag field rest n (w : world string) :
  PyStr.split_on "|" (PyStr.strip line) = tag :: field :: rest ->
  normalize_text (PyStr.strip field) = Ok n ->
  known_shape (PyStr.strip tag) (length (tag :: field :: rest)) = false ->
  Task6.build_record line w
  = (Ok None, mk_world (fs w) (stdout w ++ ["Invalid record format for: " +:+ line])
                       (clock w) (ticks w)).
Proof.
  intros Hparts Hnorm Hshape. unfold Task6.build_record. rewrite Hparts.
  unfold bind at 1, lift; cbn [Task6.index lookup list_lookup].
  unfold bind at 1; cbn [Task6.index lookup list_lookup].
  unfold bind at 1. rewrite Hnorm.
  unfold known_shape in Hshape.
  apply orb_false_iff in Hshape as [Hshape HEvent].
  apply orb_false_iff in Hshape as [HNews HAd].
  rewrite HNews, HAd, HEvent. reflexivity.
Qed.

(** C5 (amended).  A line with at least two fields whose text normalizes
    and whose tag and field count fit no variant is skipped with the
    message [Invalid record format for: ...], and the loop goes on with
    the next line.  A missing source makes the call report and return.
    Nothing is caught: an exception raised for a line leaves
    [process_file], with the source still in place. *)
Theorem process_file_skips_and_propagates :
  (forall self line tag field rest n lines (w : world string),
      PyStr.split_on "|" (PyStr.strip line) = tag :: field :: rest ->
      normalize_text (PyStr.strip field) = Ok n ->
      known_shape (PyStr.strip tag) (length (tag :: field :: rest)) = false ->
      let w' := mk_world (fs w) (stdout w ++ ["Invalid record format for: " +:+ line])
                         (clock w) (ticks w) in
      Task6.process_line self line w = (Ok tt, w')
      /\ for_each (Task6.process_line self) (line :: lines) w
         = for_each (Task6.process_line self) lines w')
  /\ (forall self (w : world string),
         fs w !! Task6.input_file self = None ->
         Task6.process_file self w
         = (Ok tt, mk_world (fs w)
                            (stdout w ++ ["File " +:+ Task6.input_file self
                                            +:+ " does not exist."])
                            (clock w) (ticks w)))
  /\ (forall self data before bad after e (w w1 w2 : world string),
         fs w !! Task6.input_file self = Some data ->
         Task6.readlines data = before ++ bad :: after ->
         for_each (Task6.process_line self) before w = (Ok tt, w1) ->
         Task6.process_line self bad w1 = (Raise e, w2) ->
         Task6.process_file self w = (Raise e, w2)
         /\ is_Some (fs w2 !! Task6.input_file self)).
Proof.
  split; [|split].
  - intros self line tag field rest n lines w Hparts Hnorm Hshape w'.
    assert (Hline : Task6.process_line self line w = (Ok tt, w')).
    { unfold Task6.process_line.
      rewrite (bind_Ok _ _ _ _ _ (build_record_skips line tag field rest n w
                                    Hparts Hnorm Hshape)).
      reflexivity. }
    split; [exact Hline|]. cbn [for_each]. unfold bind. rewrite Hline. reflexivity.
  - apply process_file_missing.
  - intros self data before bad after e w w1 w2 Hpath Hlines Hbefore Hbad. split.
    + rewrite (process_file_loop self data w Hpath), Hlines.
      apply loop_raises. apply (for_each_stops _ before after bad e w w1 w2 Hbefore Hbad).
    + eapply keeps_Task6_process_line; [exact Hbad|].
      eapply (keeps_for_each (Task6.process_line self) before); [|exact Hbefore|].
      * apply keeps_Task6_process_line.
      * rewrite Hpath. eauto.
Qed.

End Delimited.

Lemma process_file_skips_and_propagates_witness :
  let w := Samples.lines_world "" in
  let said line := mk_world (fs w) (stdout w ++ ["Invalid record format for: " +:+ line])
                            (clock w) (ticks w) in
  Task6.process_line Samples.processor "Weather|sunny today|Oslo" w
  = (Ok tt, said "Weather|sunny today|Oslo")
  /\ Task6.process_line Samples.processor "News|sunny today" w
     = (Ok tt, said "News|sunny today").
Proof.
  intros w said. split.
  - apply (proj1 (proj1 process_file_skips_and_propagates Samples.processor
                    "Weather|sunny today|Oslo" "Weather" "sunny today" ["Oslo"]
                    ("Sunny today Today.", 1%nat) [] w eq_refl eq_refl eq_refl)).
  - apply (proj1 (proj1 process_file_skips_and_propagates Samples.processor
                    "News|sunny today" "News" "sunny today" []
                    ("Sunny today Today.", 1%nat) [] w eq_refl eq_refl eq_refl)).
Defined.

(** C5 (counterexample).  The source exists and is read, yet the call
    fails: the date of the first line does not parse, the [ValueError]
    leaves [process_file], the second line is not processed and the
    source stays. *)
Lemma process_file_fails_on_bad_date :
  let data := "PrivateAd|big sale|soon" +:+ Samples.nl
              +:+ "News|hello world|Paris" +:+ Samples.nl in
  let out := Task6.process_file Samples.processor (Samples.lines_world data) in
  fst out = Raise ValueError
  /\ fs (snd out) !! "news_feed.txt" = None
  /\ fs (snd out) !! "records.txt" = Some data.
Proof. vm_compute. repeat split; reflexivity. Qed.

(** The same loop on a line without any [|]: [parts[1]] is out of range
    before the field count is looked at. *)
Example process_file_one_field :
  fst (Task6.process_file Samples.processor (Samples.lines_world ("News" +:+ Samples.nl)))
  = Raise IndexError.
Proof. vm_compute. reflexivity. Qed.

(** ** A date that does not parse, in every adapter *)

Section BadDateEverywhere.
Import Classes.

Lemma PrivateAd_init_raises {C V} `{Field V} (text date : V) (s : string) (w : world C) :
  as_str date = Some s ->
  DateTime.strptime_ymd s = Raise ValueError ->
  PrivateAd_init text date w
  = (Raise ValueError, mk_world (fs w) (stdout w) (clock w) (S (ticks w))).
Proof.
  intros Hstr Hbad. unfold PrivateAd_init, Record_init, strptime, bind, lift, ret, Sys.now.
  rewrite Hstr, Hbad. reflexivity.
Qed.

Lemma Event_init_raises {C V} `{Field V} (text location date : V) (s : string)
    (w : world C) :
  as_str date = Some s ->
  DateTime.strptime_ymd s = Raise ValueError ->
  Event_init text location date w
  = (Raise ValueError, mk_world (fs w) (stdout w) (clock w) (S (ticks w))).
Proof.
  intros Hstr Hbad. unfold Event_init, Record_init, strptime, bind, lift, ret, Sys.now.
  rewrite Hstr, Hbad. reflexivity.
Qed.

Lemma Task9_load_item_bad_date self elem s (w : world content) :
  dated_element elem s ->
  DateTime.strptime_ymd s = Raise ValueError ->
  Task9.load_item self elem w
  = (Raise ValueError, mk_world (fs w) (stdout w) (clock w) (S (ticks w))).
Proof.
  intros ([t Htext] & [[Htype Hdate] | (Htype & [l Hloc] & Hdate)]) Hbad;
    unfold Task9.load_item, Task9.build_record; rewrite Htype, Htext;
    apply bind_Raise; unfold bind at 1, lift.
  - rewrite bool_decide_eq_false_2 by discriminate.
    rewrite bool_decide_eq_true_2 by reflexivity.
    rewrite Hdate. unfold bind at 1. apply bind_Raise.
    apply (PrivateAd_init_raises (PStr t) (PStr s) s w); [reflexivity | exact Hbad].
  - rewrite !bool_decide_eq_false_2 by discriminate.
    rewrite bool_decide_eq_true_2 by reflexivity.
    rewrite Hloc, Hdate. unfold bind at 1. unfold bind at 1. apply bind_Raise.
    apply (Event_init_raises (PStr t) (PStr l) (PStr s) s w); [reflexivity | exact Hbad].
Qed.

Lemma Task6_process_line_bad_date self line s (w : world string) :
  dated_line line s ->
  DateTime.strptime_ymd s = Raise ValueError ->
  Task6.process_line self line w
  = (Raise ValueError, mk_world (fs w) (stdout w) (clock w) (S (ticks w))).
Proof.
  intros (tag & field & rest & Hparts & [n Hnorm] & Hshape) Hbad.
  unfold Task6.process_line, Task6.build_record. rewrite Hparts.
  apply bind_Raise.
  unfold bind at 1, lift; cbn [Task6.index lookup list_lookup].
  unfold bind at 1; cbn [Task6.index lookup list_lookup].
  unfold bind at 1. rewrite Hnorm.
  destruct Hshape as [(Htag & date & -> & Hdate) | (Htag & location & date & -> & Hdate)];
    rewrite Htag; cbn [String.eqb Ascii.eqb Bool.eqb andb length Nat.eqb];
    cbn [Task6.index lookup list_lookup].
  - unfold bind at 1. apply bind_Raise. rewrite Hdate.
    apply (PrivateAd_init_raises (V := string) (fst n) s s w); [reflexivity | exact Hbad].
  - unfold bind at 1. unfold bind at 1. apply bind_Raise. rewrite Hdate.
    apply (Event_init_raises (V := string) (fst n) (PyStr.strip location) s s w);
      [reflexivity | exact Hbad].
Qed.

(** C2 (amended).  No adapter loop has a handler.  When the loop of the
    JSON adapter, of the XML adapter or of the delimited-line adapter
    reaches an ad or an event whose date string (of ASCII characters)
    [strptime] rejects, the [ValueError] of the constructor leaves the
    adapter call.  The items before it have been processed, the clock
    has been read once for the failing one, the items after it are not
    looked at, nothing is reported, and the source file is still
    there. *)
Theorem adapters_abort_on_bad_date :
  (forall self path before bad after s (w w1 : world content),
      fs w !! path = Some (Json (PList (before ++ bad :: after))) ->
      for_each (Task8.load_item self) before w = (Ok tt, w1) ->
      dated_item bad s ->
      PyStr.isascii s = true ->
      DateTime.strptime_ymd s = Raise ValueError ->
      Task8.load_from_json self path w
      = (Raise ValueError, mk_world (fs w1) (stdout w1) (clock w1) (S (ticks w1)))
      /\ is_Some (fs w1 !! path))
  /\ (forall self arg root before bad after s (w w1 : world content),
         fs w !! Task9.xml_path self arg = Some (Xml root) ->
         ET.findall root "record" = before ++ bad :: after ->
         for_each (Task9.load_item self) before w = (Ok tt, w1) ->
         dated_element bad s ->
         PyStr.isascii s = true ->
         DateTime.strptime_ymd s = Raise ValueError ->
         Task9.load_from_xml self arg w
         = (Raise ValueError, mk_world (fs w1) (stdout w1) (clock w1) (S (ticks w1)))
         /\ is_Some (fs w1 !! Task9.xml_path self arg))
  /\ (forall self data before bad after s (w w1 : world string),
         fs w !! Task6.input_file self = Some data ->
         Task6.readlines data = before ++ bad :: after ->
         for_each (Task6.process_line self) before w = (Ok tt, w1) ->
         dated_line bad s ->
         PyStr.isascii bad = true ->
         DateTime.strptime_ymd s = Raise ValueError ->
         Task6.process_file self w
         = (Raise ValueError, mk_world (fs w1) (stdout w1) (clock w1) (S (ticks w1)))
         /\ is_Some (fs w1 !! Task6.input_file self)).
Proof.
  split; [|split].
  - intros self path before bad after s w w1 Hpath Hbefore Hitem _ Hbad.
    apply (load_from_json_bad_date self path before bad after s w w1); assumption.
  - intros self arg root before bad after s w w1 Hpath Hitems Hbefore Hitem _ Hbad. split.
    + rewrite (load_from_xml_loop self arg root w Hpath), Hitems.
      apply loop_raises.
      apply (for_each_stops _ before after bad ValueError w w1 _ Hbefore).
      apply (Task9_load_item_bad_date self bad s w1 Hitem Hbad).
    + eapply (keeps_for_each (Task9.load_item self) before); [|exact Hbefore|].
      * apply keeps_Task9_load_item.
      * rewrite Hpath. eauto.
  - intros self data before bad after s w w1 Hpath Hlines Hbefore Hline _ Hbad. split.
    + rewrite (process_file_loop self data w Hpath), Hlines.
      apply loop_raises.
      apply (for_each_stops _ before after bad ValueError w w1 _ Hbefore).
      apply (Task6_process_line_bad_date self bad s w1 Hline Hbad).
    + eapply (keeps_for_each (Task6.process_line self) before); [|exact Hbefore|].
      * apply keeps_Task6_process_line.
      * rewrite Hpath. eauto.
Qed.

End BadDateEverywhere.

Lemma adapters_abort_on_bad_date_witness :
  let item := Samples.news_item (PStr "hello world") (PStr "Paris") in
  let bad := Samples.ad_item (PStr "big sale") (PStr "soon") in
  let w := Samples.json_world (PList [item; bad; item]) in
  let w1 := snd (Task8.load_item Samples.feed item w) in
  let loader := {| Task9.news_feed := Samples.feed; Task9.default_folder := "data" |} in
  let event := Element "record" [("type", "event")] None
                 [Samples.leaf "text" "fair"; Samples.leaf "location" "Oslo";
                  Samples.leaf "event_date" " 2030-02-30 "] in
  let root := Element "records" [] None [event; Samples.padded_ad] in
  let wx := Spec.world_at Spec.nov_2026 {[ "data/records.xml" := Xml root ]} in
  let data := "PrivateAd|big sale|2030-13-01" +:+ Samples.nl
              +:+ "News|hello world|Paris" +:+ Samples.nl in
  let wl := Samples.lines_world data in
  (fs w1 !! "news_feed.txt"
   = Some (Text ("2026-11-03 09:30:00 Paris hello world" +:+ String "010" ""))
   /\ Task8.load_from_json Samples.feed "records.json" w
      = (Raise ValueError, mk_world (fs w1) (stdout w1) (clock w1) (S (ticks w1))))
  /\ (Task9.load_from_xml loader None wx
      = (Raise ValueError, mk_world (fs wx) (stdout wx) (clock wx) (S (ticks wx)))
      /\ is_Some (fs wx !! "data/records.xml"))
  /\ (Task6.process_file Samples.processor wl
      = (Raise ValueError, mk_world (fs wl) (stdout wl) (clock wl) (S (ticks wl)))
      /\ is_Some (fs wl !! "records.txt")).
Proof.
  intros item bad w w1 loader event root wx data wl.
  split; [split; [vm_compute; reflexivity|]|split].
  - apply (proj1 adapters_abort_on_bad_date Samples.feed "records.json"
             [item] bad [item] "soon" w w1).
    + vm_compute; reflexivity.
    + vm_compute; reflexivity.
    + eexists. split; [reflexivity|]. left. split; reflexivity.
    + reflexivity.
    + vm_compute; reflexivity.
  - apply (proj1 (proj2 adapters_abort_on_bad_date) loader None root
             [] event [Samples.padded_ad] "2030-02-30" wx wx).
    + reflexivity.
    + reflexivity.
    + reflexivity.
    + split; [exists "fair"; reflexivity|]. right.
      split; [reflexivity|]. split; [exists "Oslo"; reflexivity | reflexivity].
    + reflexivity.
    + vm_compute; reflexivity.
  - apply (proj2 (proj2 adapters_abort_on_bad_date) Samples.processor data
             [] ("PrivateAd|big sale|2030-13-01" +:+ Samples.nl)
             ["News|hello world|Paris" +:+ Samples.nl] "2030-13-01" wl wl).
    + reflexivity.
    + vm_compute; reflexivity.
    + reflexivity.
    + exists "PrivateAd", "big sale", ["2030-13-01"].
      split; [vm_compute; reflexivity|].
      split; [eexists; vm_compute; reflexivity|].
      left. split; [reflexivity|]. exists "2030-13-01". split; reflexivity.
    + reflexivity.
    + vm_compute; reflexivity.
Defined.

(** ** The text of a record *)

Section RecordText.

Lemma append_cons (c : ascii) (a b : string) : String c a +:+ b = String c (a +:+ b).
Proof. reflexivity. Qed.

Lemma append_empty (b : string) : "" +:+ b = b.
Proof. reflexivity. Qed.

Lemma append_assoc (a b c : string) : (a +:+ b) +:+ c = a +:+ (b +:+ c).
Proof.
  induction a as [|x a IH]; [reflexivity|].
  rewrite !append_cons, IH. reflexivity.
Qed.

Lemma join_snoc (sep : string) (parts : list string) (x : string) :
  exists p, PyStr.join sep (parts ++ [x]) = p +:+ x.
Proof.
  induction parts as [|a parts [p IH]].
  - exists "". reflexivity.
  - exists (a +:+ sep +:+ p). cbn [app PyStr.join].
    destruct (parts ++ [x]) as [|y ys] eqn:Hsnoc.
    + destruct parts; discriminate.
    + rewrite IH, !append_assoc. reflexivity.
Qed.

Lemma lstrip_keeps_dot (q : string) :
  exists q', PyStr.lstrip_with PyStr.isspace (q +:+ ".") = q' +:+ ".".
Proof.
  induction q as [|c q IH]; rewrite ?append_cons, ?append_empty; cbn [PyStr.lstrip_with].
  - exists "". reflexivity.
  - destruct (PyStr.isspace c); [exact IH | exists (String c q); reflexivity].
Qed.

Lemma rstrip_keeps_dot (q : string) :
  PyStr.rstrip_with PyStr.isspace (q +:+ ".") <> "".
Proof.
  induction q as [|c q IH]; rewrite ?append_cons, ?append_empty; cbn [PyStr.rstrip_with].
  - discriminate.
  - destruct (PyStr.rstrip_with PyStr.isspace (q +:+ ".")); [congruence | discriminate].
Qed.

Lemma strip_ends_with_dot (q : string) : PyStr.strip (q +:+ ".") <> "".
Proof.
  unfold PyStr.strip. destruct (lstrip_keeps_dot q) as [q' ->]. apply rstrip_keeps_dot.
Qed.

(** What [normalize_text] returns ends with the full stop of the sentence
    it adds, so it is not blank. *)
Lemma normalize_text_not_blank (text : string) (n : string * nat) :
  normalize_text text = Ok n -> PyStr.strip (fst n) <> "".
Proof.
  unfold normalize_text.
  destruct (comprehension last_word _) as [last_words|e]; cbn [rbind]; [|discriminate].
  intros [= <-]. cbn [fst].
  destruct (join_snoc " " (map PyRe.sub_iz
                             (map PyStr.capitalize (PyRe.split_sentences (PyStr.strip text))))
              (PyStr.capitalize (PyStr.join " " last_words) +:+ ".")) as [p ->].
  rewrite <- append_assoc. apply strip_ends_with_dot.
Qed.

Lemma bind_inv {C A B} (m : M C A) (k : A -> M C B) (w w' : world C) (b : B) :
  bind m k w = (Ok b, w') -> exists a w1, m w = (Ok a, w1) /\ k a w1 = (Ok b, w').
Proof.
  unfold bind. destruct (m w) as [[a|e] w1]; [eauto | discriminate].
Qed.

Lemma lift_inv {C A} (x : result A) (w w' : world C) (a : A) :
  lift x w = (Ok a, w') -> x = Ok a /\ w' = w.
Proof. intros [= -> ->]. split; reflexivity. Qed.

Lemma ret_inv {C A} (a b : A) (w w' : world C) :
  ret a w = (Ok b, w') -> a = b /\ w' = w.
Proof. intros [= -> ->]. split; reflexivity. Qed.

Lemma News_init_text {C V} `{Field V} (t c : V) (w w' : world C) (r : record V) :
  Classes.News_init t c w = (Ok r, w') -> text r = t.
Proof. intros [= <- _]. reflexivity. Qed.

Lemma PrivateAd_init_text {C V} `{Field V} (t d : V) (w w' : world C) (r : record V) :
  Classes.PrivateAd_init t d w = (Ok r, w') -> text r = t.
Proof.
  unfold Classes.PrivateAd_init, Classes.Record_init, bind, lift, ret, Sys.now.
  destruct (Classes.strptime d); [intros [= <- _]; reflexivity | discriminate].
Qed.

Lemma Event_init_text {C V} `{Field V} (t l d : V) (w w' : world C) (r : record V) :
  Classes.Event_init t l d w = (Ok r, w') -> text r = t.
Proof.
  unfold Classes.Event_init, Classes.Record_init, bind, lift, ret, Sys.now.
  destruct (Classes.strptime d); [intros [= <- _]; reflexivity | discriminate].
Qed.

(** Every record the delimited-line adapter builds carries the text
    [normalize_text] returned. *)
Lemma Task6_build_record_text line (w w' : world string) (r : record string) :
  Task6.build_record line w = (Ok (Some r), w') ->
  exists field n, normalize_text field = Ok n /\ text r = fst n.
Proof.
  unfold Task6.build_record. intros Hrun.
  apply bind_inv in Hrun as (tag & w1 & _ & Hrun).
  apply bind_inv in Hrun as (field & w2 & _ & Hrun).
  apply bind_inv in Hrun as (n & w3 & Hnorm & Hrun).
  apply lift_inv in Hnorm as [Hnorm _].
  exists (PyStr.strip field), n. split; [exact Hnorm|].
  destruct (_ && _) in Hrun.
  { apply bind_inv in Hrun as (city & w4 & _ & Hrun).
    apply bind_inv in Hrun as (r' & w5 & Hinit & Hrun).
    apply ret_inv in Hrun as [[= <-] _]. exact (News_init_text _ _ _ _ _ Hinit). }
  destruct (_ && _) in Hrun.
  { apply bind_inv in Hrun as (date & w4 & _ & Hrun).
    apply bind_inv in Hrun as (r' & w5 & Hinit & Hrun).
    apply ret_inv in Hrun as [[= <-] _]. exact (PrivateAd_init_text _ _ _ _ _ Hinit). }
  destruct (_ && _) in Hrun.
  { apply bind_inv in Hrun as (location & w4 & _ & Hrun).
    apply bind_inv in Hrun as (date & w5 & _ & Hrun).
    apply bind_inv in Hrun as (r' & w6 & Hinit & Hrun).
    apply ret_inv in Hrun as [[= <-] _]. exact (Event_init_text _ _ _ _ _ _ Hinit). }
  apply bind_inv in Hrun as (u & w4 & _ & Hrun).
  apply ret_inv in Hrun as [[=] _].
Qed.

(** The JSON adapter builds a news record from whatever [get("text")]
    returns. *)
Lemma Task8_build_record_news entries (w : world content) :
  PyVal.dict_get entries "type" = PStr "news" ->
  Task8.build_record (PDict entries) w
  = (Ok (Some (News (PyVal.dict_get entries "text")
                    (DateTime.strftime_ymd_hms (clock w (ticks w)))
                    (PyVal.dict_get entries "city"))),
     mk_world (fs w) (stdout w) (clock w) (S (ticks w))).
Proof.
  intros Htype. unfold Task8.build_record.
  unfold bind at 1, lift; cbn [PyVal.get]. rewrite Htype. reflexivity.
Qed.

(** C6 (amended).  Only the delimited-line adapter guarantees the text of
    a record: what it builds carries a normalized text, which is not
    blank.  The JSON adapter checks nothing: an item of type [news] is
    built with the value of [get("text")] as it is, the empty string and
    [None] included, and handed on to be saved. *)
Theorem record_text_by_adapter :
  (forall line (w w' : world string) (r : record string),
      Task6.build_record line w = (Ok (Some r), w') ->
      PyStr.strip (text r) <> "")
  /\ (forall self entries (w : world content),
         PyVal.dict_get entries "type" = PStr "news" ->
         Task8.load_item self (PDict entries) w
         = Task8.publish self
             (News (PyVal.dict_get entries "text")
                   (DateTime.strftime_ymd_hms (clock w (ticks w)))
                   (PyVal.dict_get entries "city"))
             (mk_world (fs w) (stdout w) (clock w) (S (ticks w)))).
Proof.
  split.
  - intros line w w' r Hrun.
    destruct (Task6_build_record_text line w w' r Hrun) as (field & n & Hnorm & ->).
    exact (normalize_text_not_blank field n Hnorm).
  - intros self entries w Htype. unfold Task8.load_item.
    rewrite (bind_Ok _ _ _ _ _ (Task8_build_record_news entries w Htype)). reflexivity.
Qed.

End RecordText.

Lemma record_text_by_adapter_witness :
  let w := Samples.lines_world "" in
  Task6.build_record "News|hello world|Paris" w
  = (Ok (Some (News "Hello world World." "2026-11-03 09:30:00" "Paris")),
     mk_world (fs w) (stdout w) (clock w) 1%nat)
  /\ PyStr.strip "Hello world World." <> "".
Proof.
  intros w.
  assert (Hrun : Task6.build_record "News|hello world|Paris" w
                 = (Ok (Some (News "Hello world World." "2026-11-03 09:30:00" "Paris")),
                    mk_world (fs w) (stdout w) (clock w) 1%nat))
    by (vm_compute; reflexivity).
  split; [exact Hrun|].
  exact (proj1 record_text_by_adapter _ _ _ _ Hrun).
Defined.

(** C6 (counterexample).  A JSON news item whose text is empty is built
    and saved: the feed file receives its line, and the call returns. *)
Lemma load_from_json_empty_text :
  let out := Task8.load_from_json Samples.feed "records.json"
               (Samples.json_world Samples.empty_text_batch) in
  fst out = Ok tt
  /\ fs (snd out) !! "news_feed.txt"
     = Some (Text ("2026-11-03 09:30:00 Paris " +:+ Samples.nl))
  /\ fst (Task8.build_record (Samples.news_item (PStr "") (PStr "Paris"))
            (Samples.json_world Samples.empty_text_batch))
     = Ok (Some (News (PStr "") "2026-11-03 09:30:00" (PStr "Paris"))).
Proof. vm_compute. repeat split; reflexivity. Qed.

(** With the text missing, the record is saved with [None] as its text
    before [update_word_count] raises. *)
Example load_from_json_missing_text :
  let batch := PList [PDict [("type", PStr "news"); ("city", PStr "Paris")]] in
  let out := Task8.load_from_json Samples.feed "records.json" (Samples.json_world batch) in
  fst out = Raise AttributeError
  /\ fs (snd out) !! "news_feed.txt"
     = Some (Text ("2026-11-03 09:30:00 Paris None" +:+ Samples.nl)).
Proof. vm_compute. split; reflexivity. Qed.

(** ** What the XML and the JSON adapter pass to the constructors *)

Section FieldValues.
Import Classes.





Lemma json_news entries (w : world content) :
  PyVal.dict_get entries "type" = PStr "news" ->
  Task8.build_record (PDict entries) w
  = (let! r := News_init (PyVal.dict_get entries "text") (PyVal.dict_get entries "city") in
     ret (Some r)) w.
Proof.
  intros Htype. unfold Task8.build_record.
  unfold bind at 1, lift; cbn [PyVal.get]. rewrite Htype. reflexivity.
Qed.



(** [isspace] holds of the ten whitespace characters and of no other. *)
Lemma isspace_existsb (c : ascii) :
  PyStr.isspace c = existsb (Ascii.eqb c) whitespace.
Proof. destruct c as [[] [] [] [] [] [] [] []]; vm_compute; reflexivity. Qed.

Lemma isspace_whitespace (c : ascii) : PyStr.isspace c = true <-> In c whitespace.
Proof.
  rewrite isspace_existsb, existsb_exists. split.
  - intros (x & Hx & Heq). apply Ascii.eqb_eq in Heq. subst x. exact Hx.
  - intros Hc. exists c. split; [exact Hc | apply Ascii.eqb_refl].
Qed.






End FieldValues.


(** The same values in a JSON item reach [strptime] with their blanks,
    and the date does not parse. *)
Example json_keeps_blanks :
  fst (Task8.build_record (Samples.ad_item (PStr "  big sale ") (PStr " 2030-01-01 "))
         (Samples.json_world PNone))
  = Raise ValueError
  /\ fst (Task8.build_record (Samples.news_item (PStr "  hello ") (PStr " Paris "))
            (Samples.json_world PNone))
     = Ok (Some (News (PStr "  hello ") "2026-11-03 09:30:00" (PStr " Paris "))).
Proof. vm_compute. split; reflexivity. Qed.

(** ** Further checks on concrete inputs *)

Example word_rows_demo :
  Task8.word_rows "The cat the  Dog THE"
  = [[CellStr "Word"; CellStr "Count"];
     [CellStr "the"; CellInt 3]; [CellStr "cat"; CellInt 1]; [CellStr "dog"; CellInt 1]].
Proof. vm_compute. reflexivity. Qed.

Example letter_rows_demo :
  Task8.letter_rows (PStr "Hi 5 You")
  = Ok [[CellStr "Letter"; CellStr "Count_All"; CellStr "Count_Uppercase"; CellStr "Percentage"];
        [CellStr "Hi 5 You"; CellInt 5; CellInt 2; CellPercent 2 5]].
Proof. vm_compute. reflexivity. Qed.

Example insert_or_ignore_ids :
  let ad t := PrivateAd t "2026-11-03 09:30:00" (DateTime.mk_datetime 2030 1 1 0 0 0 0) 1154 in
  map Task10.row_id
      (Task10.rows_of (snd (Task10.save_all [ad "a"; ad "a"; ad "a"; ad "b"]
                              (Task10.DatabaseManager_init ∅))) "PrivateAd")
  = [1; 4].
Proof. vm_compute. reflexivity. Qed.

(** * Further properties of the code *)

(** ** The word count  (task8.py 134-137) *)

Section WordCount.
Import Task8.









Lemma occurrences_cons (w x : string) (ws : list string) :
  occurrences w (x :: ws) = (if String.eqb w x then 1 else 0) + occurrences w ws.
Proof.
  unfold occurrences. cbn [List.filter]. destruct (String.eqb w x); cbn [length]; lia.
Qed.

Lemma occurrences_nonneg (w : string) (ws : list string) : 0 <= occurrences w ws.
Proof. unfold occurrences. lia. Qed.

Lemma occurrences_pos (w : string) (ws : list string) : In w ws <-> 0 < occurrences w ws.
Proof.
  induction ws as [|x ws IH]; [split; [intros [] | unfold occurrences; cbn; lia]|].
  rewrite occurrences_cons. cbn [In]. pose proof (occurrences_nonneg w ws).
  destruct (String.eqb_spec w x) as [->|Hne]; [split; [lia | auto]|].
  rewrite IH. split; [intros [Heq|Hpos]; [congruence | lia] | intros Hpos; right; lia].
Qed.


End WordCount.

Section WordRows.
Import Task8.




End WordRows.

Section Words.
Import PyStr.

Lemma split_words (s : string) :
  forall w, In w (split s) ->
    w <> "" /\ forall c, In c (chars_of w) -> In c (chars_of s) /\ isspace c = false.
Proof.
  induction s as [|c r IH]; intros w; cbn [split]; [intros []|].
  destruct (isspace c) eqn:Hc.
  { intros Hw. destruct (IH w Hw) as [Hne Hchars]. split; [exact Hne|].
    intros x Hx. destruct (Hchars x Hx). split; [right|]; assumption. }
  assert (Hsingle : forall x, In x (chars_of (String c "")) ->
                              In x (chars_of (String c r)) /\ isspace x = false).
  { intros x [<-|[]]. split; [left; reflexivity | exact Hc]. }
  destruct r as [|c' r'].
  { intros [<-|[]]. split; [discriminate | exact Hsingle]. }
  destruct (isspace c') eqn:Hc'.
  { intros [<-|Hw]; [split; [discriminate | exact Hsingle]|].
    destruct (IH w Hw) as [Hne Hchars]. split; [exact Hne|].
    intros x Hx. destruct (Hchars x Hx). split; [right|]; assumption. }
  destruct (split (String c' r')) as [|w0 ws] eqn:Hsplit.
  { intros [<-|[]]. split; [discriminate | exact Hsingle]. }
  intros [<-|Hw].
  - split; [discriminate|]. intros x [<-|Hx].
    + split; [left; reflexivity | exact Hc].
    + destruct (IH w0 (or_introl eq_refl)) as [_ Hchars].
      destruct (Hchars x Hx). split; [right|]; assumption.
  - destruct (IH w (or_intror Hw)) as [Hne Hchars]. split; [exact Hne|].
    intros x Hx. destruct (Hchars x Hx). split; [right|]; assumption.
Qed.

Lemma to_lower_not_upper (c : ascii) : isupper (to_lower c) = false.
Proof.
  destruct c as [[] [] [] [] [] [] [] []]; vm_compute; reflexivity.
Qed.

Lemma lower_chars (s : string) (c : ascii) :
  In c (chars_of (lower s)) -> isupper c = false.
Proof.
  induction s as [|x s IH]; cbn [lower map_chars chars_of list_ascii_of_string In]; [intros []|].
  intros [<-|Hin]; [apply to_lower_not_upper | apply IH, Hin].
Qed.

(** X2.  The words that are counted are never empty and hold neither a
    whitespace character nor an upper-case letter: the count does not
    tell [The] from [the]. *)
Theorem counted_words_lowercase (text w : string) :
  In w (split (lower text)) ->
  w <> "" /\ forall c, In c (chars_of w) -> isspace c = false /\ isupper c = false.
Proof.
  intros Hw. destruct (split_words (lower text) w Hw) as [Hne Hchars].
  split; [exact Hne|]. intros c Hc. destruct (Hchars c Hc) as [Hin Hspace].
  split; [exact Hspace | exact (lower_chars text c Hin)].
Qed.

End Words.

Lemma counted_words_lowercase_witness :
  In "the" (PyStr.split (PyStr.lower "The cat THE dog"))
  /\ "the" <> ""
  /\ forall c, In c (chars_of "the") -> PyStr.isspace c = false /\ PyStr.isupper c = false.
Proof.
  assert (Hin : In "the" (PyStr.split (PyStr.lower "The cat THE dog")))
    by (vm_compute; left; reflexivity).
  split; [exact Hin|]. exact (counted_words_lowercase "The cat THE dog" "the" Hin).
Defined.

(** ** The letter count  (task8.py 151-160) *)

Section LetterCount.
Import PyStr Task8.

Lemma upper_is_alpha (c : ascii) : isupper c = true -> isalpha c = true.
Proof. unfold isalpha. intros ->. reflexivity. Qed.

Lemma upper_not_lower (c : ascii) : isupper c = true -> islower c = false.
Proof.
  unfold isupper, islower, in_range.
  rewrite !andb_true_iff, andb_false_iff, !N.leb_le, !N.leb_gt. lia.
Qed.

Lemma str_isalpha_char (c : ascii) : str_isalpha (String c "") = isalpha c.
Proof. unfold str_isalpha. cbn [list_ascii_of_string forallb]. apply andb_true_r. Qed.

Lemma str_isupper_char (c : ascii) :
  isalpha c = true -> str_isupper (String c "") = isupper c.
Proof.
  unfold str_isupper. cbn [list_ascii_of_string existsb]. rewrite !orb_false_r.
  intros Halpha. rewrite Halpha. cbn [andb]. unfold isalpha in Halpha.
  destruct (isupper c) eqn:Hup; [rewrite (upper_not_lower c Hup); reflexivity|].
  cbn [orb] in Halpha. rewrite Halpha. reflexivity.
Qed.

Lemma letters_of_chars (s : string) :
  let letters := List.filter str_isalpha
                   (map (fun c => String c EmptyString) (list_ascii_of_string s)) in
  length letters = count_chars isalpha s
  /\ length (List.filter str_isupper letters) = count_chars isupper s.
Proof.
  induction s as [|c s [IHa IHu]]; [split; reflexivity|].
  cbn [list_ascii_of_string map List.filter count_chars]. rewrite str_isalpha_char.
  destruct (isalpha c) eqn:Halpha.
  - cbn [List.filter length]. rewrite (str_isupper_char c Halpha).
    destruct (isupper c); cbn [length]; rewrite IHa, IHu; split; reflexivity.
  - destruct (isupper c) eqn:Hup; [rewrite (upper_is_alpha c Hup) in Halpha; discriminate|].
    split; assumption.
Qed.

Lemma count_upper_le_alpha (s : string) :
  (count_chars isupper s <= count_chars isalpha s)%nat.
Proof.
  induction s as [|c s IH]; cbn [count_chars]; [lia|].
  destruct (isupper c) eqn:Hup.
  - rewrite (upper_is_alpha c Hup). lia.
  - destruct (isalpha c); lia.
Qed.


(** X3.  For a text of ASCII characters, the letter-count row holds the
    text, the number of its letters and the number of its upper-case
    letters, which is never the larger one; the percentage is the int
    [0] when the text has no letter (nothing is divided then) and the
    float [(uppercase / total) * 100] otherwise. *)
Theorem letter_rows_counts (s : string) :
  isascii s = true ->
  let total := count_chars isalpha s in
  let uppercase := count_chars isupper s in
  letter_rows (PStr s)
  = Ok [[CellStr "Letter"; CellStr "Count_All"; CellStr "Count_Uppercase";
         CellStr "Percentage"];
        [CellStr s; CellInt (Z.of_nat total); CellInt (Z.of_nat uppercase);
         match total with
         | O => CellInt 0
         | _ => CellPercent uppercase total
         end]]
  /\ (uppercase <= total)%nat.
Proof.
  intros _ total uppercase. split; [|apply count_upper_le_alpha].
  unfold letter_rows. cbn [PyVal.iterate rbind]. rewrite the_str_chars. cbn [rbind].
  destruct (letters_of_chars s) as [-> ->]. reflexivity.
Qed.

End LetterCount.

Lemma letter_rows_counts_witness :
  Task8.letter_rows (PStr "Hi 5 You")
  = Ok [[CellStr "Letter"; CellStr "Count_All"; CellStr "Count_Uppercase";
         CellStr "Percentage"];
        [CellStr "Hi 5 You"; CellInt 5; CellInt 2; CellPercent 2 5]]
  /\ (2 <= 5)%nat.
Proof. exact (letter_rows_counts "Hi 5 You" eq_refl). Defined.

(** ** The artifacts after any number of updates  (task8.py 130-160) *)

Section AnalyticsLatest.
Import PyStr Task8.



End AnalyticsLatest.


(** ** Rows and ids of the table sink  (task10.py 61-67, 87-109) *)

Section Rows.
Import Task10 Inv.

Lemma max_rowid_bound (rs : list row) (x : row) : In x rs -> row_id x <= max_rowid rs.
Proof.
  induction rs as [|r rs IH]; cbn [In max_rowid fold_right]; [intros []|].
  intros [->|Hin]; [lia|]. specialize (IH Hin). unfold max_rowid in IH. lia.
Qed.


(** The database and the rows a save leaves, spelled out. *)
Lemma insert_record_rows name cols t0 s rest (db : gmap string table) :
  db !! table_key name = Some t0 -> columns t0 = cols -> text_unique cols ->
  length (SqlText s :: rest) = length cols ->
  let db' := <[table_key name := insert_or_ignore t0 (SqlText s :: rest)]> db in
  insert_record name (SqlText s :: rest) db = (Ok tt, db')
  /\ rows_of db' name
     = (if existsb (has_text s) (rows t0) then rows t0
        else rows t0 ++ [mk_row (Z.max (sequence t0) (max_rowid (rows t0)) + 1)
                                (store cols (SqlText s :: rest))])
  /\ forall other, table_key other <> table_key name -> rows_of db' other = rows_of db other.
Proof.
  intros Hlook Hcols Huniq Hlen db'. split; [|split].
  - unfold insert_record. rewrite Hlook, Hcols, Hlen, Nat.eqb_refl. reflexivity.
  - unfold rows_of, db'. rewrite lookup_insert_eq.
    apply (insert_text_rows cols); auto.
  - intros other Hother. unfold rows_of, db'. rewrite lookup_insert_ne by congruence.
    reflexivity.
Qed.

Lemma save_to_db_rows (r : record string) (db : gmap string table) :
  db_ok db ->
  exists db' t0,
    db !! table_key (table_of r) = Some t0
    /\ save_to_db r db = (Ok tt, db')
    /\ rows_of db' (table_of r)
       = (if existsb (has_text (text r)) (rows t0) then rows t0
          else rows t0 ++ [mk_row (Z.max (sequence t0) (max_rowid (rows t0)) + 1)
                                  (map Kept (record_data r))])
    /\ forall other, table_key other <> table_key (table_of r) ->
                     rows_of db' other = rows_of db other.
Proof.
  intros ((tn & Hn & [Hnc _]) & (tp & Hp & [Hpc _]) & (te & He & [Hec _])).
  unfold save_to_db. destruct r as [t p c | t p e d | t p l e d]; cbn [table_of record_data text].
  - eexists _, tn. split; [exact Hn|].
    apply (insert_record_rows "News" News_columns tn); auto using News_text_unique.
  - eexists _, tp. split; [exact Hp|].
    apply (insert_record_rows "PrivateAd" PrivateAd_columns tp);
      auto using PrivateAd_text_unique.
  - eexists _, te. split; [exact He|].
    apply (insert_record_rows "Event" Event_columns te); auto using Event_text_unique.
Qed.


End Rows.


Section RowIds.
Import Task10.






Lemma save_all_snd (r : record string) (rs : list (record string)) (db : gmap string table) :
  snd (save_all (r :: rs) db) = snd (save_all rs (snd (save_to_db r db))).
Proof.
  cbn [save_all]. destruct (save_to_db r db) as [res db1]. cbn [snd].
  destruct (save_all rs db1) as [ress db2]. reflexivity.
Qed.


End RowIds.


Section SaveAgain.
Import Task10 Inv.

Lemma save_all_cons (r : record string) (rs : list (record string)) (db : gmap string table) :
  save_all (r :: rs) db
  = (fst (save_to_db r db) :: fst (save_all rs (snd (save_to_db r db))),
     snd (save_all rs (snd (save_to_db r db)))).
Proof.
  cbn [save_all]. destruct (save_to_db r db) as [res db1]. cbn [fst snd].
  destruct (save_all rs db1) as [ress db2]. reflexivity.
Qed.

Lemma rows_of_key (db : gmap string table) (a b : string) :
  table_key a = table_key b -> rows_of db a = rows_of db b.
Proof. intros Hab. unfold rows_of. rewrite Hab. reflexivity. Qed.

Lemma has_text_record (r : record string) (id : Z) :
  has_text (text r) (mk_row id (map Kept (record_data r))) = true.
Proof.
  destruct r; unfold has_text; cbn [record_data map row_values text];
    apply bool_decide_eq_true_2; reflexivity.
Qed.

(** The rows of every table after a save: those before it, and perhaps
    the new row at the end of the record's table. *)
Lemma save_to_db_extends (r : record string) (db : gmap string table) :
  db_ok db ->
  fst (save_to_db r db) = Ok tt
  /\ existsb (has_text (text r)) (rows_of (snd (save_to_db r db)) (table_of r)) = true
  /\ (forall name, exists more,
         rows_of (snd (save_to_db r db)) name = rows_of db name ++ more)
  /\ (present (text r) (table_of r) db ->
      forall name, rows_of (snd (save_to_db r db)) name = rows_of db name).
Proof.
  intros Hok.
  destruct (save_to_db_rows r db Hok) as (db' & t0 & Hlook & Hsave & Hrows & Hother).
  rewrite Hsave. cbn [fst snd].
  assert (Hr : rows_of db (table_of r) = rows t0)
    by (unfold rows_of; rewrite Hlook; reflexivity).
  split; [reflexivity|]. split; [|split].
  - rewrite Hrows. destruct (existsb (has_text (text r)) (rows t0)) eqn:Hex; [exact Hex|].
    rewrite existsb_app. cbn [existsb]. rewrite has_text_record. apply orb_true_r.
  - intros name. destruct (decide (table_key name = table_key (table_of r))) as [Hkey|Hkey].
    + rewrite !(rows_of_key _ name (table_of r) Hkey), Hrows, Hr.
      destruct (existsb _ (rows t0)); eexists; [symmetry; apply app_nil_r | reflexivity].
    + exists []. rewrite (Hother name Hkey). symmetry. apply app_nil_r.
  - unfold present. rewrite Hr. intros Hpresent name.
    destruct (decide (table_key name = table_key (table_of r))) as [Hkey|Hkey].
    + rewrite !(rows_of_key _ name (table_of r) Hkey), Hrows, Hr, Hpresent. reflexivity.
    + apply Hother, Hkey.
Qed.

Lemma save_to_db_keeps_present (r : record string) (db : gmap string table) s name :
  db_ok db -> present s name db -> present s name (snd (save_to_db r db)).
Proof.
  intros Hok Hpresent. destruct (save_to_db_extends r db Hok) as (_ & _ & Hmore & _).
  destruct (Hmore name) as [more Hrows]. unfold present in *.
  rewrite Hrows, existsb_app, Hpresent. reflexivity.
Qed.

Lemma save_all_present (rs : list (record string)) :
  forall db : gmap string table,
    db_ok db ->
    db_ok (snd (save_all rs db))
    /\ (forall s name, present s name db -> present s name (snd (save_all rs db)))
    /\ (forall r, In r rs -> present (text r) (table_of r) (snd (save_all rs db))).
Proof.
  induction rs as [|r rs IH]; intros db Hok.
  - cbn [save_all snd In]. split; [exact Hok|]. split; [auto | intros r []].
  - rewrite save_all_snd.
    pose proof (save_to_db_db_ok r db Hok) as Hok1.
    destruct (IH _ Hok1) as (Hok2 & Hkeep & Hin).
    split; [exact Hok2|]. split.
    + intros s name Hp. apply Hkeep, save_to_db_keeps_present; assumption.
    + intros r' [<-|Hr']; [|apply Hin, Hr'].
      apply Hkeep. destruct (save_to_db_extends r db Hok) as (_ & Hself & _). exact Hself.
Qed.

Lemma save_all_noop (rs : list (record string)) :
  forall db : gmap string table,
    db_ok db ->
    (forall r, In r rs -> present (text r) (table_of r) db) ->
    Forall (fun res => res = Ok tt) (fst (save_all rs db))
    /\ forall name, rows_of (snd (save_all rs db)) name = rows_of db name.
Proof.
  induction rs as [|r rs IH]; intros db Hok Hpresent.
  - cbn [save_all fst snd]. split; [constructor | reflexivity].
  - rewrite save_all_cons. cbn [fst snd].
    destruct (save_to_db_extends r db Hok) as (Hres & _ & _ & Hsame).
    specialize (Hsame (Hpresent r (or_introl eq_refl))).
    destruct (IH (snd (save_to_db r db)) (save_to_db_db_ok r db Hok)) as [Hress Hrows].
    + intros r' Hr'. unfold present. rewrite Hsame. apply Hpresent. right. exact Hr'.
    + split; [constructor; assumption|].
      intros name. rewrite Hrows. apply Hsame.
Qed.

(** X6.  Saving records again whose texts are already in their tables
    changes no row: after a batch has been saved, saving any records
    that repeat table and text of records of the batch never fails and
    leaves the rows of every table as they are. *)
Theorem save_all_again (db : gmap string table) (rs again : list (record string)) :
  reachable db ->
  (forall r', In r' again ->
     exists r, In r rs /\ table_of r = table_of r' /\ text r = text r') ->
  let db1 := snd (save_all rs db) in
  Forall (fun res => res = Ok tt) (fst (save_all again db1))
  /\ forall name, rows_of (snd (save_all again db1)) name = rows_of db1 name.
Proof.
  intros Hreach Hrepeat db1.
  destruct (save_all_present rs db (reachable_db_ok db Hreach)) as (Hok1 & _ & Hin).
  apply save_all_noop; [exact Hok1|].
  intros r' Hr'. destruct (Hrepeat r' Hr') as (r & Hr & <- & <-). apply Hin, Hr.
Qed.

End SaveAgain.

Lemma save_all_again_witness :
  let batch := [News "hello" "2026-11-03 09:30:00" "Paris";
                Event "fair" "2026-11-03 09:30:00" "Oslo"
                      (DateTime.mk_datetime 2030 1 1 0 0 0 0) 1154] in
  let again := [Event "fair" "2026-11-04 10:00:00" "Rome"
                      (DateTime.mk_datetime 2031 1 1 0 0 0 0) 1518;
                News "hello" "2026-11-04 10:00:00" "Bern"] in
  let db1 := snd (Task10.save_all batch (Task10.DatabaseManager_init ∅)) in
  Forall (fun res => res = Ok tt) (fst (Task10.save_all again db1))
  /\ forall name,
       Task10.rows_of (snd (Task10.save_all again db1)) name = Task10.rows_of db1 name.
Proof.
  intros batch again db1.
  apply (save_all_again (Task10.DatabaseManager_init ∅) batch again Task10.reach_init).
  intros r' [<-|[<-|[]]].
  - exists (Event "fair" "2026-11-03 09:30:00" "Oslo"
                  (DateTime.mk_datetime 2030 1 1 0 0 0 0) 1154).
    split; [right; left; reflexivity | split; reflexivity].
  - exists (News "hello" "2026-11-03 09:30:00" "Paris").
    split; [left; reflexivity | split; reflexivity].
Defined.

(** ** One text, one row  (task10.py 61-67) *)

Section SameTextRows.
Import Task10 Inv.

(** C4.  Saving records with one and the same text to one and the same
    table, once or many times, leaves exactly one row with that text
    there, and no call fails.  The row that stays is the one the table
    had for that text, if it had one, and otherwise the row of the first
    record, appended under a new id: the later records are dropped,
    whatever their other fields are.  The rows with other texts and the
    other tables are untouched. *)
Theorem save_same_text_once (db : gmap string table)
    (r : record string) (rs : list (record string)) :
  reachable db ->
  Forall (fun r' => table_of r' = table_of r /\ text r' = text r) rs ->
  let out := save_all (r :: rs) db in
  let old := rows_of db (table_of r) in
  Forall (fun res => res = Ok tt) (fst out)
  /\ count_text (text r) (rows_of (snd out) (table_of r)) = 1%nat
  /\ (exists id,
        (forall x, In x old -> row_id x < id)
        /\ rows_of (snd out) (table_of r)
           = (if existsb (has_text (text r)) old then old
              else old ++ [mk_row id (map Kept (record_data r))]))
  /\ other_rows (text r) (rows_of (snd out) (table_of r)) = other_rows (text r) old
  /\ forall k, k <> table_key (table_of r) -> snd out !! k = db !! k.
Proof.
  intros Hreach Hall out old.
  pose proof (reachable_db_ok db Hreach) as Hok.
  destruct (save_all_same (text r) (table_of r) (r :: rs) db Hok) as [Hres Honce].
  { discriminate. }
  { constructor; [split; reflexivity | exact Hall]. }
  destruct Honce as (Hcount & Hother & Hrest).
  split; [exact Hres|]. split; [exact Hcount|].
  split; [|split; [exact Hother | exact Hrest]].
  destruct (save_to_db_rows r db Hok) as (db1 & t0 & Hlook & Hsave & Hrows & _).
  exists (Z.max (sequence t0) (max_rowid (rows t0)) + 1).
  assert (Hold : old = rows t0) by (unfold old, rows_of; rewrite Hlook; reflexivity).
  split.
  - intros x Hx. rewrite Hold in Hx. pose proof (max_rowid_bound _ x Hx). lia.
  - pose proof (save_to_db_db_ok r db Hok) as Hok1.
    destruct (save_to_db_extends r db Hok) as (_ & Hself & _).
    rewrite Hsave in Hok1, Hself. cbn [snd] in Hok1, Hself.
    unfold out. rewrite save_all_snd, Hsave. cbn [snd].
    destruct (save_all_noop rs db1 Hok1) as [_ Hsame].
    + intros r' Hr'. rewrite List.Forall_forall in Hall.
      destruct (Hall r' Hr') as [-> ->]. exact Hself.
    + rewrite Hsame, Hrows, Hold. reflexivity.
Qed.

End SameTextRows.

Lemma save_same_text_once_witness :
  let first := News "hello" "2026-11-03 09:30:00" "Paris" in
  let again := News "hello" "2026-11-03 09:31:00" "Rome" in
  let db := Task10.DatabaseManager_init ∅ in
  Task10.rows_of (snd (Task10.save_all [first; again; again] db)) "News"
  = [Task10.mk_row 1 (map Task10.Kept
                        [Task10.SqlText "hello"; Task10.SqlText "Paris";
                         Task10.SqlText "2026-11-03 09:30:00"])]
  /\ Inv.count_text "hello" (Task10.rows_of (snd (Task10.save_all [first; again; again] db)) "News")
     = 1%nat.
Proof.
  intros first again db. split; [vm_compute; reflexivity|].
  apply (save_same_text_once db first [again; again] Task10.reach_init).
  repeat constructor.
Defined.

(** ** Items the JSON adapter does not accept  (task8.py 208-231) *)

Section JsonItems.

Lemma load_item_unknown self entries (w : world content) :
  unknown_type (PyVal.dict_get entries "type") = true ->
  Task8.load_item self (PDict entries) w
  = (Ok tt, mk_world (fs w) (stdout w ++ [unknown_message entries]) (clock w) (ticks w)).
Proof.
  unfold unknown_type. rewrite negb_true_iff, !orb_false_iff. intros [[Hn Ha] He].
  unfold Task8.load_item, Task8.build_record.
  unfold bind at 1 2, lift; cbn [PyVal.get]. unfold bind at 1.
  rewrite Hn, Ha, He. reflexivity.
Qed.

Lemma for_each_unknown self (items : list (list (string * pyval))) :
  Forall (fun entries => unknown_type (PyVal.dict_get entries "type") = true) items ->
  forall w : world content,
    for_each (Task8.load_item self) (map PDict items) w
    = (Ok tt, mk_world (fs w) (stdout w ++ map unknown_message items) (clock w) (ticks w)).
Proof.
  induction 1 as [|entries items Hunknown _ IH]; intros w; cbn [map for_each].
  - unfold ret. rewrite app_nil_r. destruct w; reflexivity.
  - rewrite (bind_Ok _ _ _ _ _ (load_item_unknown self entries w Hunknown)).
    rewrite IH. cbn [fs stdout clock ticks]. rewrite <- app_assoc. reflexivity.
Qed.

(** X7.  A JSON array of objects none of which has one of the three
    known types produces no record and raises nothing: the call prints
    one [Unknown record type] message per object (with [None] for a
    missing type), reads no clock, writes no file, and removes the
    source. *)
Theorem load_from_json_unknown_types self path (items : list (list (string * pyval)))
    (w : world content) :
  fs w !! path = Some (Json (PList (map PDict items))) ->
  Forall (fun entries => unknown_type (PyVal.dict_get entries "type") = true) items ->
  Task8.load_from_json self path w
  = (Ok tt,
     mk_world (delete path (fs w))
              (stdout w ++ map unknown_message items
                 ++ ["File " +:+ path +:+ " processed and removed."])
              (clock w) (ticks w)).
Proof.
  intros Hpath Hunknown.
  rewrite (load_from_json_finished self path _ (map PDict items) w _ Hpath eq_refl
             (for_each_unknown self items Hunknown w)).
  cbn [fs stdout clock ticks]. rewrite <- app_assoc. reflexivity.
Qed.

End JsonItems.

Lemma load_from_json_unknown_types_witness :
  Task8.load_from_json Samples.feed "records.json"
    (Samples.json_world (PList [PDict [("type", PStr "News"); ("text", PStr "x")];
                                PDict [("text", PStr "no type")]]))
  = (Ok tt, mk_world ∅ ["Unknown record type: News"; "Unknown record type: None";
                        "File records.json processed and removed."]
                     (fun _ => Spec.nov_2026) 0).
Proof.
  apply (load_from_json_unknown_types Samples.feed "records.json"
           [[("type", PStr "News"); ("text", PStr "x")]; [("text", PStr "no type")]]
           (Samples.json_world _)).
  - reflexivity.
  - repeat constructor.
Defined.

Section TextNotStr.
Import Classes.

(** A record whose text is not a str is appended to the feed file before
    [text.lower()] raises. *)
Lemma publish_text_not_str self (r : record pyval) (w : world content) :
  as_str (text r) = None ->
  Task8.publish self r w
  = (Raise AttributeError,
     mk_world (<[Task8.file_name self
                 := append_text (fs w !! Task8.file_name self) (feed_line r)]> (fs w))
              (stdout w) (clock w) (ticks w)).
Proof.
  intros Htext. unfold Task8.publish, save_to_file, Sys.append_file, bind.
  unfold Task8.update_csv_files, Task8.update_word_count, bind.
  cbn [as_str pyval_Field] in Htext.
  destruct (text r); try discriminate; reflexivity.
Qed.

(** X8.  When the loop of the JSON adapter reaches a [news] object whose
    text is not a str (a missing text, which is [None], included), the
    record is built and its line is appended to the feed file; only then
    does the analytics update raise [AttributeError], which leaves
    [load_from_json] with the line written and the source in place. *)
Theorem load_from_json_text_not_str self path before entries after (w w1 : world content) :
  fs w !! path = Some (Json (PList (before ++ PDict entries :: after))) ->
  for_each (Task8.load_item self) before w = (Ok tt, w1) ->
  PyVal.dict_get entries "type" = PStr "news" ->
  as_str (PyVal.dict_get entries "text") = None ->
  let r := News (PyVal.dict_get entries "text")
                (DateTime.strftime_ymd_hms (clock w1 (ticks w1)))
                (PyVal.dict_get entries "city") in
  Task8.load_from_json self path w
  = (Raise AttributeError,
     mk_world (<[Task8.file_name self
                 := append_text (fs w1 !! Task8.file_name self) (feed_line r)]> (fs w1))
              (stdout w1) (clock w1) (S (ticks w1))).
Proof.
  intros Hpath Hbefore Htype Htext r.
  rewrite (load_from_json_loop self path _ _ w Hpath eq_refl).
  apply loop_raises.
  apply (for_each_stops _ before after (PDict entries) AttributeError w w1 _ Hbefore).
  unfold Task8.load_item.
  rewrite (bind_Ok _ _ _ _ _ (Task8_build_record_news entries w1 Htype)).
  rewrite (publish_text_not_str self r _ Htext). reflexivity.
Qed.

End TextNotStr.

Lemma load_from_json_text_not_str_witness :
  let w := Samples.json_world (PList [PDict [("type", PStr "news"); ("city", PStr "Paris")]]) in
  Task8.load_from_json Samples.feed "records.json" w
  = (Raise AttributeError,
     mk_world (<["news_feed.txt" := Text ("2026-11-03 09:30:00 Paris None" +:+ Samples.nl)]>
                 (fs w))
              [] (fun _ => Spec.nov_2026) 1).
Proof.
  intros w.
  apply (load_from_json_text_not_str Samples.feed "records.json" []
           [("type", PStr "news"); ("city", PStr "Paris")] [] w w);
    reflexivity.
Defined.

(** ** Records the XML adapter cannot read  (task9.py 139-141) *)

Section XmlText.

Lemma field_text_missing elem tag :
  raw_field elem tag = None -> Task9.field_text elem tag = Raise AttributeError.
Proof.
  unfold raw_field, Task9.field_text.
  destruct (ET.find elem tag) as [child|]; [|reflexivity].
  intros ->. reflexivity.
Qed.

Lemma Task9_load_item_no_text self elem (w : world content) :
  raw_field elem "text" = None ->
  Task9.load_item self elem w = (Raise AttributeError, w).
Proof.
  intros Hmissing. unfold Task9.load_item, Task9.build_record.
  rewrite (field_text_missing elem "text" Hmissing). reflexivity.
Qed.

(** X9.  A [record] element without a [text] child, or whose [text]
    child is empty, makes the XML adapter raise [AttributeError] whatever
    its type is, an unknown type included: the records before it have
    been published, nothing is written or printed for it or for the
    records after it, and the source file is not removed. *)
Theorem load_from_xml_no_text self arg root before bad after (w w1 : world content) :
  fs w !! Task9.xml_path self arg = Some (Xml root) ->
  ET.findall root "record" = before ++ bad :: after ->
  for_each (Task9.load_item self) before w = (Ok tt, w1) ->
  raw_field bad "text" = None ->
  Task9.load_from_xml self arg w = (Raise AttributeError, w1)
  /\ is_Some (fs w1 !! Task9.xml_path self arg).
Proof.
  intros Hpath Hrecords Hbefore Hbad. split.
  - rewrite (load_from_xml_loop self arg root w Hpath), Hrecords.
    apply loop_raises.
    apply (for_each_stops _ before after bad AttributeError w w1 w1 Hbefore).
    apply Task9_load_item_no_text, Hbad.
  - eapply (keeps_for_each (Task9.load_item self) before); [|exact Hbefore|].
    + apply keeps_Task9_load_item.
    + rewrite Hpath. eauto.
Qed.

End XmlText.

Lemma load_from_xml_no_text_witness :
  let loader := {| Task9.news_feed := Samples.feed; Task9.default_folder := "data" |} in
  let bad := Element "record" [("type", "weather")] None [Element "text" [] None []] in
  let root := Element "records" [] None [bad; Samples.padded_ad] in
  let w := Spec.world_at Spec.nov_2026 {[ "data/records.xml" := Xml root ]} in
  Task9.load_from_xml loader None w = (Raise AttributeError, w)
  /\ is_Some (fs w !! "data/records.xml").
Proof.
  intros loader bad root w.
  apply (load_from_xml_no_text loader None root [] bad [Samples.padded_ad] w w);
    reflexivity.
Defined.

(** ** Lines the delimited-line adapter accepts, and the files it touches
    (task6.py 127-166) *)

Section DelimitedOutput.
Import Classes.

(** X10.  A line of three [|]-separated fields whose first field strips
    to [News] and whose text normalizes is published: one line is
    appended to the output file, made of the publish date, the stripped
    third field and the normalized text; the clock is read once and
    nothing is printed. *)
Theorem process_line_news self line tag field city n (w : world string) :
  PyStr.split_on "|" (PyStr.strip line) = [tag; field; city] ->
  PyStr.strip tag = "News" ->
  normalize_text (PyStr.strip field) = Ok n ->
  Task6.process_line self line w
  = (Ok tt,
     mk_world (<[Task6.output_file self
                 := append_text (fs w !! Task6.output_file self)
                      (DateTime.strftime_ymd_hms (clock w (ticks w)) +:+ " "
                       +:+ PyStr.strip city +:+ " " +:+ fst n +:+ String "010" "")]> (fs w))
              (stdout w) (clock w) (S (ticks w))).
Proof.
  intros Hparts Htag Hnorm. unfold Task6.process_line, Task6.build_record.
  rewrite Hparts. unfold bind at 1 2, lift; cbn [Task6.index lookup list_lookup].
  unfold bind at 1; cbn [Task6.index lookup list_lookup].
  unfold bind at 1. rewrite Hnorm, Htag. reflexivity.
Qed.

Lemma append_empty_r (s : string) : s +:+ "" = s.
Proof. induction s as [|c s IH]; [reflexivity|]. rewrite append_cons, IH. reflexivity. Qed.

Lemma appended_refl out (w : world string) : appended out w w.
Proof. split; [exists ""; symmetry; apply append_empty_r | reflexivity]. Qed.

Lemma appended_trans out (w1 w2 w3 : world string) :
  appended out w1 w2 -> appended out w2 w3 -> appended out w1 w3.
Proof.
  intros [[m1 H1] F1] [[m2 H2] F2]. split.
  - exists (m1 +:+ m2). rewrite H2, H1. apply append_assoc.
  - intros p Hp. rewrite F2, F1 by assumption. reflexivity.
Qed.

Lemma appends_same_files out (w w' : world string) :
  fs w' = fs w -> appended out w w'.
Proof.
  intros Hfs. split.
  - exists "". unfold file_text. rewrite Hfs. symmetry. apply append_empty_r.
  - intros p _. rewrite Hfs. reflexivity.
Qed.

Lemma appends_ret {A} out (a : A) : only_appends out (ret a).
Proof. intros w r w' [= <- <-]. apply appended_refl. Qed.

Lemma appends_lift {A} out (x : result A) : only_appends out (lift x).
Proof. intros w r w' [= <- <-]. apply appended_refl. Qed.

Lemma appends_now out : only_appends out Sys.now.
Proof. intros w r w' [= <- <-]. apply appends_same_files. reflexivity. Qed.

Lemma appends_print out msg : only_appends out (Sys.print msg).
Proof. intros w r w' [= <- <-]. apply appends_same_files. reflexivity. Qed.

Lemma appends_bind {A B} out (m : M string A) (k : A -> M string B) :
  only_appends out m -> (forall a, only_appends out (k a)) -> only_appends out (bind m k).
Proof.
  intros Hm Hk w r w' Hrun. unfold bind in Hrun.
  destruct (m w) as [[a|e] w1] eqn:Hmw.
  - eapply appended_trans; [eapply Hm | eapply Hk]; eassumption.
  - injection Hrun as <- <-. eapply Hm; eassumption.
Qed.

Lemma appends_append_file out s : only_appends out (Sys.append_file out s).
Proof.
  intros w r w' [= <- <-]. split.
  - exists s. unfold file_text; cbn [set_fs fs]. rewrite lookup_insert_eq.
    cbn [append_text string_TextFile]. destruct (fs w !! out); reflexivity.
  - intros p Hp. cbn [set_fs fs]. apply lookup_insert_ne. congruence.
Qed.

Lemma appends_for_each {A} out (body : A -> M string unit) (xs : list A) :
  (forall x, only_appends out (body x)) -> only_appends out (for_each body xs).
Proof.
  intros Hbody. induction xs as [|x xs IH]; cbn [for_each].
  - apply appends_ret.
  - apply appends_bind; [apply Hbody | intros _; exact IH].
Qed.

Lemma appends_process_line self line :
  only_appends (Task6.output_file self) (Task6.process_line self line).
Proof.
  unfold Task6.process_line, Task6.build_record, News_init, PrivateAd_init, Event_init,
    Record_init, save_to_file.
  repeat first
    [ apply appends_bind; [|intros ?]
    | apply appends_ret | apply appends_lift | apply appends_now | apply appends_print
    | apply appends_append_file
    | match goal with
      | |- only_appends _ (if ?b then _ else _) => destruct b
      | |- only_appends _ (match ?x with _ => _ end) => destruct x
      end ].
Qed.

(** X11.  Whatever the input holds and however the call ends, a call of
    [process_file] whose output file is not its input file only appends
    to the output file: the text that was there stays at the front.
    Every file other than the input and the output is left as it is. *)
Theorem process_file_only_appends self (w w' : world string) r :
  Task6.output_file self <> Task6.input_file self ->
  Task6.process_file self w = (r, w') ->
  (exists more,
      file_text w' (Task6.output_file self) = file_text w (Task6.output_file self) +:+ more)
  /\ forall p, p <> Task6.output_file self -> p <> Task6.input_file self ->
               fs w' !! p = fs w !! p.
Proof.
  intros Hdistinct Hrun.
  destruct (fs w !! Task6.input_file self) as [data|] eqn:Hinput.
  - rewrite (process_file_loop self data w Hinput) in Hrun. unfold bind in Hrun.
    destruct (for_each (Task6.process_line self) (Task6.readlines data) w)
      as [[[]|e] w1] eqn:Hloop.
    + pose proof (appends_for_each _ _ _ (appends_process_line self) _ _ _ Hloop)
        as [[more Hmore] Hframe].
      unfold Sys.remove in Hrun.
      destruct (fs w1 !! Task6.input_file self) eqn:Hin1.
      * injection Hrun as <- <-. split.
        -- exists more. rewrite <- Hmore. unfold file_text; cbn [set_fs fs].
           rewrite lookup_delete_ne by congruence. reflexivity.
        -- intros p Hout Hinp. cbn [set_fs fs].
           rewrite lookup_delete_ne by congruence. apply Hframe, Hout.
      * injection Hrun as <- <-. split; [exists more; exact Hmore|].
        intros p Hout _. apply Hframe, Hout.
    + injection Hrun as <- <-.
      pose proof (appends_for_each _ _ _ (appends_process_line self) _ _ _ Hloop)
        as [Hmore Hframe].
      split; [exact Hmore|]. intros p Hout _. apply Hframe, Hout.
  - rewrite (process_file_missing self w Hinput) in Hrun. injection Hrun as <- <-.
    split; [exists ""; symmetry; apply append_empty_r | reflexivity].
Qed.

End DelimitedOutput.

Lemma process_line_news_witness :
  let w := Samples.lines_world "" in
  Task6.process_line Samples.processor " News | hello world.  iz it | Paris " w
  = (Ok tt,
     mk_world (<["news_feed.txt"
                 := "2026-11-03 09:30:00 Paris Hello world. is it World it."
                    +:+ Samples.nl]> (fs w))
              [] (fun _ => Spec.nov_2026) 1).
Proof.
  intros w.
  apply (process_line_news Samples.processor " News | hello world.  iz it | Paris "
           "News " " hello world.  iz it " " Paris"
           ("Hello world. is it World it.", 4%nat) w); reflexivity.
Defined.

Lemma process_file_only_appends_witness :
  let data := "News|hello world|Paris" +:+ Samples.nl +:+ "Weather|sunny|Oslo" +:+ Samples.nl in
  let w := Spec.world_at Spec.nov_2026
             ({[ "records.txt" := data; "news_feed.txt" := "old line" +:+ Samples.nl ]}
                : gmap string string) in
  let w' := snd (Task6.process_file Samples.processor w) in
  file_text w' "news_feed.txt"
  = ("old line" +:+ Samples.nl) +:+ ("2026-11-03 09:30:00 Paris Hello world World."
                                     +:+ Samples.nl)
  /\ exists more, file_text w' "news_feed.txt" = file_text w "news_feed.txt" +:+ more.
Proof.
  intros data w w'. split; [vm_compute; reflexivity|].
  apply (process_file_only_appends Samples.processor w w'
           (fst (Task6.process_file Samples.processor w))).
  - discriminate.
  - apply surjective_pairing.
Defined.

(** ** Dates  (task8.py 106-110, task10.py 92-109) *)

Section EventDays.

Lemma days_floored_sign (a b : DateTime.datetime) :
  Spec.days_floored a b < 0 <-> Spec.to_micros a < Spec.to_micros b.
Proof.
  unfold Spec.days_floored, Spec.day_micros. split.
  - intros Hneg. destruct (Z.lt_ge_cases (Spec.to_micros a) (Spec.to_micros b)) as [H|H];
      [exact H|].
    assert (0 <= (Spec.to_micros a - Spec.to_micros b) / (86400 * 1000000))
      by (apply Z.div_pos; lia). lia.
  - intros Hlt. apply Z.div_lt_upper_bound; lia.
Qed.

(** X12.  An [Event] built from a date string that parses never raises.
    Its [days_until_event] is fixed by the second clock reading of the
    constructor: the whole days from that instant to midnight of the
    event date, rounded down; it is negative exactly when that midnight
    is already past, and [0] for less than a day ahead. *)
Theorem Event_days_until_event {C V} `{Field V}
    (text location date : V) (s : string) (day : DateTime.datetime) (w : world C) :
  as_str date = Some s ->
  DateTime.strptime_ymd s = Ok day ->
  let t := clock w (S (ticks w)) in
  Classes.Event_init text location date w
  = (Ok (Event text (DateTime.strftime_ymd_hms (clock w (ticks w))) location
               day (Spec.days_floored day t)),
     mk_world (fs w) (stdout w) (clock w) (S (S (ticks w))))
  /\ (Spec.days_floored day t < 0 <-> Spec.to_micros day < Spec.to_micros t)
  /\ (0 <= Spec.to_micros day - Spec.to_micros t < Spec.day_micros ->
      Spec.days_floored day t = 0).
Proof.
  intros Hstr Hparse t. split; [|split].
  - unfold Classes.Event_init, Classes.Record_init, Classes.strptime, bind, lift, ret,
      Sys.now; cbn [fs stdout clock ticks].
    rewrite Hstr, Hparse, days_sub_floor. reflexivity.
  - apply days_floored_sign.
  - intros Hrange. unfold Spec.days_floored. apply Z.div_small, Hrange.
Qed.

End EventDays.

Lemma Event_days_until_event_witness :
  Classes.Event_init (PStr "fair") (PStr "Oslo") (PStr "2026-11-04")
    (Spec.world_at (C := content) Spec.nov_2026 ∅)
  = (Ok (Event (PStr "fair") "2026-11-03 09:30:00" (PStr "Oslo")
               (DateTime.mk_datetime 2026 11 4 0 0 0 0) 0),
     mk_world ∅ [] (fun _ => Spec.nov_2026) 2).
Proof.
  exact (proj1 (Event_days_until_event (C := content) (PStr "fair") (PStr "Oslo")
                  (PStr "2026-11-04") "2026-11-04"
                  (DateTime.mk_datetime 2026 11 4 0 0 0 0)
                  (Spec.world_at Spec.nov_2026 ∅) eq_refl eq_refl)).
Defined.

Section DateRoundTrip.
Import DateTime.









End DateRoundTrip.

Section DateRoundTrip2.
Import DateTime.











End DateRoundTrip2.


(** ** When [normalize_text] returns  (task6.py 22-41, task8.py 24-43) *)

Section NormalizeOutcome.
Import PyStr.

Lemma last_word_outcome (q : string) :
  (no_word q /\ last_word q = Raise IndexError)
  \/ (~ no_word q /\ exists w, last_word q = Ok w).
Proof.
  unfold no_word, last_word, index_last.
  destruct (split (rstrip_chars ".!?" q)) as [|w ws] eqn:Hsplit.
  - left. split; reflexivity.
  - right. split; [discriminate|].
    destruct (last (w :: ws)) as [x|] eqn:Hlast; [eauto|].
    apply last_None in Hlast. discriminate.
Qed.

Lemma comprehension_last_word (qs : list string) :
  (Exists no_word qs /\ comprehension last_word qs = Raise IndexError)
  \/ (Forall (fun q => ~ no_word q) qs /\ exists ws, comprehension last_word qs = Ok ws).
Proof.
  induction qs as [|q qs IH]; cbn [comprehension].
  - right. split; [constructor | eauto].
  - destruct (last_word_outcome q) as [[Hno ->]|[Hword [w ->]]]; cbn [rbind].
    + left. split; [left; exact Hno | reflexivity].
    + destruct IH as [[Hex ->]|[Hall [ws ->]]]; cbn [rbind].
      * left. split; [right; exact Hex | reflexivity].
      * right. split; [constructor; assumption | eauto].
Qed.

Lemma same_shape_refl (a : string) : same_shape a a.
Proof. induction a as [|c a IH]; cbn [same_shape]; auto. Qed.

Lemma same_shape_trans (a b c : string) :
  same_shape a b -> same_shape b c -> same_shape a c.
Proof.
  revert b c. induction a as [|x a IH]; intros [|y b] [|z c]; cbn [same_shape]; try tauto.
  intros (H1 & H2 & H3) (H4 & H5 & H6). repeat split; try congruence. eapply IH; eassumption.
Qed.

Lemma same_shape_empty (a b : string) : same_shape a b -> (a = "" <-> b = "").
Proof. destruct a, b; cbn [same_shape]; intros H; split; intros; try tauto; discriminate. Qed.

Lemma rstrip_same_shape (a b : string) :
  same_shape a b ->
  same_shape (rstrip_chars ".!?" a) (rstrip_chars ".!?" b).
Proof.
  unfold rstrip_chars. revert b.
  induction a as [|x a IH]; intros [|y b]; cbn [same_shape rstrip_with]; try tauto.
  intros (Hspace & Hend & Hrest). specialize (IH b Hrest).
  pose proof (same_shape_empty _ _ IH) as Hempty.
  destruct (rstrip_with (mem_char ".!?") a) as [|c a'];
    destruct (rstrip_with (mem_char ".!?") b) as [|d b'].
  - rewrite <- Hend. destruct (mem_char ".!?" x) eqn:Hx; cbn [same_shape]; [exact I|].
    repeat split; congruence.
  - destruct Hempty as [H _]. discriminate (H eq_refl).
  - destruct Hempty as [_ H]. discriminate (H eq_refl).
  - cbn [same_shape] in *. tauto.
Qed.

Lemma split_nil (s : string) :
  split s = [] <-> Forall (fun c => isspace c = true) (chars_of s).
Proof.
  induction s as [|c s IH]; cbn [split chars_of list_ascii_of_string].
  - split; [constructor | reflexivity].
  - destruct (isspace c) eqn:Hc.
    + rewrite IH. split; [intros H; constructor; assumption|].
      intros H. apply Forall_cons_1 in H as [_ H]. exact H.
    + split.
      * destruct s as [|c' s']; [discriminate|].
        destruct (isspace c'); [discriminate|].
        destruct (split (String c' s')); discriminate.
      * intros H. apply Forall_cons_1 in H as [H _]. congruence.
Qed.

Lemma same_shape_spaces (a b : string) :
  same_shape a b ->
  (Forall (fun c => isspace c = true) (chars_of a)
   <-> Forall (fun c => isspace c = true) (chars_of b)).
Proof.
  revert b. induction a as [|x a IH]; intros [|y b]; cbn [same_shape]; try tauto.
  intros (Hspace & _ & Hrest). cbn [chars_of list_ascii_of_string].
  rewrite !Forall_cons, Hspace. specialize (IH b Hrest). unfold chars_of in IH. tauto.
Qed.

Lemma same_shape_no_word (a b : string) : same_shape a b -> (no_word a <-> no_word b).
Proof.
  intros Hshape. unfold no_word. rewrite !split_nil.
  apply same_shape_spaces, rstrip_same_shape, Hshape.
Qed.

Lemma to_upper_shape (c : ascii) :
  isspace c = isspace (to_upper c) /\ mem_char ".!?" c = mem_char ".!?" (to_upper c).
Proof. destruct c as [[] [] [] [] [] [] [] []]; vm_compute; split; reflexivity. Qed.

Lemma to_lower_shape (c : ascii) :
  isspace c = isspace (to_lower c) /\ mem_char ".!?" c = mem_char ".!?" (to_lower c).
Proof. destruct c as [[] [] [] [] [] [] [] []]; vm_compute; split; reflexivity. Qed.

Lemma lower_shape (s : string) : same_shape s (lower s).
Proof.
  induction s as [|c s IH]; cbn [lower map_chars same_shape]; [exact I|].
  destruct (to_lower_shape c). auto.
Qed.

Lemma capitalize_shape (s : string) : same_shape s (capitalize s).
Proof.
  destruct s as [|c s]; cbn [capitalize same_shape]; [exact I|].
  destruct (to_upper_shape c). pose proof (lower_shape s). auto.
Qed.

Lemma letter_i_shape (c : ascii) :
  Ascii.eqb c "i" || Ascii.eqb c "I" = true ->
  isspace c = false /\ mem_char ".!?" c = false.
Proof.
  intros H. apply orb_true_iff in H as [H|H]; apply Ascii.eqb_eq in H; subst c;
    split; reflexivity.
Qed.

Lemma sub_scan_shape (n : nat) :
  forall (s : string) (b : bool), (String.length s <= n)%nat -> same_shape s (PyRe.sub_scan b s).
Proof.
  induction n as [|n IH]; intros s b Hlen.
  - destruct s; [exact I | cbn [String.length] in Hlen; lia].
  - destruct s as [|c1 [|c2 r]]; cbn [PyRe.sub_scan].
    + exact I.
    + apply same_shape_refl.
    + cbn [String.length] in Hlen.
      destruct (negb b && (Ascii.eqb c1 "i" || Ascii.eqb c1 "I") && Ascii.eqb c2 "z"
                && negb (PyRe.starts_with_word r)) eqn:Hmatch.
      * apply andb_true_iff in Hmatch as [Hmatch _].
        apply andb_true_iff in Hmatch as [Hmatch Hz].
        apply andb_true_iff in Hmatch as [_ Hi].
        apply Ascii.eqb_eq in Hz. subst c2.
        destruct (letter_i_shape c1 Hi) as [Hspace Hend].
        cbn [same_shape]. rewrite Hspace, Hend.
        repeat split. apply IH. lia.
      * cbn [same_shape]. repeat split. apply (IH (String c2 r)). cbn [String.length]. lia.
Qed.

Lemma sub_iz_shape (s : string) : same_shape s (PyRe.sub_iz s).
Proof. apply (sub_scan_shape (String.length s)). lia. Qed.

Lemma corrected_no_word (p : string) :
  no_word (PyRe.sub_iz (capitalize p)) <-> no_word p.
Proof.
  symmetry. apply same_shape_no_word.
  eapply same_shape_trans; [apply capitalize_shape | apply sub_iz_shape].
Qed.

(** X14.  On a text of ASCII characters, [normalize_text] raises
    exactly when some sentence of the stripped input has no word in
    front of its closing [.!?] (as the only sentence of a blank input
    has not): the case fix and the [iz] fix never make a difference to
    it, and the exception is always [IndexError]. *)
Theorem normalize_text_raises_iff (text : string) :
  isascii text = true ->
  (normalize_text text = Raise IndexError
   <-> Exists no_word (PyRe.split_sentences (strip text)))
  /\ forall e, normalize_text text = Raise e -> e = IndexError.
Proof.
  intros _. unfold normalize_text.
  set (sentences := PyRe.split_sentences (strip text)).
  destruct (comprehension_last_word (map PyRe.sub_iz (map capitalize sentences)))
    as [[Hex ->]|[Hall [ws ->]]]; cbn [rbind].
  - split; [|intros e [= <-]; reflexivity].
    split; [intros _|reflexivity].
    rewrite map_map in Hex. apply List.Exists_exists in Hex as (q & Hq & Hno).
    apply in_map_iff in Hq as (p & <- & Hp).
    apply List.Exists_exists. exists p. split; [exact Hp | apply corrected_no_word, Hno].
  - split; [|discriminate].
    split; [discriminate|]. intros Hex. exfalso.
    apply List.Exists_exists in Hex as (p & Hp & Hno).
    rewrite map_map, List.Forall_forall in Hall.
    apply (Hall (PyRe.sub_iz (capitalize p))).
    + apply in_map_iff. exists p. split; [reflexivity | exact Hp].
    + apply corrected_no_word, Hno.
Qed.

Lemma count_isspace (s : string) : count_chars isspace s = whitespace_count s.
Proof.
  unfold whitespace_count.
  induction s as [|c s IH]; cbn [count_chars list_ascii_of_string List.filter];
    [reflexivity|].
  destruct (in_dec ascii_dec c whitespace) as [Hin|Hout].
  - rewrite (proj2 (isspace_whitespace c) Hin). cbn [length]. rewrite IH. reflexivity.
  - destruct (isspace c) eqn:Hc; [|exact IH].
    destruct Hout. apply isspace_whitespace, Hc.
Qed.

(** X15.  When [normalize_text] returns on a text of ASCII characters,
    the normalized text ends with the full stop of the sentence it
    adds, and the count that comes with it is the number of whitespace
    characters (TAB, LF, VT, FF, CR, FS, GS, RS, US, space) of the text
    as it was passed: the whitespace that [strip] removes, a final
    newline for one, is counted too. *)
Theorem normalize_text_returns (text normalized : string) (count : nat) :
  isascii text = true ->
  normalize_text text = Ok (normalized, count) ->
  (exists front, normalized = front +:+ ".")
  /\ count = whitespace_count text.
Proof.
  intros _. unfold normalize_text.
  destruct (comprehension last_word _) as [last_words|e]; cbn [rbind]; [|discriminate].
  intros [= <- <-]. split; [|apply count_isspace].
  destruct (join_snoc " " (map PyRe.sub_iz
                             (map capitalize (PyRe.split_sentences (strip text))))
              (capitalize (join " " last_words) +:+ ".")) as [p ->].
  exists (p +:+ capitalize (join " " last_words)). symmetry. apply append_assoc.
Qed.

End NormalizeOutcome.

Lemma normalize_text_raises_iff_witness :
  normalize_text "ok. ?!" = Raise IndexError
  /\ forall e, normalize_text "ok. ?!" = Raise e -> e = IndexError.
Proof.
  destruct (normalize_text_raises_iff "ok. ?!" eq_refl) as [Hiff Honly].
  split; [|exact Honly]. apply Hiff.
  right. left. reflexivity.
Defined.

Lemma normalize_text_returns_witness :
  normalize_text (" a. b! " +:+ Samples.nl) = Ok ("A. B! A b.", 4%nat)
  /\ (exists front, "A. B! A b." = front +:+ ".")
  /\ 4%nat = whitespace_count (" a. b! " +:+ Samples.nl).
Proof.
  assert (Hrun : normalize_text (" a. b! " +:+ Samples.nl) = Ok ("A. B! A b.", 4%nat))
    by (vm_compute; reflexivity).
  split; [exact Hrun|].
  exact (normalize_text_returns (" a. b! " +:+ Samples.nl) _ _ eq_refl Hrun).
Defined.

Example normalize_text_raises_examples :
  map normalize_text ["a. !"; "..."; "ok. ?!"; "! a"; "!a"; "a. .b"]
  = [Raise IndexError; Raise IndexError; Raise IndexError; Raise IndexError;
     Ok ("!a !a.", 0%nat); Ok ("A. .b A .b.", 1%nat)].
Proof. vm_compute. reflexivity. Qed.

(** ** Records added by hand  (task8.py 162-195) *)

Section AddRecord.
Import Task8Console.

(** X16.  A choice that is none of [1], [2], [3] makes [add_record]
    print [Invalid choice!] and return: only the line of the choice is
    read, no clock is read and no file is written.  With no line to read
    at all, the menu is printed and [input] raises [EOFError]. *)
Theorem add_record_invalid_choice self (choice : string) (rest : list string)
    (w : world content) :
  choice <> "1" -> choice <> "2" -> choice <> "3" ->
  add_record self (choice :: rest) w
  = (Done tt, rest,
     mk_world (fs w) (stdout w ++ menu ++ ["Invalid choice!"]) (clock w) (ticks w))
  /\ add_record self [] w
     = (EndOfInput, [], mk_world (fs w) (stdout w ++ menu) (clock w) (ticks w)).
Proof.
  intros H1 H2 H3. split.
  - unfold add_record, ask_record, Con.bind, Con.run, Con.input, Con.ret, Sys.print;
      cbn [fs stdout clock ticks].
    rewrite (proj2 (String.eqb_neq choice "1") H1), (proj2 (String.eqb_neq choice "2") H2),
      (proj2 (String.eqb_neq choice "3") H3).
    cbn [fs stdout clock ticks]. unfold menu. rewrite <- !app_assoc. reflexivity.
  - unfold add_record, ask_record, Con.bind, Con.run, Con.input, Con.ret, Sys.print;
      cbn [fs stdout clock ticks].
    unfold menu. rewrite <- !app_assoc. reflexivity.
Qed.

(** X17.  Choice [1] with a text and a city builds a [News] record from
    the two lines exactly as typed (nothing is stripped or normalized,
    an empty text is taken too): its line is appended to the feed file,
    both analytics files are rewritten for this text, and the success
    message is printed. *)
Theorem add_record_news self (typed city : string) (rest : list string) (w : world content) :
  exists letters,
    Task8.letter_rows (PStr typed) = Ok letters
    /\ add_record self ("1" :: typed :: city :: rest) w
       = (Done tt, rest,
          mk_world
            (<[Task8.letter_count_file self := Csv letters]>
               (<[Task8.word_count_file self := Csv (Task8.word_rows typed)]>
                  (<[Task8.file_name self
                     := append_text (fs w !! Task8.file_name self)
                          (DateTime.strftime_ymd_hms (clock w (ticks w)) +:+ " " +:+ city
                           +:+ " " +:+ typed +:+ String "010" "")]> (fs w))))
            (stdout w ++ menu
               ++ ["Enter news text: "; "Enter city: "; "Record added successfully!"])
            (clock w) (S (ticks w))).
Proof.
  destruct (update_csv_files_str self typed) as (letters & Hletters & Hupdate).
  exists letters. split; [exact Hletters|].
  unfold add_record, ask_record, Con.bind, Con.run, Con.input, Con.ret, Sys.print;
    cbn [fs stdout clock ticks String.eqb Ascii.eqb Bool.eqb].
  unfold Classes.News_init, Classes.Record_init, bind, ret, Sys.now;
    cbn [fs stdout clock ticks].
  unfold Task8.publish, Classes.save_to_file, Sys.append_file, bind; cbn [text].
  rewrite Hupdate. unfold set_fs; cbn [fs stdout clock ticks].
  unfold menu. rewrite <- !app_assoc. reflexivity.
Qed.

(** X18.  Choice [2] or [3] with a date that does not parse raises
    [ValueError] out of [add_record] after all answers have been read:
    the publish date has been taken from the clock, but no file is
    written and no success message is printed. *)
Theorem add_record_bad_date self (text location date : string) (rest : list string)
    (w : world content) :
  DateTime.strptime_ymd date = Raise ValueError ->
  add_record self ("2" :: text :: date :: rest) w
  = (Failed ValueError, rest,
     mk_world (fs w)
              (stdout w ++ menu
                 ++ ["Enter private ad text: "; "Enter expiration date (YYYY-MM-DD): "])
              (clock w) (S (ticks w)))
  /\ add_record self ("3" :: text :: location :: date :: rest) w
     = (Failed ValueError, rest,
        mk_world (fs w)
                 (stdout w ++ menu
                    ++ ["Enter event text: "; "Enter event location: ";
                        "Enter event date (YYYY-MM-DD): "])
                 (clock w) (S (ticks w))).
Proof.
  intros Hbad. split.
  - unfold add_record, ask_record, Con.bind, Con.run, Con.input, Con.ret, Sys.print;
      cbn [fs stdout clock ticks String.eqb Ascii.eqb Bool.eqb].
    rewrite (PrivateAd_init_bad_date (PStr text) date _ Hbad); cbn [fs stdout clock ticks].
    unfold menu. rewrite <- !app_assoc. reflexivity.
  - unfold add_record, ask_record, Con.bind, Con.run, Con.input, Con.ret, Sys.print;
      cbn [fs stdout clock ticks String.eqb Ascii.eqb Bool.eqb].
    rewrite (Event_init_bad_date (PStr text) (PStr location) date _ Hbad);
      cbn [fs stdout clock ticks].
    unfold menu. rewrite <- !app_assoc. reflexivity.
Qed.

End AddRecord.

Lemma add_record_invalid_choice_witness :
  Task8Console.add_record Samples.feed ["4"; "yes"] (Samples.json_world PNone)
  = (Done tt, ["yes"],
     mk_world (fs (Samples.json_world PNone))
              (Task8Console.menu ++ ["Invalid choice!"]) (fun _ => Spec.nov_2026) 0).
Proof.
  exact (proj1 (add_record_invalid_choice Samples.feed "4" ["yes"] (Samples.json_world PNone)
                  ltac:(discriminate) ltac:(discriminate) ltac:(discriminate))).
Defined.

Lemma add_record_bad_date_witness :
  Task8Console.add_record Samples.feed ["2"; "big sale"; "31.12.2030"]
    (Samples.json_world PNone)
  = (Failed ValueError, [],
     mk_world (fs (Samples.json_world PNone))
              (Task8Console.menu
                 ++ ["Enter private ad text: "; "Enter expiration date (YYYY-MM-DD): "])
              (fun _ => Spec.nov_2026) 1).
Proof.
  exact (proj1 (add_record_bad_date Samples.feed "big sale" "" "31.12.2030" []
                  (Samples.json_world PNone) eq_refl)).
Defined.

Example add_record_news_demo :
  let out := Task8Console.add_record Samples.feed ["1"; "  Hello THERE "; "Paris"]
               (Samples.json_world PNone) in
  fs (snd out) !! "news_feed.txt"
  = Some (Text ("2026-11-03 09:30:00 Paris   Hello THERE " +:+ Samples.nl))
  /\ fs (snd out) !! "word-count.csv"
     = Some (Csv [[CellStr "Word"; CellStr "Count"];
                  [CellStr "hello"; CellInt 1]; [CellStr "there"; CellInt 1]]).
Proof. vm_compute. split; reflexivity. Qed.

(** ** [bubble_sort]  (task1.py 24-28) *)

Example bubble_sort_doctests :
  Task1.bubble_sort [5; 2; 9; 1; 5; 6] = Ok [1; 2; 5; 5; 6; 9]
  /\ Task1.bubble_sort [3; 3; 3; 3; 3] = Ok [3; 3; 3; 3; 3]
  /\ Task1.bubble_sort [] = Ok [].
Proof. vm_compute. repeat split; reflexivity. Qed.

Section BubbleSort.
Import Task1.

Lemma compare_swap_at (front : list Z) (a b : Z) (back : list Z) :
  compare_swap (front ++ a :: b :: back) (length front)
  = Ok (front ++ (if b <? a then b :: a :: back else a :: b :: back)).
Proof.
  unfold compare_swap.
  rewrite (list_lookup_middle front (b :: back) a (length front) eq_refl).
  replace (length front + 1)%nat with (length (front ++ [a])) by (rewrite length_app; reflexivity).
  replace (front ++ a :: b :: back) with ((front ++ [a]) ++ b :: back) at 1
    by (rewrite <- app_assoc; reflexivity).
  rewrite (list_lookup_middle (front ++ [a]) back b _ eq_refl).
  destruct (b <? a); [|reflexivity]. f_equal.
  rewrite (insert_app_r_alt front (a :: b :: back)) by lia.
  rewrite Nat.sub_diag. cbn [insert list_insert].
  replace (front ++ b :: b :: back) with ((front ++ [b]) ++ b :: back)
    by (rewrite <- app_assoc; reflexivity).
  replace (length (front ++ [a])) with (length (front ++ [b]))
    by (rewrite !length_app; reflexivity).
  rewrite (insert_app_r_alt (front ++ [b]) (b :: back)) by lia.
  rewrite Nat.sub_diag. cbn [insert list_insert]. rewrite <- app_assoc. reflexivity.
Qed.

(** The inner loop from position [length front] on is [bubble]. *)
Lemma loop_bubble (k : nat) :
  forall (front l : list Z),
    (k < length l)%nat ->
    loop compare_swap (seq (length front) k) (front ++ l) = Ok (front ++ bubble k l).
Proof.
  induction k as [|k IH]; intros front l Hk; cbn [seq loop].
  - destruct l; reflexivity.
  - destruct l as [|a [|b rest]]; cbn [length] in Hk; try lia.
    rewrite compare_swap_at. cbn [rbind bubble].
    destruct (b <? a).
    + replace (front ++ b :: a :: rest) with ((front ++ [b]) ++ a :: rest)
        by (rewrite <- app_assoc; reflexivity).
      replace (S (length front)) with (length (front ++ [b]))
        by (rewrite length_app; cbn; lia).
      rewrite IH by (cbn [length]; lia). rewrite <- app_assoc. reflexivity.
    + replace (front ++ a :: b :: rest) with ((front ++ [a]) ++ b :: rest)
        by (rewrite <- app_assoc; reflexivity).
      replace (S (length front)) with (length (front ++ [a]))
        by (rewrite length_app; cbn; lia).
      rewrite IH by (cbn [length]; lia). rewrite <- app_assoc. reflexivity.
Qed.

Lemma bubble_app (k : nat) :
  forall (l tail : list Z), (k < length l)%nat -> bubble k (l ++ tail) = bubble k l ++ tail.
Proof.
  induction k as [|k IH]; intros l tail Hk.
  - destruct l as [|a [|b rest]]; cbn [bubble app]; reflexivity.
  - destruct l as [|a [|b rest]]; cbn [length] in Hk; try lia.
    cbn [app bubble]. destruct (b <? a).
    + pose proof (IH (a :: rest) tail ltac:(cbn [length]; lia)) as E.
      cbn [app] in E. rewrite E. reflexivity.
    + pose proof (IH (b :: rest) tail ltac:(cbn [length]; lia)) as E.
      cbn [app] in E. rewrite E. reflexivity.
Qed.

Lemma bubble_perm (k : nat) : forall l : list Z, Permutation (bubble k l) l.
Proof.
  induction k as [|k IH]; intros l; [destruct l; reflexivity|].
  destruct l as [|a [|b rest]]; cbn [bubble]; try reflexivity.
  destruct (b <? a).
  - rewrite (IH (a :: rest)). apply perm_swap.
  - rewrite (IH (b :: rest)). reflexivity.
Qed.

(** A full pass over a non-empty list leaves its largest element last. *)
Lemma bubble_last (k : nat) :
  forall l : list Z,
    length l = S k ->
    exists front m, bubble k l = front ++ [m] /\ Forall (fun x => x <= m) front.
Proof.
  induction k as [|k IH]; intros l Hlen.
  - destruct l as [|a [|b rest]]; cbn [length] in Hlen; try lia.
    exists [], a. split; [reflexivity | constructor].
  - destruct l as [|a [|b rest]]; cbn [length] in Hlen; try lia.
    cbn [bubble]. destruct (Z.ltb_spec b a) as [Hlt|Hge].
    + destruct (IH (a :: rest)) as (front & m & Heq & Hall); [cbn [length]; lia|].
      exists (b :: front), m. rewrite Heq. split; [reflexivity|].
      constructor; [|exact Hall].
      assert (Hin : In a (front ++ [m])).
      { rewrite <- Heq. apply (Permutation_in a (Permutation_sym (bubble_perm k (a :: rest)))).
        left. reflexivity. }
      apply in_app_iff in Hin as [Hin|[<-|[]]]; [|lia].
      rewrite List.Forall_forall in Hall. specialize (Hall a Hin). lia.
    + destruct (IH (b :: rest)) as (front & m & Heq & Hall); [cbn [length]; lia|].
      exists (a :: front), m. rewrite Heq. split; [reflexivity|].
      constructor; [|exact Hall].
      assert (Hin : In b (front ++ [m])).
      { rewrite <- Heq. apply (Permutation_in b (Permutation_sym (bubble_perm k (b :: rest)))).
        left. reflexivity. }
      apply in_app_iff in Hin as [Hin|[<-|[]]]; [|lia].
      rewrite List.Forall_forall in Hall. specialize (Hall b Hin). lia.
Qed.

End BubbleSort.

Section BubbleSortCorrect.
Import Task1.

Lemma pass_bubble (n i : nat) (u t : list Z) :
  length u = (n - i)%nat -> u <> [] ->
  pass n (u ++ t) i = Ok (bubble (n - i - 1) u ++ t).
Proof.
  intros Hlen Hne. unfold pass.
  assert (Hk : (n - i - 1 < length u)%nat).
  { destruct u; [congruence|]. cbn [length] in *. lia. }
  pose proof (loop_bubble (n - i - 1) [] (u ++ t)) as Hloop.
  cbn [app length] in Hloop. rewrite Hloop by (rewrite length_app; lia).
  rewrite bubble_app by exact Hk. reflexivity.
Qed.

Lemma passes_sort (n cnt : nat) :
  forall (i : nat) (u t : list Z),
    (i + cnt)%nat = n -> length u = cnt ->
    ascending t -> Forall (fun x => Forall (fun y => x <= y) t) u ->
    exists s, loop (pass n) (seq i cnt) (u ++ t) = Ok s
              /\ ascending s /\ Permutation s (u ++ t).
Proof.
  induction cnt as [|cnt IH]; intros i u t Hn Hlen Hasc Hle.
  - destruct u; [|discriminate]. exists t. cbn [seq loop app]. auto.
  - cbn [seq loop].
    rewrite (pass_bubble n i u t) by (try (intros ->; discriminate); lia).
    cbn [rbind].
    destruct (bubble_last (n - i - 1) u) as (front & m & Heq & Hfront); [lia|].
    pose proof (bubble_perm (n - i - 1) u) as Hperm. rewrite Heq in *.
    assert (Hm : In m u).
    { apply (Permutation_in m Hperm), in_app_iff. right. left. reflexivity. }
    assert (Hsub : forall x, In x front -> In x u).
    { intros x Hx. apply (Permutation_in x Hperm), in_app_iff. left. exact Hx. }
    rewrite List.Forall_forall in Hle.
    replace ((front ++ [m]) ++ t) with (front ++ m :: t) by (rewrite <- app_assoc; reflexivity).
    destruct (IH (S i) front (m :: t)) as (s & Hrun & Hs & Hps).
    + lia.
    + apply Permutation_length in Hperm. rewrite length_app in Hperm. cbn [length] in Hperm. lia.
    + split; [apply Hle, Hm | exact Hasc].
    + apply List.Forall_forall. intros x Hx. constructor.
      * rewrite List.Forall_forall in Hfront. apply Hfront, Hx.
      * apply Hle, Hsub, Hx.
    + exists s. split; [exact Hrun|]. split; [exact Hs|].
      rewrite Hps. rewrite <- Hperm, <- app_assoc. reflexivity.
Qed.

(** X19.  [bubble_sort] never indexes out of range; the list it leaves
    is in ascending order and is a rearrangement of the list it was
    given. *)
Theorem bubble_sort_sorts (arr : list Z) :
  exists sorted,
    bubble_sort arr = Ok sorted /\ ascending sorted /\ Permutation sorted arr.
Proof.
  unfold bubble_sort.
  destruct (passes_sort (length arr) (length arr) 0 arr []) as (s & Hrun & Hs & Hperm).
  - reflexivity.
  - reflexivity.
  - exact I.
  - apply List.Forall_forall. intros x _. constructor.
  - rewrite app_nil_r in Hrun, Hperm. eauto.
Qed.

End BubbleSortCorrect.

(** ** [merge_dicts]  (task2.py 50-63, task4.py 34-41) *)

Example merge_dicts_task2_docstring_input :
  Merge.merge_dicts_task2 [[("a", 5); ("b", 7); ("g", 11)]; [("a", 3); ("c", 35); ("g", 42)]]
  = Some [("a", 5); ("b", 7); ("g", 42); ("c", 35)]
  /\ Merge.key_tracker
       (Merge.merge [[("a", 5); ("b", 7); ("g", 11)]; [("a", 3); ("c", 35); ("g", 42)]])
     = [("a", 1%nat); ("b", 1%nat); ("g", 2%nat); ("c", 2%nat)].
Proof. vm_compute. split; reflexivity. Qed.

Section MergeDicts.
Import Merge.

Lemma dict_get_set_same {V} (d : list (string * V)) (k : string) (v : V) :
  dict_get (dict_set d k v) k = Some v.
Proof.
  induction d as [|[k' v'] d IH]; cbn [dict_set dict_get].
  - rewrite String.eqb_refl. reflexivity.
  - destruct (String.eqb k' k) eqn:Hk; cbn [dict_get]; rewrite Hk; [reflexivity | exact IH].
Qed.

Lemma dict_get_set_other {V} (d : list (string * V)) (k k' : string) (v : V) :
  k <> k' -> dict_get (dict_set d k v) k' = dict_get d k'.
Proof.
  intros Hne. induction d as [|[x y] d IH]; cbn [dict_set dict_get].
  - destruct (String.eqb_spec k k'); [contradiction | reflexivity].
  - destruct (String.eqb_spec x k) as [->|Hx]; cbn [dict_get].
    + destruct (String.eqb_spec k k'); [contradiction | reflexivity].
    + destruct (String.eqb x k'); [reflexivity | exact IH].
Qed.

Lemma step_tracks (index : nat) (seen : list (nat * (string * Z))) (st : state)
    (key : string) (value : Z) :
  tracks seen st ->
  (forall j item, In (j, item) seen -> (j <= index)%nat) ->
  tracks (seen ++ [(index, (key, value))]) (step index st (key, value)).
Proof.
  intros Htracks Hbound k. specialize (Htracks k).
  destruct (string_dec key k) as [->|Hne].
  - unfold step. destruct (dict_get (merged_dict st) k) as [old|] eqn:Hold.
    + destruct Htracks as (i & Hi & Hin & Hbest).
      destruct (Z.ltb_spec old value) as [Hlt|Hge]; cbn [merged_dict key_tracker].
      * rewrite !dict_get_set_same. exists index. split; [reflexivity|]. split.
        -- apply in_app_iff. right. left. reflexivity.
        -- intros j v [Hseen|[[= <- <-]|[]]]%in_app_iff; [|split; [lia | auto]].
           destruct (Hbest j v Hseen). split; [lia | intros ->; lia].
      * rewrite Hold. exists i. split; [exact Hi|]. split.
        -- apply in_app_iff. left. exact Hin.
        -- intros j v [Hseen|[[= <- <-]|[]]]%in_app_iff; [apply Hbest, Hseen|].
           split; [lia|]. intros _. apply (Hbound i _ Hin).
    + destruct Htracks as [_ Hnone]. cbn [merged_dict key_tracker].
      rewrite !dict_get_set_same. exists index. split; [reflexivity|]. split.
      * apply in_app_iff. right. left. reflexivity.
      * intros j v [Hseen|[[= <- <-]|[]]]%in_app_iff; [|split; [lia | auto]].
        destruct (Hnone j v Hseen).
  - assert (Hget : dict_get (merged_dict (step index st (key, value))) k
                   = dict_get (merged_dict st) k
                   /\ dict_get (key_tracker (step index st (key, value))) k
                      = dict_get (key_tracker st) k).
    { unfold step. destruct (dict_get (merged_dict st) key) as [old|];
        [destruct (old <? value)|]; cbn [merged_dict key_tracker];
        rewrite ?dict_get_set_other by exact Hne; split; reflexivity. }
    destruct Hget as [-> ->].
    assert (Hsame : forall j v, In (j, (k, v)) (seen ++ [(index, (key, value))])
                                <-> In (j, (k, v)) seen).
    { intros j v. rewrite in_app_iff. cbn [In]. split; [|tauto].
      intros [H|[[= _ Hk _]|[]]]; [exact H | congruence]. }
    destruct (dict_get (merged_dict st) k) as [best|].
    + destruct Htracks as (i & Hi & Hin & Hbest). exists i.
      split; [exact Hi|]. split; [apply Hsame, Hin|].
      intros j v Hjv. apply Hbest, Hsame, Hjv.
    + destruct Htracks as [Hnone Hno]. split; [exact Hnone|].
      intros j v Hjv. apply (Hno j v), Hsame, Hjv.
Qed.

Lemma fold_step_tracks (index : nat) (d : list (string * Z)) :
  forall (seen : list (nat * (string * Z))) (st : state),
    tracks seen st ->
    (forall j item, In (j, item) seen -> (j <= index)%nat) ->
    tracks (seen ++ map (fun item => (index, item)) d) (fold_left (step index) d st).
Proof.
  induction d as [|[key value] d IH]; intros seen st Htracks Hbound; cbn [map fold_left].
  - rewrite app_nil_r. exact Htracks.
  - replace (seen ++ (index, (key, value)) :: map (fun item => (index, item)) d)
      with ((seen ++ [(index, (key, value))]) ++ map (fun item => (index, item)) d)
      by (rewrite <- app_assoc; reflexivity).
    apply IH; [apply step_tracks; assumption|].
    intros j item [Hin|[[= <- _]|[]]]%in_app_iff; [eapply Hbound, Hin | lia].
Qed.

Lemma merge_from_tracks (list_of_dicts : list (list (string * Z))) :
  forall (index : nat) (seen : list (nat * (string * Z))) (st : state),
    tracks seen st ->
    (forall j item, In (j, item) seen -> (j <= index)%nat) ->
    tracks (seen ++ visited index list_of_dicts) (merge_from index list_of_dicts st).
Proof.
  induction list_of_dicts as [|d rest IH]; intros index seen st Htracks Hbound;
    cbn [visited merge_from].
  - rewrite app_nil_r. exact Htracks.
  - rewrite app_assoc. apply IH; [apply fold_step_tracks; assumption|].
    intros j item [Hin|Hin]%in_app_iff.
    + specialize (Hbound j item Hin). lia.
    + apply in_map_iff in Hin as (x & [= <- _] & _). lia.
Qed.

Lemma visited_In (list_of_dicts : list (list (string * Z))) :
  forall (index j : nat) (item : string * Z),
    In (j, item) (visited index list_of_dicts)
    <-> (index <= j)%nat
         /\ exists d, list_of_dicts !! (j - index)%nat = Some d /\ In item d.
Proof.
  induction list_of_dicts as [|d rest IH]; intros index j item; cbn [visited].
  - split; [intros [] | intros (_ & d & Hd & _); discriminate].
  - rewrite in_app_iff, in_map_iff, IH. split.
    + intros [(x & [= <- <-] & Hx)|(Hle & d' & Hd' & Hin)].
      * split; [lia|]. exists d. rewrite Nat.sub_diag. auto.
      * split; [lia|]. exists d'. split; [|exact Hin].
        replace (j - index)%nat with (S (j - S index)) by lia. exact Hd'.
    + intros (Hle & d' & Hd' & Hin).
      destruct (decide (j = index)) as [->|Hne].
      * left. rewrite Nat.sub_diag in Hd'. injection Hd' as <-. eauto.
      * right. split; [lia|]. exists d'. split; [|exact Hin].
        replace (j - index)%nat with (S (j - S index)) in Hd' by lia. exact Hd'.
Qed.

(** X20.  After the two loops of [merge_dicts], a key is in
    [merged_dict] exactly when some dict of the list has it; its value
    is the largest value any dict gives it, and [key_tracker] holds the
    1-based position of the first dict that gives it that value. *)
Theorem merge_tracks_maximum (list_of_dicts : list (list (string * Z))) (k : string) :
  match dict_get (merged_dict (merge list_of_dicts)) k with
  | None =>
      dict_get (key_tracker (merge list_of_dicts)) k = None
      /\ forall d v, In d list_of_dicts -> ~ In (k, v) d
  | Some best =>
      exists i d,
        dict_get (key_tracker (merge list_of_dicts)) k = Some (S i)
        /\ list_of_dicts !! i = Some d /\ In (k, best) d
        /\ forall j d' v,
             list_of_dicts !! j = Some d' -> In (k, v) d' ->
             v <= best /\ (v = best -> (i <= j)%nat)
  end.
Proof.
  pose proof (merge_from_tracks list_of_dicts 1 [] (mk_state [] [])) as Htracks.
  cbn [app] in Htracks. fold (merge list_of_dicts) in Htracks.
  specialize (Htracks ltac:(intros k'; cbn; split; [reflexivity | tauto])
                      ltac:(intros j item []) k).
  destruct (dict_get (merged_dict (merge list_of_dicts)) k) as [best|].
  - destruct Htracks as (i & Hi & Hin & Hbest).
    apply visited_In in Hin as (Hle & d & Hd & Hin).
    destruct i as [|i]; [lia|]. cbn [Nat.sub] in Hd. rewrite Nat.sub_0_r in Hd.
    exists i, d. split; [exact Hi|]. split; [exact Hd|]. split; [exact Hin|].
    intros j d' v Hd' Hin'.
    destruct (Hbest (S j) v) as [Hv Hfirst].
    + apply visited_In. split; [lia|]. exists d'. cbn [Nat.sub]. rewrite Nat.sub_0_r. auto.
    + split; [exact Hv|]. intros Heq. specialize (Hfirst Heq). lia.
  - destruct Htracks as [Hnone Hno]. split; [exact Hnone|].
    intros d v Hd Hin. apply list_elem_of_In, list_elem_of_lookup in Hd as [j Hj].
    apply (Hno (S j) v), visited_In. split; [lia|]. exists d.
    cbn [Nat.sub]. rewrite Nat.sub_0_r. auto.
Qed.

Lemma merge_tracks (list_of_dicts : list (list (string * Z))) :
  tracks (visited 1 list_of_dicts) (merge list_of_dicts).
Proof.
  apply (merge_from_tracks list_of_dicts 1 [] (mk_state [] [])).
  - intros k. cbn. split; [reflexivity | tauto].
  - intros j item [].
Qed.

Lemma dict_get_None {V} (d : list (string * V)) (k : string) :
  dict_get d k = None <-> ~ In k (map fst d).
Proof.
  induction d as [|[x y] d IH]; cbn [dict_get map fst In]; [tauto|].
  destruct (String.eqb_spec x k) as [->|Hne].
  - split; [discriminate | intros H; destruct H; auto].
  - rewrite IH. tauto.
Qed.

Lemma dict_get_Some_In {V} (d : list (string * V)) (k : string) (v : V) :
  dict_get d k = Some v -> In (k, v) d.
Proof.
  induction d as [|[x y] d IH]; cbn [dict_get In]; [discriminate|].
  destruct (String.eqb_spec x k) as [->|Hne]; [intros [= ->]; auto | auto].
Qed.

Lemma In_dict_get {V} (d : list (string * V)) (k : string) (v : V) :
  List.NoDup (map fst d) -> In (k, v) d -> dict_get d k = Some v.
Proof.
  induction d as [|[x y] d IH]; cbn [dict_get In map fst]; [tauto|].
  intros Hnd [[= -> ->]|Hin]; [rewrite String.eqb_refl; reflexivity|].
  apply List.NoDup_cons_iff in Hnd as [Hx Hnd].
  destruct (String.eqb_spec x k) as [->|Hne]; [|auto].
  destruct Hx. apply in_map_iff. exists (k, v). auto.
Qed.

Lemma dict_set_fresh {V} (d : list (string * V)) (k : string) (v : V) :
  ~ In k (map fst d) -> dict_set d k v = d ++ [(k, v)].
Proof.
  induction d as [|[x y] d IH]; cbn [dict_set map fst In app]; [reflexivity|].
  intros Hno. destruct (String.eqb_spec x k) as [->|Hne]; [tauto|].
  rewrite IH by tauto. reflexivity.
Qed.

Lemma dict_set_keys {V} (d : list (string * V)) (k : string) (v : V) :
  map fst (dict_set d k v) = if dict_in k d then map fst d else map fst d ++ [k].
Proof.
  unfold dict_in. induction d as [|[x y] d IH]; cbn [dict_set dict_get map fst app];
    [reflexivity|].
  destruct (String.eqb_spec x k) as [->|Hne]; cbn [map fst]; [reflexivity|].
  rewrite IH. destruct (dict_get d k); reflexivity.
Qed.

Lemma dict_set_NoDup {V} (d : list (string * V)) (k : string) (v : V) :
  List.NoDup (map fst d) -> List.NoDup (map fst (dict_set d k v)).
Proof.
  intros Hnd. rewrite dict_set_keys. unfold dict_in.
  destruct (dict_get d k) eqn:Hget; [exact Hnd|].
  apply dict_get_None in Hget.
  apply NoDup_ListNoDup, NoDup_app. split; [apply NoDup_ListNoDup, Hnd|]. split.
  - intros x Hx [->|[]%elem_of_nil]%elem_of_cons. apply Hget, list_elem_of_In, Hx.
  - apply NoDup_singleton.
Qed.

Lemma step_NoDup (index : nat) (st : state) (item : string * Z) :
  List.NoDup (map fst (merged_dict st)) ->
  List.NoDup (map fst (merged_dict (step index st item))).
Proof.
  intros Hnd. destruct item as [key value]. unfold step.
  destruct (dict_get (merged_dict st) key) as [old|]; [destruct (old <? value)|];
    cbn [merged_dict]; auto using dict_set_NoDup.
Qed.

Lemma merge_NoDup (list_of_dicts : list (list (string * Z))) :
  List.NoDup (map fst (merged_dict (merge list_of_dicts))).
Proof.
  unfold merge.
  assert (Hfold : forall index d st,
             List.NoDup (map fst (merged_dict st)) ->
             List.NoDup (map fst (merged_dict (fold_left (step index) d st)))).
  { intros index d. induction d as [|item d IH]; intros st Hnd; cbn [fold_left];
      [exact Hnd | apply IH, step_NoDup, Hnd]. }
  assert (Hfrom : forall l index st,
             List.NoDup (map fst (merged_dict st)) ->
             List.NoDup (map fst (merged_dict (merge_from index l st)))).
  { intros l. induction l as [|d l IH]; intros index st Hnd; cbn [merge_from];
      [exact Hnd | apply IH, Hfold, Hnd]. }
  apply Hfrom. cbn. constructor.
Qed.

Lemma rename_items_from (name : string -> option string) (g : string -> string)
    (items : list (string * Z)) :
  (forall item, In item items -> name (fst item) = Some (g (fst item))) ->
  forall acc : list (string * Z),
    List.NoDup (map fst acc ++ map (fun item => g (fst item)) items) ->
    fold_left
      (fun final (item : string * Z) =>
         match final, name (fst item) with
         | Some f, Some n => Some (dict_set f n (snd item))
         | _, _ => None
         end)
      items (Some acc)
    = Some (acc ++ map (fun item => (g (fst item), snd item)) items).
Proof.
  induction items as [|[k v] items IH]; intros Hname acc Hnd; cbn [fold_left map fst snd].
  - rewrite app_nil_r. reflexivity.
  - pose proof (Hname (k, v) (or_introl eq_refl)) as Hn. cbn [fst] in Hn. rewrite Hn.
    cbn [map fst] in Hnd.
    rewrite dict_set_fresh.
    + rewrite IH.
      * rewrite <- app_assoc. reflexivity.
      * intros item Hin. apply Hname. right. exact Hin.
      * rewrite map_app, <- app_assoc. exact Hnd.
    + intros Hin. apply List.NoDup_remove_2 in Hnd. apply Hnd, in_app_iff. auto.
Qed.

Lemma rename_items_injective (name : string -> option string) (g : string -> string)
    (items : list (string * Z)) :
  (forall item, In item items -> name (fst item) = Some (g (fst item))) ->
  List.NoDup (map (fun item => g (fst item)) items) ->
  rename_items name items = Some (map (fun item => (g (fst item), snd item)) items).
Proof.
  intros Hname Hnd. unfold rename_items.
  rewrite (rename_items_from name g items Hname []); [reflexivity | exact Hnd].
Qed.

Lemma count_equal_0 (k : string) (list_of_dicts : list (list (string * Z))) :
  count_equal k list_of_dicts = 0%nat.
Proof.
  unfold count_equal. induction list_of_dicts as [|d l IH]; [reflexivity | exact IH].
Qed.

(** X21.  [merge_dicts] of task2.py never renames a key and never
    raises: [list_of_dicts.count(k)] counts the dicts equal to the str
    [k], which is 0, so the result is [merged_dict] itself, every key
    with its largest value, whatever the number of dicts that hold the
    key. *)
Theorem merge_dicts_task2_never_renames (list_of_dicts : list (list (string * Z))) :
  merge_dicts_task2 list_of_dicts = Some (merged_dict (merge list_of_dicts)).
Proof.
  unfold merge_dicts_task2, final_dict_task2.
  rewrite (rename_items_injective _ (fun k => k)).
  - f_equal. induction (merged_dict (merge list_of_dicts)) as [|[k v] d IH];
      cbn [map fst snd]; [reflexivity | rewrite IH; reflexivity].
  - intros item _. unfold name_task2. rewrite count_equal_0. reflexivity.
  - apply (merge_NoDup list_of_dicts).
Qed.

Lemma contains_append (c : ascii) (a b : string) :
  contains c (a +:+ b) = contains c a || contains c b.
Proof.
  induction a as [|x a IH]; [reflexivity|].
  rewrite append_cons. cbn [contains]. rewrite IH, orb_assoc. reflexivity.
Qed.

Lemma suffixed_has_underscore (k s : string) : contains "_" (k +:+ "_" +:+ s) = true.
Proof. rewrite !contains_append. cbn [contains]. rewrite Ascii.eqb_refl, orb_true_r. reflexivity. Qed.

Lemma suffixed_injective (k k' s s' : string) :
  contains "_" k = false -> contains "_" k' = false ->
  k +:+ "_" +:+ s = k' +:+ "_" +:+ s' -> k = k'.
Proof.
  revert k'. induction k as [|x k IH]; intros [|x' k'] Hk Hk'; rewrite ?append_cons,
    ?append_empty; cbn [contains] in *.
  - reflexivity.
  - intros [= <- _]. rewrite Ascii.eqb_refl in Hk'. discriminate.
  - intros [= -> _]. rewrite Ascii.eqb_refl in Hk. discriminate.
  - apply orb_false_iff in Hk as [_ Hk], Hk' as [_ Hk'].
    intros [= <- Heq]. f_equal. apply IH; assumption.
Qed.

(** The name task4.py gives to a key of [merged_dict]. *)
Lemma name_task4_renamed (list_of_dicts : list (list (string * Z))) (k : string) (i : nat) :
  dict_get (key_tracker (merge list_of_dicts)) k = Some i ->
  name_task4 list_of_dicts (merge list_of_dicts) k = Some (renamed list_of_dicts k i).
Proof.
  intros Hi. unfold name_task4, renamed. rewrite Hi.
  destruct (1 <? count_in k list_of_dicts)%nat; reflexivity.
Qed.

Lemma merged_key_tracked (list_of_dicts : list (list (string * Z))) (k : string) (best : Z) :
  dict_get (merged_dict (merge list_of_dicts)) k = Some best ->
  exists i d,
    dict_get (key_tracker (merge list_of_dicts)) k = Some i
    /\ In d list_of_dicts /\ In (k, best) d.
Proof.
  intros Hget. pose proof (merge_tracks list_of_dicts k) as Htracks.
  rewrite Hget in Htracks. destruct Htracks as (i & Hi & Hin & _).
  apply visited_In in Hin as (_ & d & Hd & Hin).
  exists i, d. split; [exact Hi|]. split; [|exact Hin].
  apply list_elem_of_In, list_elem_of_lookup. eauto.
Qed.

(** X22.  When no key of the dicts holds an underscore, [merge_dicts] of
    task4.py never raises and loses no key: a key that one dict has
    keeps its name and value; a key that several dicts have is stored
    once, under [key_N] with its largest value, [N] being the 1-based
    position [key_tracker] holds for it, and no longer under its own
    name. *)
Theorem merge_dicts_task4_renames (list_of_dicts : list (list (string * Z))) :
  plain_keys list_of_dicts ->
  exists final,
    merge_dicts_task4 list_of_dicts = Some final
    /\ length final = length (merged_dict (merge list_of_dicts))
    /\ forall k best,
         dict_get (merged_dict (merge list_of_dicts)) k = Some best ->
         exists i,
           dict_get (key_tracker (merge list_of_dicts)) k = Some i
           /\ dict_get final (renamed list_of_dicts k i) = Some best
           /\ ((1 <? count_in k list_of_dicts)%nat = true -> dict_get final k = None).
Proof.
  intros Hplain.
  set (st := merge list_of_dicts).
  set (g := fun k => match dict_get (key_tracker st) k with
                     | Some i => renamed list_of_dicts k i
                     | None => k
                     end).
  assert (Hkey : forall k v, In (k, v) (merged_dict st) ->
                   contains "_" k = false
                   /\ exists i, dict_get (key_tracker st) k = Some i).
  { intros k v Hin. apply In_dict_get in Hin; [|apply merge_NoDup].
    apply merged_key_tracked in Hin as (i & d & Hi & Hd & Hin).
    split; [apply (Hplain d k v Hd Hin) | eauto]. }
  assert (Hg_plain : forall k v, In (k, v) (merged_dict st) ->
                       contains "_" (g k) = false -> g k = k).
  { intros k v Hin. destruct (Hkey k v Hin) as (_ & i & Hi). unfold g, renamed.
    rewrite Hi. destruct (1 <? count_in k list_of_dicts)%nat; [|reflexivity].
    rewrite suffixed_has_underscore. discriminate. }
  assert (Hinj : forall k v k' v', In (k, v) (merged_dict st) -> In (k', v') (merged_dict st) ->
                   g k = g k' -> k = k').
  { intros k v k' v' Hin Hin' Heq.
    destruct (Hkey k v Hin) as (Hk & i & Hi), (Hkey k' v' Hin') as (Hk' & i' & Hi').
    destruct (contains "_" (g k)) eqn:Hc.
    - assert (Hc' : contains "_" (g k') = true) by (rewrite <- Heq; exact Hc).
      unfold g, renamed in Heq, Hc, Hc'. rewrite Hi in Heq, Hc. rewrite Hi' in Heq, Hc'.
      destruct (1 <? count_in k list_of_dicts)%nat; [|congruence].
      destruct (1 <? count_in k' list_of_dicts)%nat; [|congruence].
      eapply suffixed_injective; eassumption.
    - rewrite <- (Hg_plain k v Hin Hc).
      rewrite Heq in Hc. rewrite <- (Hg_plain k' v' Hin' Hc). exact Heq. }
  assert (Hnd : List.NoDup (map (fun item => g (fst item)) (merged_dict st))).
  { apply NoDup_ListNoDup.
    apply (NoDup_fmap_2_strong (fun item : string * Z => g (fst item))).
    - intros [k v] [k' v'] Hin%list_elem_of_In Hin'%list_elem_of_In Heq. cbn [fst] in Heq.
      pose proof (Hinj k v k' v' Hin Hin' Heq) as <-.
      f_equal.
      apply In_dict_get in Hin, Hin'; try apply merge_NoDup. congruence.
    - apply NoDup_ListNoDup, List.NoDup_map_inv with (f := fst), merge_NoDup. }
  exists (map (fun item => (g (fst item), snd item)) (merged_dict st)).
  split; [|split].
  - unfold merge_dicts_task4, final_dict_task4. fold st.
    apply rename_items_injective; [|exact Hnd].
    intros [k v] Hin. cbn [fst]. destruct (Hkey k v Hin) as (_ & i & Hi).
    unfold g. rewrite Hi. apply name_task4_renamed, Hi.
  - apply length_map.
  - intros k best Hget. pose proof (dict_get_Some_In _ _ _ Hget) as Hin.
    destruct (Hkey k best Hin) as (Hk & i & Hi). exists i. split; [exact Hi|]. split.
    + apply In_dict_get.
      * rewrite map_map. cbn [fst]. exact Hnd.
      * apply in_map_iff. exists (k, best). cbn [fst snd]. unfold g. rewrite Hi. auto.
    + intros Hmany. apply dict_get_None. rewrite map_map. cbn [fst].
      intros ((k', v') & Heq & Hin')%in_map_iff. cbn [fst] in Heq.
      assert (k' = k) as ->.
      { assert (Hc : contains "_" (g k') = false) by (rewrite Heq; exact Hk).
        transitivity (g k'); [symmetry; apply (Hg_plain k' v' Hin' Hc) | exact Heq]. }
      unfold g, renamed in Heq. rewrite Hi, Hmany in Heq.
      pose proof (suffixed_has_underscore k (DateTime.str_Z (Z.of_nat i))) as Hu.
      rewrite Heq in Hu. congruence.
Qed.

Lemma merge_dicts_task4_renames_witness :
  let list_of_dicts := [[("a", 5); ("b", 7); ("g", 11)]; [("a", 3); ("c", 35); ("g", 42)]] in
  exists final,
    merge_dicts_task4 list_of_dicts = Some final
    /\ length final = length (merged_dict (merge list_of_dicts))
    /\ forall k best,
         dict_get (merged_dict (merge list_of_dicts)) k = Some best ->
         exists i,
           dict_get (key_tracker (merge list_of_dicts)) k = Some i
           /\ dict_get final (renamed list_of_dicts k i) = Some best
           /\ ((1 <? count_in k list_of_dicts)%nat = true -> dict_get final k = None).
Proof.
  apply (merge_dicts_task4_renames
           [[("a", 5); ("b", 7); ("g", 11)]; [("a", 3); ("c", 35); ("g", 42)]]).
  intros d k v [<-|[<-|[]]] Hin; cbn [In] in Hin;
    repeat (destruct Hin as [[= <- <-]|Hin]; [reflexivity|]); destruct Hin.
Defined.

(** The docstring's input, and an input with an underscore in a key, on
    which the renamed key replaces another one. *)
Example merge_dicts_task4_docstring_input :
  merge_dicts_task4 [[("a", 5); ("b", 7); ("g", 11)]; [("a", 3); ("c", 35); ("g", 42)]]
  = Some [("a_1", 5); ("b", 7); ("g_2", 42); ("c", 35)]
  /\ merge_dicts_task4 [[("a", 1); ("a_1", 7)]; [("a", 0)]] = Some [("a_1", 7)].
Proof. vm_compute. split; reflexivity. Qed.

End MergeDicts.
